(** * Three-VFX: the imperative particle wrapper [VFXParticles]

    A shallow embedding of [packages/vanilla-vfx/src/VFXParticles.ts] and of
    the debug-update path of the React component of the same name.

    Conventions of the embedding.
    - A JavaScript value is a [JsValue]; a finite number is a rational and
      [NaN] is kept apart (infinities and rounding are not modelled).
    - An options object ([Record<string, any>]) is a [gmap string JsValue];
      a key bound to [JUndefined] is present (['k' in o] holds) and reads as
      [undefined], exactly as in JavaScript.
    - The classes and functions imported from [core-vfx] and [debug-vfx] are
      not part of the translated sources: they are the fields of the
      interface [VFXParticleSystem], and the wrapper is written against any
      implementation of it.
    - Every call that leaves the wrapper (into the particle system, the scene
      group or the debug panel) is appended to a ghost [trace], so that
      "what was called, on which system, how often" can be stated.
    - An [async] method is embedded run to completion: the state it returns
      is the one at the point where its promise settles. *)

From Stdlib Require Import QArith Qround Ascii Lqa.
From stdpp Require Import base option list gmap strings.
Close Scope Q_scope.

(** ** JavaScript values *)

Inductive number : Type :=
| NaN
| Num (q : Q).

Definition num_add (a b : number) : number :=
  match a, b with
  | Num x, Num y => Num (x + y)%Q
  | _, _ => NaN
  end.

Definition num_sub (a b : number) : number :=
  match a, b with
  | Num x, Num y => Num (x - y)%Q
  | _, _ => NaN
  end.

(** [a >= b]; a comparison with [NaN] is false. *)
Definition num_ge (a b : number) : bool :=
  match a, b with
  | Num x, Num y => Qle_bool y x
  | _, _ => false
  end.

(** [a > b]. *)
Definition num_gt (a b : number) : bool :=
  match a, b with
  | Num x, Num y => negb (Qle_bool x y)
  | _, _ => false
  end.

(** Truthiness of a number: [0] and [NaN] are falsy. *)
Definition num_truthy (a : number) : bool :=
  match a with
  | Num x => negb (Qeq_bool x 0)
  | NaN => false
  end.

#[local] Set Warnings "-register-all".

Inductive JsValue : Type :=
| JUndefined
| JNull
| JBool (b : bool)
| JNum (n : number)
| JStr (s : string)
| JArr (items : list JsValue)
| JObj (fields : list (string * JsValue))
| JHost (id : nat).          (* an opaque host object: geometry, texture, node *)

Abbreviation Options := (gmap string JsValue).

Definition truthy (v : JsValue) : bool :=
  match v with
  | JUndefined | JNull => false
  | JBool b => b
  | JNum n => num_truthy n
  | JStr s => negb (String.eqb s EmptyString)
  | JArr _ | JObj _ | JHost _ => true
  end.

Definition is_null (v : JsValue) : bool :=
  match v with JNull => true | _ => false end.

Definition is_undefined (v : JsValue) : bool :=
  match v with JUndefined => true | _ => false end.

Definition nullish (v : JsValue) : bool := is_null v || is_undefined v.

(** [v ?? d] *)
Definition coalesce (v d : JsValue) : JsValue := if nullish v then d else v.

(** ['k' in o] *)
Definition has_key (o : Options) (k : string) : bool :=
  bool_decide (is_Some (o !! k)).

(** [o.k] on an options object *)
Definition prop (o : Options) (k : string) : JsValue := default JUndefined (o !! k).

Fixpoint assoc (k : string) (fields : list (string * JsValue)) : JsValue :=
  match fields with
  | [] => JUndefined
  | (k', v) :: rest => if String.eqb k k' then v else assoc k rest
  end.

Definition of_nat (n : nat) : JsValue := JNum (Num (inject_Z (Z.of_nat n))).

(** [v.k] for a value that is neither [null] nor [undefined]: own fields of
    an object literal, [length] of arrays and strings; primitives and host
    handles expose none of the properties read here. *)
Definition member (v : JsValue) (k : string) : JsValue :=
  match v with
  | JObj fields => assoc k fields
  | JArr items => if String.eqb k "length" then of_nat (length items) else JUndefined
  | JStr s => if String.eqb k "length" then of_nat (String.length s) else JUndefined
  | _ => JUndefined
  end.

(** [v?.k] *)
Definition opt_member (v : JsValue) (k : string) : JsValue :=
  if nullish v then JUndefined else member v k.

(** [a === b].  Arrays and object literals carry no identity in this model
    and are never strictly equal; host objects are compared by handle. *)
Definition strict_eq (a b : JsValue) : bool :=
  match a, b with
  | JUndefined, JUndefined => true
  | JNull, JNull => true
  | JBool x, JBool y => Bool.eqb x y
  | JNum (Num x), JNum (Num y) => Qeq_bool x y
  | JStr x, JStr y => String.eqb x y
  | JHost x, JHost y => Nat.eqb x y
  | _, _ => false
  end.

(** [Object.is(a, b)], as React compares hook dependencies and state.  An
    array or object literal stands for the object it denotes, so two
    occurrences of the same contents are the same object; this is also the
    comparison of two [JSON.stringify] images. *)
Fixpoint same_value (a b : JsValue) {struct a} : bool :=
  match a, b with
  | JUndefined, JUndefined => true
  | JNull, JNull => true
  | JBool x, JBool y => Bool.eqb x y
  | JNum NaN, JNum NaN => true
  | JNum (Num x), JNum (Num y) => Qeq_bool x y
  | JStr x, JStr y => String.eqb x y
  | JHost x, JHost y => Nat.eqb x y
  | JArr xs, JArr ys =>
      (fix all2 (xs ys : list JsValue) {struct xs} : bool :=
         match xs, ys with
         | [], [] => true
         | x :: xs', y :: ys' => same_value x y && all2 xs' ys'
         | _, _ => false
         end) xs ys
  | JObj fs, JObj gs =>
      (fix all2 (fs gs : list (string * JsValue)) {struct fs} : bool :=
         match fs, gs with
         | [], [] => true
         | (k, x) :: fs', (k', y) :: gs' => String.eqb k k' && same_value x y && all2 fs' gs'
         | _, _ => false
         end) fs gs
  | _, _ => false
  end.

Fixpoint same_values (xs ys : list JsValue) : bool :=
  match xs, ys with
  | [], [] => true
  | x :: xs', y :: ys' => same_value x y && same_values xs' ys'
  | _, _ => false
  end.

(** [v[i]] when destructuring an array *)
Definition item (i : nat) (v : JsValue) : JsValue :=
  match v with
  | JArr items => nth i items JUndefined
  | _ => JUndefined
  end.

(** ** The collaborators: [core-vfx], [debug-vfx], the scene graph *)

Definition Obj := nat.        (* a render object, by identity *)
Definition Renderer := nat.   (* the WebGPU renderer, by identity *)

(** [system.features] *)
Record Features : Type := mkFeatures {
  turbulence : bool;
  attractors : bool;
  collision : bool;
  needsRotation : bool;
  needsPerParticleColor : bool;
}.

(** The functions and constants imported from [core-vfx] and [debug-vfx]
    that do not act on a particle system, and the part of ECMAScript's
    [ToNumber] that needs parsing or [ToPrimitive]. *)
Class Imports : Type := {
  isNonDefaultRotation : JsValue -> bool;
  DEFAULT_VALUES : Options;
  GeometryType_NONE : JsValue;
  createGeometry : JsValue -> JsValue -> JsValue;
  ToNumber_other : JsValue -> number;
}.

(** What the wrapper uses of a [VFXParticleSystem]: a mutable object, here a
    value of type [Sys] replaced on every mutating call.  [None] from the
    constructor stands for a throw, [None] from [sys_init] for a rejected
    promise. *)
Class VFXParticleSystem (Sys : Type) : Type := {
  (* [new VFXParticleSystem(renderer, options, curveTexture?, curveFlags?)],
     given a fresh object identity *)
  sys_new : nat -> Renderer -> Options -> JsValue -> JsValue -> option Sys;
  sys_init : Sys -> option Sys;
  (* fields read by the wrapper *)
  sys_initialized : Sys -> bool;
  sys_features : Sys -> Features;
  sys_delay : Sys -> number;              (* normalizedProps.delay *)
  sys_emitCount : Sys -> number;          (* normalizedProps.emitCount *)
  sys_position : Sys -> number * number * number;
  sys_renderObject : Sys -> Obj;
  sys_material : Sys -> bool;             (* is [material] truthy *)
  (* methods *)
  sys_spawn : JsValue -> JsValue -> JsValue -> JsValue -> JsValue -> Sys -> Sys;
  sys_update : number -> Sys -> Sys;
  sys_dispose : Sys -> Sys;
  sys_start : Sys -> Sys;
  sys_stop : Sys -> Sys;
  sys_clear : Sys -> Sys;
  sys_setPosition : JsValue -> Sys -> Sys;
  sys_setDelay : JsValue -> Sys -> Sys;
  sys_setEmitCount : JsValue -> Sys -> Sys;
  sys_setBlending : JsValue -> Sys -> Sys;  (* material.blending = v; needsUpdate = true *)
  sys_invalidate : Sys -> Sys;              (* initialized = false; nextIndex = 0 *)
  (* uniforms.deltaTime.value = delta; uniforms.turbulenceTime.value += delta * speed;
     renderer.computeAsync(computeUpdate) *)
  sys_compute : number -> JsValue -> Sys -> Sys;
  (* [updateUniformsPartial(system.uniforms, values)] of core-vfx *)
  updateUniformsPartial : Options -> Sys -> Sys;
}.

(** [ToNumber] *)
Definition ToNumber `{!Imports} (v : JsValue) : number :=
  match v with
  | JUndefined => NaN
  | JNull => Num 0
  | JBool b => Num (if b then 1 else 0)
  | JNum n => n
  | JStr _ | JArr _ | JObj _ | JHost _ => ToNumber_other v
  end.

(** [v > n] for a numeric literal [n] *)
Definition js_gt `{!Imports} (v : JsValue) (n : Q) : bool := num_gt (ToNumber v) (Num n).

(** Calls leaving the wrapper, in program order. *)
Inductive Event (Sys : Type) : Type :=
| ENew (id : nat) (r : Renderer) (cfg : Options) (curveTexture : JsValue) (made : option Sys)
| EInit (s : Sys) (ready : option Sys)
| EDispose (s : Sys)
| ESpawn (s : Sys) (x y z count overrides : JsValue)
| EUpdate (s : Sys) (delta : number)
| EStart (s : Sys)
| EStop (s : Sys)
| EClear (s : Sys)
| ESetPosition (s : Sys) (v : JsValue)
| ESetDelay (s : Sys) (v : JsValue)
| ESetEmitCount (s : Sys) (v : JsValue)
| ESetBlending (s : Sys) (v : JsValue)
| EInvalidate (s : Sys)
| ECompute (s : Sys) (delta : number)
| EDisposeMaterial (s : Sys)
| EDisposeGeometry (g : JsValue)
| EUniforms (s : Sys) (values : Options)
| EGroupAdd (o : Obj)
| EGroupRemove (o : Obj)
| ECreateGeometry (type args : JsValue)
| ERenderDebugPanel (values : Options)
| EUpdateDebugPanel (values : Options)
| EDestroyDebugPanel.

Arguments ENew {Sys}.
Arguments EInit {Sys}.
Arguments EDispose {Sys}.
Arguments ESpawn {Sys}.
Arguments EUpdate {Sys}.
Arguments EStart {Sys}.
Arguments EStop {Sys}.
Arguments EClear {Sys}.
Arguments ESetPosition {Sys}.
Arguments ESetDelay {Sys}.
Arguments ESetEmitCount {Sys}.
Arguments ESetBlending {Sys}.
Arguments EInvalidate {Sys}.
Arguments ECompute {Sys}.
Arguments EDisposeMaterial {Sys}.
Arguments EDisposeGeometry {Sys}.
Arguments EUniforms {Sys}.
Arguments EGroupAdd {Sys}.
Arguments EGroupRemove {Sys}.
Arguments ECreateGeometry {Sys}.
Arguments ERenderDebugPanel {Sys}.
Arguments EUpdateDebugPanel {Sys}.
Arguments EDestroyDebugPanel {Sys}.

(** [Object3D.remove] and [Object3D.add] on the children of the group. *)
Definition group_remove (o : Obj) (children : list Obj) : list Obj :=
  filter (λ c, c ≠ o) children.

Definition group_add (o : Obj) (children : list Obj) : list Obj :=
  group_remove o children ++ [o].

(** ** The instance state *)

Record VFXParticles (Sys : Type) : Type := mkVFXParticles {
  group : list Obj;
  _renderer : Renderer;
  _config : Options;
  _system : option Sys;
  _emitting : JsValue;
  _emitAccumulator : number;
  _debug : JsValue;
  _initialized : bool;
  trace : list (Event Sys);       (* ghost: the calls made so far *)
  fresh : nat;                    (* ghost: the next unused object identity *)
}.

Arguments mkVFXParticles {Sys}.
Arguments group {Sys}.
Arguments _renderer {Sys}.
Arguments _config {Sys}.
Arguments _system {Sys}.
Arguments _emitting {Sys}.
Arguments _emitAccumulator {Sys}.
Arguments _debug {Sys}.
Arguments _initialized {Sys}.
Arguments trace {Sys}.
Arguments fresh {Sys}.

(** ** The class [VFXParticles] *)

Section Wrapper.
Context `{!Imports} {Sys : Type} `{!VFXParticleSystem Sys}.

Abbreviation State := (VFXParticles Sys).

Definition set_group (g : list Obj) (st : State) : State :=
  mkVFXParticles g (_renderer st) (_config st) (_system st) (_emitting st)
    (_emitAccumulator st) (_debug st) (_initialized st) (trace st) (fresh st).

Definition set_config (c : Options) (st : State) : State :=
  mkVFXParticles (group st) (_renderer st) c (_system st) (_emitting st)
    (_emitAccumulator st) (_debug st) (_initialized st) (trace st) (fresh st).

Definition set_system (s : option Sys) (st : State) : State :=
  mkVFXParticles (group st) (_renderer st) (_config st) s (_emitting st)
    (_emitAccumulator st) (_debug st) (_initialized st) (trace st) (fresh st).

Definition set_emitting (e : JsValue) (st : State) : State :=
  mkVFXParticles (group st) (_renderer st) (_config st) (_system st) e
    (_emitAccumulator st) (_debug st) (_initialized st) (trace st) (fresh st).

Definition set_emitAccumulator (a : number) (st : State) : State :=
  mkVFXParticles (group st) (_renderer st) (_config st) (_system st) (_emitting st)
    a (_debug st) (_initialized st) (trace st) (fresh st).

Definition set_initialized (b : bool) (st : State) : State :=
  mkVFXParticles (group st) (_renderer st) (_config st) (_system st) (_emitting st)
    (_emitAccumulator st) (_debug st) b (trace st) (fresh st).

Definition set_fresh (n : nat) (st : State) : State :=
  mkVFXParticles (group st) (_renderer st) (_config st) (_system st) (_emitting st)
    (_emitAccumulator st) (_debug st) (_initialized st) (trace st) n.

Definition log (e : Event Sys) (st : State) : State :=
  mkVFXParticles (group st) (_renderer st) (_config st) (_system st) (_emitting st)
    (_emitAccumulator st) (_debug st) (_initialized st) (trace st ++ [e]) (fresh st).

(** [this._system.m(...)] for a mutating method [m] of a system that is
    known to be there: the object is updated in place and the call logged. *)
Definition call (m : Sys -> Sys) (e : Sys -> Event Sys) (s : Sys) (st : State) : State :=
  log (e s) (set_system (Some (m s)) st).

(** [constructor(renderer, options?)] *)
Definition new_VFXParticles (renderer : Renderer) (options : option Options) : State :=
  mkVFXParticles
    []
    renderer
    (delete "debug" (default ∅ options))
    None
    (JBool true)
    (Num 0)
    (coalesce (from_option (λ o, prop o "debug") JUndefined options) (JBool false))
    false
    []
    0.

(** [get isEmitting()] *)
Definition isEmitting (st : State) : JsValue := _emitting st.

(** [private async _recreateSystem()], run until its promise settles; the
    boolean tells whether it was fulfilled.  The old system is removed and
    disposed before the new one is constructed; [_system] keeps pointing at
    it until the new one has been initialised. *)
Definition _recreateSystem (st : State) : State * bool :=
  let st1 :=
    match _system st with
    | Some old =>
        let st' := log (EGroupRemove (sys_renderObject old))
                     (set_group (group_remove (sys_renderObject old) (group st)) st) in
        call sys_dispose EDispose old st'
    | None => st
    end in
  let made := sys_new (fresh st1) (_renderer st1) (_config st1) JUndefined JUndefined in
  let st2 := log (ENew (fresh st1) (_renderer st1) (_config st1) JUndefined made)
               (set_fresh (S (fresh st1)) st1) in
  match made with
  | None => (st2, false)
  | Some s =>
      let ready := sys_init s in
      let st3 := log (EInit s ready) st2 in
      match ready with
      | None => (st3, false)
      | Some s' =>
          let st4 := set_system (Some s') st3 in
          let st5 := log (EGroupAdd (sys_renderObject s'))
                       (set_group (group_add (sys_renderObject s') (group st4)) st4) in
          (set_emitAccumulator (Num 0) st5, true)
      end
  end.

(** [async init()] *)
Definition init (st : State) : State * bool :=
  if _initialized st then (st, true)
  else
    let st1 :=
      if truthy (_debug st) then set_config (_config st ∪ DEFAULT_VALUES) st else st in
    let '(st2, ok) := _recreateSystem st1 in
    if ok then
      let st3 := set_initialized true st2 in
      if truthy (_debug st3)
      then (log (ERenderDebugPanel (_config st3)) st3, true)
      else (st3, true)
    else (st2, false).

(** [update(delta)] *)
Definition update (delta : number) (st : State) : State :=
  match _system st with
  | None => st
  | Some s =>
      if negb (sys_initialized s) then st
      else
        let st1 :=
          if truthy (_emitting st) then
            let delay := sys_delay s in
            let emitCount := sys_emitCount s in
            let '(px, py, pz) := sys_position s in
            if negb (num_truthy delay) then
              call (sys_spawn (JNum px) (JNum py) (JNum pz) (JNum emitCount) JUndefined)
                   (λ s, ESpawn s (JNum px) (JNum py) (JNum pz) (JNum emitCount) JUndefined)
                   s st
            else
              let st' := set_emitAccumulator (num_add (_emitAccumulator st) delta) st in
              if num_ge (_emitAccumulator st') delay then
                call (sys_spawn (JNum px) (JNum py) (JNum pz) (JNum emitCount) JUndefined)
                     (λ s, ESpawn s (JNum px) (JNum py) (JNum pz) (JNum emitCount) JUndefined)
                     s (set_emitAccumulator (num_sub (_emitAccumulator st') delay) st')
              else st'
          else st in
        match _system st1 with
        | Some s1 => call (sys_update delta) (λ s, EUpdate s delta) s1 st1
        | None => st1
        end
  end.

(** [dispose()] *)
Definition dispose (st : State) : State :=
  let st1 :=
    match _system st with
    | Some s =>
        let st' := log (EGroupRemove (sys_renderObject s))
                     (set_group (group_remove (sys_renderObject s) (group st)) st) in
        set_system None (call sys_dispose EDispose s st')
    | None => st
    end in
  let st2 := if truthy (_debug st1) then log EDestroyDebugPanel st1 else st1 in
  set_initialized false st2.

(** [spawn(x = 0, y = 0, z = 0, count?, overrides?)]; an omitted argument
    is [None]. *)
Definition spawn (x y z count : option number) (overrides : JsValue) (st : State) : State :=
  match _system st with
  | None => st
  | Some s =>
      let x' := JNum (default (Num 0) x) in
      let y' := JNum (default (Num 0) y) in
      let z' := JNum (default (Num 0) z) in
      let count' := JNum (default (sys_emitCount s) count) in
      let overrides' := coalesce overrides JNull in
      call (sys_spawn x' y' z' count' overrides')
           (λ s, ESpawn s x' y' z' count' overrides') s st
  end.

(** [start()] *)
Definition start (st : State) : State :=
  let st1 := set_emitAccumulator (Num 0) (set_emitting (JBool true) st) in
  match _system st1 with
  | Some s => call sys_start EStart s st1
  | None => st1
  end.

(** [stop()] *)
Definition stop (st : State) : State :=
  let st1 := set_emitting (JBool false) st in
  match _system st1 with
  | Some s => call sys_stop EStop s st1
  | None => st1
  end.

(** [clear()] *)
Definition clear (st : State) : State :=
  match _system st with
  | Some s => call sys_clear EClear s st
  | None => st
  end.

(** [this._system.m(...)] behind a guard that established [this._system] *)
Definition on_system (m : Sys -> Sys) (e : Sys -> Event Sys) (st : State) : State :=
  match _system st with
  | Some s => call m e s st
  | None => st
  end.

(** [this._system?.features.f ?? false] *)
Definition old_feature (f : Features -> bool) (st : State) : bool :=
  from_option (λ s, f (sys_features s)) false (_system st).

(** The feature flags as [setProps] derives them from an options object. *)
Definition hasTurbulence (o : Options) : bool :=
  negb (is_null (prop o "turbulence"))
  && js_gt (coalesce (opt_member (prop o "turbulence") "intensity") (JNum (Num 0))) 0.

Definition hasAttractors (o : Options) : bool :=
  negb (is_null (prop o "attractors"))
  && js_gt (opt_member (prop o "attractors") "length") 0.

Definition hasCollision (o : Options) : bool :=
  negb (is_null (prop o "collision")) && negb (is_undefined (prop o "collision")).

Definition needsRotationOf (o : Options) : bool :=
  let rot := coalesce (prop o "rotation") (JArr [JNum (Num 0); JNum (Num 0)]) in
  let rotSpeed := coalesce (prop o "rotationSpeed") (JArr [JNum (Num 0); JNum (Num 0)]) in
  isNonDefaultRotation rot || isNonDefaultRotation rotSpeed.

Definition needsPerParticleColorOf (o : Options) : bool :=
  let startLen := coalesce (opt_member (prop o "colorStart") "length") (JNum (Num 1)) in
  let hasColorEnd :=
    negb (is_null (prop o "colorEnd")) && negb (is_undefined (prop o "colorEnd")) in
  js_gt startLen 1 || hasColorEnd.

(** "Handle colorStart→colorEnd fallback before calling core": the two
    rewritings of [newValues] at the head of [_applyUniformUpdates]. *)
Definition colour_fallback (config newValues : Options) : Options :=
  let newValues :=
    if has_key newValues "colorStart" && truthy (prop newValues "colorStart")
       && negb (truthy (prop config "colorEnd"))
    then <["colorEnd" := JNull]> newValues
    else newValues in
  if has_key newValues "colorEnd" && negb (truthy (prop newValues "colorEnd"))
  then <["colorStart" :=
           coalesce (prop newValues "colorStart")
             (coalesce (prop config "colorStart") (JArr [JStr "#ffffff"]))]> newValues
  else newValues.

(** "Non-uniform updates": the five statements that follow the call of
    [updateUniformsPartial], one definition each. *)
Definition apply_position (newValues : Options) (st : State) : State :=
  if truthy (prop newValues "position")
  then on_system (sys_setPosition (prop newValues "position"))
                 (λ s, ESetPosition s (prop newValues "position")) st
  else st.

Definition apply_delay (newValues : Options) (st : State) : State :=
  if has_key newValues "delay"
  then on_system (sys_setDelay (coalesce (prop newValues "delay") (JNum (Num 0))))
                 (λ s, ESetDelay s (coalesce (prop newValues "delay") (JNum (Num 0)))) st
  else st.

Definition apply_emitCount (newValues : Options) (st : State) : State :=
  if has_key newValues "emitCount"
  then on_system (sys_setEmitCount (coalesce (prop newValues "emitCount") (JNum (Num 1))))
                 (λ s, ESetEmitCount s (coalesce (prop newValues "emitCount") (JNum (Num 1))))
                 st
  else st.

Definition apply_autoStart (newValues : Options) (st : State) : State :=
  if negb (is_undefined (prop newValues "autoStart")) then
    let st' := set_emitting (prop newValues "autoStart") st in
    if truthy (_emitting st') then on_system sys_start EStart st'
    else on_system sys_stop EStop st'
  else st.

Definition apply_blending (newValues : Options) (st : State) : State :=
  if from_option sys_material false (_system st)
     && negb (is_undefined (prop newValues "blending"))
  then on_system (sys_setBlending (prop newValues "blending"))
                 (λ s, ESetBlending s (prop newValues "blending")) st
  else st.

(** [private _applyUniformUpdates(newValues)] *)
Definition _applyUniformUpdates (newValues : Options) (st : State) : State :=
  match _system st with
  | None => st
  | Some _ =>
      let newValues := colour_fallback (_config st) newValues in
      apply_blending newValues
        (apply_autoStart newValues
           (apply_emitCount newValues
              (apply_delay newValues
                 (apply_position newValues
                    (on_system (updateUniformsPartial newValues)
                               (λ s, EUniforms s newValues) st)))))
  end.

(** Structural keys that require full system recreation *)
Definition STRUCTURAL_KEYS : list string :=
  ["maxParticles"; "lighting"; "appearance"; "shadow"; "orientToDirection"].

(** The callback of [import('debug-vfx').then(...)] in [setProps]. *)
Definition rebuild_geometry (st : State) : State :=
  let geoType := prop (_config st) "geometryType" in
  let st1 :=
    if strict_eq geoType GeometryType_NONE || negb (truthy geoType)
    then set_config (<["geometry" := JNull]> (_config st)) st
    else
      let args := prop (_config st) "geometryArgs" in
      log (ECreateGeometry geoType args)
        (set_config (<["geometry" := createGeometry geoType args]> (_config st)) st) in
  fst (_recreateSystem st1).

(** [setProps(newValues)].  The promise of [_recreateSystem] is dropped by
    the caller: a failed recreation is not reported. *)
Definition setProps (newValues : Options) (st : State) : State :=
  let st := set_config (newValues ∪ _config st) st in
  let needsRecreate := existsb (has_key newValues) STRUCTURAL_KEYS in
  if has_key newValues "turbulence"
     && xorb (hasTurbulence newValues) (old_feature turbulence st)
  then fst (_recreateSystem st)
  else if has_key newValues "attractors"
     && xorb (hasAttractors newValues) (old_feature attractors st)
  then fst (_recreateSystem st)
  else if has_key newValues "collision"
     && xorb (hasCollision newValues) (old_feature collision st)
  then fst (_recreateSystem st)
  else if (has_key newValues "rotation" || has_key newValues "rotationSpeed")
     && xorb (needsRotationOf (_config st)) (old_feature needsRotation st)
  then fst (_recreateSystem st)
  else if (has_key newValues "colorStart" || has_key newValues "colorEnd")
     && xorb (needsPerParticleColorOf (_config st)) (old_feature needsPerParticleColor st)
  then fst (_recreateSystem st)
  else if has_key newValues "geometryType" || has_key newValues "geometryArgs"
  then rebuild_geometry st
  else if needsRecreate
  then fst (_recreateSystem st)
  else _applyUniformUpdates newValues st.
End Wrapper.

(** ** The React component [VFXParticles], driven by the debug panel

    The component function is embedded as its hook state (the [useState]
    values and the [useRef] cells), the memoised system, the callback
    [handleDebugUpdate] handed to the debug panel, the frame callback, and
    [render]: one re-run of the component function followed by its effects.
    The props are fixed and [debug] is on, so that the effects guarded by
    [if (debug) return] and [if (!debug)] are inert.  State setters take
    effect at once; the re-render they schedule is a separate [render].  The
    registration with the store and the second disposal of the old material
    through its render object are left out. *)
Module React.

(** [useCurveTextureAsync(size, opacity, velocity, rotationSpeed, path)] of
    [./useCurveTextureAsync], once its texture has loaded. *)
Record CurveTextureResult : Type := mkCurveTextureResult {
  texture : JsValue;
  sizeEnabled : bool;
  opacityEnabled : bool;
  velocityEnabled : bool;
  rotationSpeedEnabled : bool;
}.

Class CurveTextures : Type :=
  useCurveTextureAsync :
    JsValue -> JsValue -> JsValue -> JsValue -> JsValue -> CurveTextureResult.

Record Hooks : Type := mkHooks {
  props : Options;   (* the props of the element *)
  renderer : Renderer;   (* useThree().gl *)
  emitting : JsValue;   (* useState *)
  activeMaxParticles : JsValue;
  activeLighting : JsValue;
  activeAppearance : JsValue;
  activeOrientToDirection : JsValue;
  activeGeometry : JsValue;
  activeShadow : JsValue;
  activeFadeSizeCurve : JsValue;
  activeFadeOpacityCurve : JsValue;
  activeVelocityCurve : JsValue;
  activeRotationSpeedCurve : JsValue;
  activeTurbulence : bool;
  activeAttractors : bool;
  activeCollision : bool;
  activeNeedsPerParticleColor : bool;
  activeNeedsRotation : bool;
  delayRef : JsValue;   (* useRef *)
  emitCountRef : JsValue;
  turbulenceRef : JsValue;
  positionRef : JsValue;
  emitAccumulator : number;
  debugValuesRef : Options;
  prevGeometryTypeRef : JsValue;
  prevGeometryArgsRef : JsValue;
}.

Record Component (Sys : Type) : Type := mkComponent {
  hooks : Hooks;
  system : Sys;                (* useMemo *)
  memo : list JsValue;         (* the dependencies [system] was computed for *)
  trace : list (Event Sys);    (* ghost: the calls made so far *)
  fresh : nat;                 (* ghost: the next unused object identity *)
}.

Arguments mkComponent {Sys}.
Arguments hooks {Sys}.
Arguments system {Sys}.
Arguments memo {Sys}.
Arguments trace {Sys}.
Arguments fresh {Sys}.

Definition set_emitting (v : JsValue) (h : Hooks) : Hooks :=
  mkHooks
    (props h) (renderer h) v (activeMaxParticles h) (activeLighting h)
    (activeAppearance h) (activeOrientToDirection h) (activeGeometry h) (activeShadow
    h) (activeFadeSizeCurve h) (activeFadeOpacityCurve h) (activeVelocityCurve h)
    (activeRotationSpeedCurve h) (activeTurbulence h) (activeAttractors h)
    (activeCollision h) (activeNeedsPerParticleColor h) (activeNeedsRotation h)
    (delayRef h) (emitCountRef h) (turbulenceRef h) (positionRef h) (emitAccumulator h)
    (debugValuesRef h) (prevGeometryTypeRef h) (prevGeometryArgsRef h).

Definition set_activeMaxParticles (v : JsValue) (h : Hooks) : Hooks :=
  mkHooks
    (props h) (renderer h) (emitting h) v (activeLighting h) (activeAppearance h)
    (activeOrientToDirection h) (activeGeometry h) (activeShadow h)
    (activeFadeSizeCurve h) (activeFadeOpacityCurve h) (activeVelocityCurve h)
    (activeRotationSpeedCurve h) (activeTurbulence h) (activeAttractors h)
    (activeCollision h) (activeNeedsPerParticleColor h) (activeNeedsRotation h)
    (delayRef h) (emitCountRef h) (turbulenceRef h) (positionRef h) (emitAccumulator h)
    (debugValuesRef h) (prevGeometryTypeRef h) (prevGeometryArgsRef h).

Definition set_activeLighting (v : JsValue) (h : Hooks) : Hooks :=
  mkHooks
    (props h) (renderer h) (emitting h) (activeMaxParticles h) v (activeAppearance h)
    (activeOrientToDirection h) (activeGeometry h) (activeShadow h)
    (activeFadeSizeCurve h) (activeFadeOpacityCurve h) (activeVelocityCurve h)
    (activeRotationSpeedCurve h) (activeTurbulence h) (activeAttractors h)
    (activeCollision h) (activeNeedsPerParticleColor h) (activeNeedsRotation h)
    (delayRef h) (emitCountRef h) (turbulenceRef h) (positionRef h) (emitAccumulator h)
    (debugValuesRef h) (prevGeometryTypeRef h) (prevGeometryArgsRef h).

Definition set_activeAppearance (v : JsValue) (h : Hooks) : Hooks :=
  mkHooks
    (props h) (renderer h) (emitting h) (activeMaxParticles h) (activeLighting h) v
    (activeOrientToDirection h) (activeGeometry h) (activeShadow h)
    (activeFadeSizeCurve h) (activeFadeOpacityCurve h) (activeVelocityCurve h)
    (activeRotationSpeedCurve h) (activeTurbulence h) (activeAttractors h)
    (activeCollision h) (activeNeedsPerParticleColor h) (activeNeedsRotation h)
    (delayRef h) (emitCountRef h) (turbulenceRef h) (positionRef h) (emitAccumulator h)
    (debugValuesRef h) (prevGeometryTypeRef h) (prevGeometryArgsRef h).

Definition set_activeOrientToDirection (v : JsValue) (h : Hooks) : Hooks :=
  mkHooks
    (props h) (renderer h) (emitting h) (activeMaxParticles h) (activeLighting h)
    (activeAppearance h) v (activeGeometry h) (activeShadow h) (activeFadeSizeCurve h)
    (activeFadeOpacityCurve h) (activeVelocityCurve h) (activeRotationSpeedCurve h)
    (activeTurbulence h) (activeAttractors h) (activeCollision h)
    (activeNeedsPerParticleColor h) (activeNeedsRotation h) (delayRef h) (emitCountRef
    h) (turbulenceRef h) (positionRef h) (emitAccumulator h) (debugValuesRef h)
    (prevGeometryTypeRef h) (prevGeometryArgsRef h).

Definition set_activeGeometry (v : JsValue) (h : Hooks) : Hooks :=
  mkHooks
    (props h) (renderer h) (emitting h) (activeMaxParticles h) (activeLighting h)
    (activeAppearance h) (activeOrientToDirection h) v (activeShadow h)
    (activeFadeSizeCurve h) (activeFadeOpacityCurve h) (activeVelocityCurve h)
    (activeRotationSpeedCurve h) (activeTurbulence h) (activeAttractors h)
    (activeCollision h) (activeNeedsPerParticleColor h) (activeNeedsRotation h)
    (delayRef h) (emitCountRef h) (turbulenceRef h) (positionRef h) (emitAccumulator h)
    (debugValuesRef h) (prevGeometryTypeRef h) (prevGeometryArgsRef h).

Definition set_activeShadow (v : JsValue) (h : Hooks) : Hooks :=
  mkHooks
    (props h) (renderer h) (emitting h) (activeMaxParticles h) (activeLighting h)
    (activeAppearance h) (activeOrientToDirection h) (activeGeometry h) v
    (activeFadeSizeCurve h) (activeFadeOpacityCurve h) (activeVelocityCurve h)
    (activeRotationSpeedCurve h) (activeTurbulence h) (activeAttractors h)
    (activeCollision h) (activeNeedsPerParticleColor h) (activeNeedsRotation h)
    (delayRef h) (emitCountRef h) (turbulenceRef h) (positionRef h) (emitAccumulator h)
    (debugValuesRef h) (prevGeometryTypeRef h) (prevGeometryArgsRef h).

Definition set_activeFadeSizeCurve (v : JsValue) (h : Hooks) : Hooks :=
  mkHooks
    (props h) (renderer h) (emitting h) (activeMaxParticles h) (activeLighting h)
    (activeAppearance h) (activeOrientToDirection h) (activeGeometry h) (activeShadow
    h) v (activeFadeOpacityCurve h) (activeVelocityCurve h) (activeRotationSpeedCurve
    h) (activeTurbulence h) (activeAttractors h) (activeCollision h)
    (activeNeedsPerParticleColor h) (activeNeedsRotation h) (delayRef h) (emitCountRef
    h) (turbulenceRef h) (positionRef h) (emitAccumulator h) (debugValuesRef h)
    (prevGeometryTypeRef h) (prevGeometryArgsRef h).

Definition set_activeFadeOpacityCurve (v : JsValue) (h : Hooks) : Hooks :=
  mkHooks
    (props h) (renderer h) (emitting h) (activeMaxParticles h) (activeLighting h)
    (activeAppearance h) (activeOrientToDirection h) (activeGeometry h) (activeShadow
    h) (activeFadeSizeCurve h) v (activeVelocityCurve h) (activeRotationSpeedCurve h)
    (activeTurbulence h) (activeAttractors h) (activeCollision h)
    (activeNeedsPerParticleColor h) (activeNeedsRotation h) (delayRef h) (emitCountRef
    h) (turbulenceRef h) (positionRef h) (emitAccumulator h) (debugValuesRef h)
    (prevGeometryTypeRef h) (prevGeometryArgsRef h).

Definition set_activeVelocityCurve (v : JsValue) (h : Hooks) : Hooks :=
  mkHooks
    (props h) (renderer h) (emitting h) (activeMaxParticles h) (activeLighting h)
    (activeAppearance h) (activeOrientToDirection h) (activeGeometry h) (activeShadow
    h) (activeFadeSizeCurve h) (activeFadeOpacityCurve h) v (activeRotationSpeedCurve
    h) (activeTurbulence h) (activeAttractors h) (activeCollision h)
    (activeNeedsPerParticleColor h) (activeNeedsRotation h) (delayRef h) (emitCountRef
    h) (turbulenceRef h) (positionRef h) (emitAccumulator h) (debugValuesRef h)
    (prevGeometryTypeRef h) (prevGeometryArgsRef h).

Definition set_activeRotationSpeedCurve (v : JsValue) (h : Hooks) : Hooks :=
  mkHooks
    (props h) (renderer h) (emitting h) (activeMaxParticles h) (activeLighting h)
    (activeAppearance h) (activeOrientToDirection h) (activeGeometry h) (activeShadow
    h) (activeFadeSizeCurve h) (activeFadeOpacityCurve h) (activeVelocityCurve h) v
    (activeTurbulence h) (activeAttractors h) (activeCollision h)
    (activeNeedsPerParticleColor h) (activeNeedsRotation h) (delayRef h) (emitCountRef
    h) (turbulenceRef h) (positionRef h) (emitAccumulator h) (debugValuesRef h)
    (prevGeometryTypeRef h) (prevGeometryArgsRef h).

Definition set_activeTurbulence (v : bool) (h : Hooks) : Hooks :=
  mkHooks
    (props h) (renderer h) (emitting h) (activeMaxParticles h) (activeLighting h)
    (activeAppearance h) (activeOrientToDirection h) (activeGeometry h) (activeShadow
    h) (activeFadeSizeCurve h) (activeFadeOpacityCurve h) (activeVelocityCurve h)
    (activeRotationSpeedCurve h) v (activeAttractors h) (activeCollision h)
    (activeNeedsPerParticleColor h) (activeNeedsRotation h) (delayRef h) (emitCountRef
    h) (turbulenceRef h) (positionRef h) (emitAccumulator h) (debugValuesRef h)
    (prevGeometryTypeRef h) (prevGeometryArgsRef h).

Definition set_activeAttractors (v : bool) (h : Hooks) : Hooks :=
  mkHooks
    (props h) (renderer h) (emitting h) (activeMaxParticles h) (activeLighting h)
    (activeAppearance h) (activeOrientToDirection h) (activeGeometry h) (activeShadow
    h) (activeFadeSizeCurve h) (activeFadeOpacityCurve h) (activeVelocityCurve h)
    (activeRotationSpeedCurve h) (activeTurbulence h) v (activeCollision h)
    (activeNeedsPerParticleColor h) (activeNeedsRotation h) (delayRef h) (emitCountRef
    h) (turbulenceRef h) (positionRef h) (emitAccumulator h) (debugValuesRef h)
    (prevGeometryTypeRef h) (prevGeometryArgsRef h).

Definition set_activeCollision (v : bool) (h : Hooks) : Hooks :=
  mkHooks
    (props h) (renderer h) (emitting h) (activeMaxParticles h) (activeLighting h)
    (activeAppearance h) (activeOrientToDirection h) (activeGeometry h) (activeShadow
    h) (activeFadeSizeCurve h) (activeFadeOpacityCurve h) (activeVelocityCurve h)
    (activeRotationSpeedCurve h) (activeTurbulence h) (activeAttractors h) v
    (activeNeedsPerParticleColor h) (activeNeedsRotation h) (delayRef h) (emitCountRef
    h) (turbulenceRef h) (positionRef h) (emitAccumulator h) (debugValuesRef h)
    (prevGeometryTypeRef h) (prevGeometryArgsRef h).

Definition set_activeNeedsPerParticleColor (v : bool) (h : Hooks) : Hooks :=
  mkHooks
    (props h) (renderer h) (emitting h) (activeMaxParticles h) (activeLighting h)
    (activeAppearance h) (activeOrientToDirection h) (activeGeometry h) (activeShadow
    h) (activeFadeSizeCurve h) (activeFadeOpacityCurve h) (activeVelocityCurve h)
    (activeRotationSpeedCurve h) (activeTurbulence h) (activeAttractors h)
    (activeCollision h) v (activeNeedsRotation h) (delayRef h) (emitCountRef h)
    (turbulenceRef h) (positionRef h) (emitAccumulator h) (debugValuesRef h)
    (prevGeometryTypeRef h) (prevGeometryArgsRef h).

Definition set_activeNeedsRotation (v : bool) (h : Hooks) : Hooks :=
  mkHooks
    (props h) (renderer h) (emitting h) (activeMaxParticles h) (activeLighting h)
    (activeAppearance h) (activeOrientToDirection h) (activeGeometry h) (activeShadow
    h) (activeFadeSizeCurve h) (activeFadeOpacityCurve h) (activeVelocityCurve h)
    (activeRotationSpeedCurve h) (activeTurbulence h) (activeAttractors h)
    (activeCollision h) (activeNeedsPerParticleColor h) v (delayRef h) (emitCountRef h)
    (turbulenceRef h) (positionRef h) (emitAccumulator h) (debugValuesRef h)
    (prevGeometryTypeRef h) (prevGeometryArgsRef h).

Definition set_delayRef (v : JsValue) (h : Hooks) : Hooks :=
  mkHooks
    (props h) (renderer h) (emitting h) (activeMaxParticles h) (activeLighting h)
    (activeAppearance h) (activeOrientToDirection h) (activeGeometry h) (activeShadow
    h) (activeFadeSizeCurve h) (activeFadeOpacityCurve h) (activeVelocityCurve h)
    (activeRotationSpeedCurve h) (activeTurbulence h) (activeAttractors h)
    (activeCollision h) (activeNeedsPerParticleColor h) (activeNeedsRotation h) v
    (emitCountRef h) (turbulenceRef h) (positionRef h) (emitAccumulator h)
    (debugValuesRef h) (prevGeometryTypeRef h) (prevGeometryArgsRef h).

Definition set_emitCountRef (v : JsValue) (h : Hooks) : Hooks :=
  mkHooks
    (props h) (renderer h) (emitting h) (activeMaxParticles h) (activeLighting h)
    (activeAppearance h) (activeOrientToDirection h) (activeGeometry h) (activeShadow
    h) (activeFadeSizeCurve h) (activeFadeOpacityCurve h) (activeVelocityCurve h)
    (activeRotationSpeedCurve h) (activeTurbulence h) (activeAttractors h)
    (activeCollision h) (activeNeedsPerParticleColor h) (activeNeedsRotation h)
    (delayRef h) v (turbulenceRef h) (positionRef h) (emitAccumulator h)
    (debugValuesRef h) (prevGeometryTypeRef h) (prevGeometryArgsRef h).

Definition set_turbulenceRef (v : JsValue) (h : Hooks) : Hooks :=
  mkHooks
    (props h) (renderer h) (emitting h) (activeMaxParticles h) (activeLighting h)
    (activeAppearance h) (activeOrientToDirection h) (activeGeometry h) (activeShadow
    h) (activeFadeSizeCurve h) (activeFadeOpacityCurve h) (activeVelocityCurve h)
    (activeRotationSpeedCurve h) (activeTurbulence h) (activeAttractors h)
    (activeCollision h) (activeNeedsPerParticleColor h) (activeNeedsRotation h)
    (delayRef h) (emitCountRef h) v (positionRef h) (emitAccumulator h) (debugValuesRef
    h) (prevGeometryTypeRef h) (prevGeometryArgsRef h).

Definition set_positionRef (v : JsValue) (h : Hooks) : Hooks :=
  mkHooks
    (props h) (renderer h) (emitting h) (activeMaxParticles h) (activeLighting h)
    (activeAppearance h) (activeOrientToDirection h) (activeGeometry h) (activeShadow
    h) (activeFadeSizeCurve h) (activeFadeOpacityCurve h) (activeVelocityCurve h)
    (activeRotationSpeedCurve h) (activeTurbulence h) (activeAttractors h)
    (activeCollision h) (activeNeedsPerParticleColor h) (activeNeedsRotation h)
    (delayRef h) (emitCountRef h) (turbulenceRef h) v (emitAccumulator h)
    (debugValuesRef h) (prevGeometryTypeRef h) (prevGeometryArgsRef h).

Definition set_emitAccumulator (v : number) (h : Hooks) : Hooks :=
  mkHooks
    (props h) (renderer h) (emitting h) (activeMaxParticles h) (activeLighting h)
    (activeAppearance h) (activeOrientToDirection h) (activeGeometry h) (activeShadow
    h) (activeFadeSizeCurve h) (activeFadeOpacityCurve h) (activeVelocityCurve h)
    (activeRotationSpeedCurve h) (activeTurbulence h) (activeAttractors h)
    (activeCollision h) (activeNeedsPerParticleColor h) (activeNeedsRotation h)
    (delayRef h) (emitCountRef h) (turbulenceRef h) (positionRef h) v (debugValuesRef
    h) (prevGeometryTypeRef h) (prevGeometryArgsRef h).

Definition set_debugValuesRef (v : Options) (h : Hooks) : Hooks :=
  mkHooks
    (props h) (renderer h) (emitting h) (activeMaxParticles h) (activeLighting h)
    (activeAppearance h) (activeOrientToDirection h) (activeGeometry h) (activeShadow
    h) (activeFadeSizeCurve h) (activeFadeOpacityCurve h) (activeVelocityCurve h)
    (activeRotationSpeedCurve h) (activeTurbulence h) (activeAttractors h)
    (activeCollision h) (activeNeedsPerParticleColor h) (activeNeedsRotation h)
    (delayRef h) (emitCountRef h) (turbulenceRef h) (positionRef h) (emitAccumulator h)
    v (prevGeometryTypeRef h) (prevGeometryArgsRef h).

Definition set_prevGeometryTypeRef (v : JsValue) (h : Hooks) : Hooks :=
  mkHooks
    (props h) (renderer h) (emitting h) (activeMaxParticles h) (activeLighting h)
    (activeAppearance h) (activeOrientToDirection h) (activeGeometry h) (activeShadow
    h) (activeFadeSizeCurve h) (activeFadeOpacityCurve h) (activeVelocityCurve h)
    (activeRotationSpeedCurve h) (activeTurbulence h) (activeAttractors h)
    (activeCollision h) (activeNeedsPerParticleColor h) (activeNeedsRotation h)
    (delayRef h) (emitCountRef h) (turbulenceRef h) (positionRef h) (emitAccumulator h)
    (debugValuesRef h) v (prevGeometryArgsRef h).

Definition set_prevGeometryArgsRef (v : JsValue) (h : Hooks) : Hooks :=
  mkHooks
    (props h) (renderer h) (emitting h) (activeMaxParticles h) (activeLighting h)
    (activeAppearance h) (activeOrientToDirection h) (activeGeometry h) (activeShadow
    h) (activeFadeSizeCurve h) (activeFadeOpacityCurve h) (activeVelocityCurve h)
    (activeRotationSpeedCurve h) (activeTurbulence h) (activeAttractors h)
    (activeCollision h) (activeNeedsPerParticleColor h) (activeNeedsRotation h)
    (delayRef h) (emitCountRef h) (turbulenceRef h) (positionRef h) (emitAccumulator h)
    (debugValuesRef h) (prevGeometryTypeRef h) v.

(** The defaults of the destructured props; members of the enumerations of
    core-vfx are kept symbolic and [Math.PI / 4] is approximated. *)
Definition DEFAULTS : Options :=
  list_to_map
    [("maxParticles", JNum (Num 10000));
     ("size", JArr [JNum (Num (1 # 10)); JNum (Num (3 # 10))]);
     ("colorStart", JArr [JStr "#ffffff"]);
     ("colorEnd", JNull);
     ("fadeSize", JArr [JNum (Num 1); JNum (Num 0)]);
     ("fadeSizeCurve", JNull);
     ("fadeOpacity", JArr [JNum (Num 1); JNum (Num 0)]);
     ("fadeOpacityCurve", JNull);
     ("velocityCurve", JNull);
     ("gravity", JArr [JNum (Num 0); JNum (Num 0); JNum (Num 0)]);
     ("lifetime", JArr [JNum (Num 1); JNum (Num 2)]);
     ("direction", JArr [JArr [JNum (Num (-1)); JNum (Num 1)];
                         JArr [JNum (Num 0); JNum (Num 1)];
                         JArr [JNum (Num (-1)); JNum (Num 1)]]);
     ("startPosition", JArr [JArr [JNum (Num 0); JNum (Num 0)];
                             JArr [JNum (Num 0); JNum (Num 0)];
                             JArr [JNum (Num 0); JNum (Num 0)]]);
     ("speed", JArr [JNum (Num (1 # 10)); JNum (Num (1 # 10))]);
     ("friction", JObj [("intensity", JNum (Num 0)); ("easing", JStr "linear")]);
     ("appearance", JStr "Appearance.GRADIENT");
     ("alphaMap", JNull);
     ("flipbook", JNull);
     ("rotation", JArr [JNum (Num 0); JNum (Num 0)]);
     ("rotationSpeed", JArr [JNum (Num 0); JNum (Num 0)]);
     ("rotationSpeedCurve", JNull);
     ("geometry", JNull);
     ("orientToDirection", JBool false);
     ("orientAxis", JStr "z");
     ("stretchBySpeed", JNull);
     ("lighting", JStr "Lighting.STANDARD");
     ("shadow", JBool false);
     ("blending", JStr "Blending.NORMAL");
     ("intensity", JNum (Num 1));
     ("position", JArr [JNum (Num 0); JNum (Num 0); JNum (Num 0)]);
     ("autoStart", JBool true);
     ("delay", JNum (Num 0));
     ("backdropNode", JNull);
     ("opacityNode", JNull);
     ("colorNode", JNull);
     ("alphaTestNode", JNull);
     ("castShadowNode", JNull);
     ("emitCount", JNum (Num 1));
     ("emitterShape", JStr "EmitterShape.BOX");
     ("emitterRadius", JArr [JNum (Num 0); JNum (Num 1)]);
     ("emitterAngle", JNum (Num (355 # 452)));
     ("emitterHeight", JArr [JNum (Num 0); JNum (Num 1)]);
     ("emitterSurfaceOnly", JBool false);
     ("emitterDirection", JArr [JNum (Num 0); JNum (Num 1); JNum (Num 0)]);
     ("turbulence", JNull);
     ("attractors", JNull);
     ("attractToCenter", JBool false);
     ("startPositionAsDirection", JBool false);
     ("softParticles", JBool false);
     ("softDistance", JNum (Num (1 # 2)));
     ("collision", JNull);
     ("debug", JBool false);
     ("curveTexturePath", JNull);
     ("depthTest", JBool true);
     ("renderOrder", JNum (Num 0))].

(** A destructured prop: the default stands in for [undefined]. *)
Definition destructured (p : Options) (k : string) : JsValue :=
  if is_undefined (prop p k) then prop DEFAULTS k else prop p k.

(** [detectGeometryTypeAndArgs(geo)]: the constructor names it knows, the
    type each stands for and the defaults of its parameters. *)
Definition GEOMETRIES : list (string * (string * list (string * Q))) :=
  [("BoxGeometry", ("box",
     [("width", 1); ("height", 1); ("depth", 1); ("widthSegments", 1); ("heightSegments", 1); ("depthSegments", 1)]));
   ("SphereGeometry", ("sphere",
     [("radius", (1 # 2)); ("widthSegments", 16); ("heightSegments", 12)]));
   ("CylinderGeometry", ("cylinder",
     [("radiusTop", (1 # 2)); ("radiusBottom", (1 # 2)); ("height", 1); ("radialSegments", 16); ("heightSegments", 1)]));
   ("ConeGeometry", ("cone",
     [("radius", (1 # 2)); ("height", 1); ("radialSegments", 16); ("heightSegments", 1)]));
   ("TorusGeometry", ("torus",
     [("radius", (1 # 2)); ("tube", (1 # 5)); ("radialSegments", 12); ("tubularSegments", 24)]));
   ("PlaneGeometry", ("plane",
     [("width", 1); ("height", 1); ("widthSegments", 1); ("heightSegments", 1)]));
   ("CircleGeometry", ("circle",
     [("radius", (1 # 2)); ("segments", 16)]));
   ("RingGeometry", ("ring",
     [("innerRadius", (1 # 4)); ("outerRadius", (1 # 2)); ("thetaSegments", 16)]));
   ("DodecahedronGeometry", ("dodecahedron",
     [("radius", (1 # 2)); ("detail", 0)]));
   ("IcosahedronGeometry", ("icosahedron",
     [("radius", (1 # 2)); ("detail", 0)]));
   ("OctahedronGeometry", ("octahedron",
     [("radius", (1 # 2)); ("detail", 0)]));
   ("TetrahedronGeometry", ("tetrahedron",
     [("radius", (1 # 2)); ("detail", 0)]));
   ("CapsuleGeometry", ("capsule",
     [("radius", (1 # 4)); ("length", (1 # 2)); ("capSegments", 4); ("radialSegments", 8)]))]%Q.

Definition geometry_args (params : JsValue) (defaults : list (string * Q)) : JsValue :=
  JObj (map (λ kd, (fst kd, coalesce (member params (fst kd)) (JNum (Num (snd kd)))))
          defaults).

Fixpoint lookup_geometry (name : JsValue) (params : JsValue)
    (table : list (string * (string * list (string * Q)))) : JsValue * JsValue :=
  match table with
  | [] => (JStr "none", JNull)
  | (n, (type, defaults)) :: rest =>
      if strict_eq name (JStr n) then (JStr type, geometry_args params defaults)
      else lookup_geometry name params rest
  end.

Definition detectGeometryTypeAndArgs (geo : JsValue) : JsValue * JsValue :=
  if negb (truthy geo) then (JStr "none", JNull)
  else
    let name := opt_member (opt_member geo "constructor") "name" in
    let params := if truthy (member geo "parameters") then member geo "parameters"
                  else JObj [] in
    lookup_geometry name params GEOMETRIES.

(** [a || null] *)
Definition or_null (v : JsValue) : JsValue := if truthy v then v else JNull.

(** [initialValues] of the effect that opens the debug panel. *)
Definition initial_keys : list string :=
  ["name"; "maxParticles"; "size"; "colorStart"; "colorEnd"; "fadeSize"; "fadeOpacity";
   "gravity"; "lifetime"; "direction"; "startPosition"; "startPositionAsDirection";
   "speed"; "friction"; "appearance"; "rotation"; "rotationSpeed"; "orientToDirection";
   "orientAxis"; "lighting"; "shadow"; "blending"; "intensity"; "position"; "autoStart";
   "delay"; "emitCount"; "emitterShape"; "emitterRadius"; "emitterAngle";
   "emitterHeight"; "emitterSurfaceOnly"; "emitterDirection"; "turbulence";
   "attractToCenter"; "softParticles"; "softDistance"; "collision"].

Definition initialValues (p : Options) : Options :=
  let d := destructured p in
  let geo := detectGeometryTypeAndArgs (d "geometry") in
  list_to_map
    ([("geometryType", fst geo);
      ("geometryArgs", snd geo);
      ("fadeSizeCurve", or_null (d "fadeSizeCurve"));
      ("fadeOpacityCurve", or_null (d "fadeOpacityCurve"));
      ("velocityCurve", or_null (d "velocityCurve"));
      ("rotationSpeedCurve", or_null (d "rotationSpeedCurve"));
      ("stretchBySpeed", or_null (d "stretchBySpeed"))]
     ++ map (λ k, (k, d k)) initial_keys).

(** The options object built inside the [useMemo]. *)
Definition passed_through : list string :=
  ["size"; "colorStart"; "colorEnd"; "fadeSize"; "fadeOpacity"; "gravity"; "lifetime";
   "direction"; "startPosition"; "speed"; "friction"; "alphaMap"; "flipbook";
   "rotation"; "rotationSpeed"; "orientAxis"; "stretchBySpeed"; "blending";
   "intensity"; "position"; "autoStart"; "delay"; "emitCount"; "emitterShape";
   "emitterRadius"; "emitterAngle"; "emitterHeight"; "emitterSurfaceOnly";
   "emitterDirection"; "turbulence"; "attractors"; "attractToCenter";
   "startPositionAsDirection"; "softParticles"; "softDistance"; "collision";
   "backdropNode"; "opacityNode"; "colorNode"; "alphaTestNode"; "castShadowNode";
   "depthTest"; "renderOrder"].

Definition system_options (h : Hooks) : Options :=
  list_to_map
    ([("maxParticles", activeMaxParticles h);
      ("fadeSizeCurve", activeFadeSizeCurve h);
      ("fadeOpacityCurve", activeFadeOpacityCurve h);
      ("velocityCurve", activeVelocityCurve h);
      ("appearance", activeAppearance h);
      ("rotationSpeedCurve", activeRotationSpeedCurve h);
      ("geometry", activeGeometry h);
      ("orientToDirection", activeOrientToDirection h);
      ("lighting", activeLighting h);
      ("shadow", activeShadow h)]
     ++ map (λ k, (k, destructured (props h) k)) passed_through).

Definition curve_flags (t : CurveTextureResult) : JsValue :=
  JObj [("sizeEnabled", JBool (sizeEnabled t));
        ("opacityEnabled", JBool (opacityEnabled t));
        ("velocityEnabled", JBool (velocityEnabled t));
        ("rotationSpeedEnabled", JBool (rotationSpeedEnabled t))].

Section Component.
Context `{!Imports} {Sys : Type} `{!VFXParticleSystem Sys} `{!CurveTextures}.

Definition curveTexture (h : Hooks) : CurveTextureResult :=
  useCurveTextureAsync (activeFadeSizeCurve h) (activeFadeOpacityCurve h)
    (activeVelocityCurve h) (activeRotationSpeedCurve h)
    (destructured (props h) "curveTexturePath").

(** The dependency list of the [useMemo] that holds the system. *)
Definition dependencies (h : Hooks) : list JsValue :=
  [JHost (renderer h);
   activeMaxParticles h;
   activeLighting h;
   activeAppearance h;
   activeOrientToDirection h;
   activeGeometry h;
   activeShadow h;
   JBool (activeNeedsPerParticleColor h);
   JBool (activeNeedsRotation h);
   JBool (activeTurbulence h);
   JBool (activeAttractors h);
   JBool (activeCollision h);
   texture (curveTexture h);
   destructured (props h) "alphaMap";
   destructured (props h) "flipbook";
   destructured (props h) "blending";
   destructured (props h) "backdropNode";
   destructured (props h) "opacityNode";
   destructured (props h) "colorNode";
   destructured (props h) "alphaTestNode";
   destructured (props h) "castShadowNode";
   destructured (props h) "softParticles"].

Definition set_hooks (h : Hooks) (c : Component Sys) : Component Sys :=
  mkComponent h (system c) (memo c) (trace c) (fresh c).

Definition set_system (s : Sys) (c : Component Sys) : Component Sys :=
  mkComponent (hooks c) s (memo c) (trace c) (fresh c).

Definition set_memo (d : list JsValue) (c : Component Sys) : Component Sys :=
  mkComponent (hooks c) (system c) d (trace c) (fresh c).

Definition set_fresh (n : nat) (c : Component Sys) : Component Sys :=
  mkComponent (hooks c) (system c) (memo c) (trace c) n.

Definition log (e : Event Sys) (c : Component Sys) : Component Sys :=
  mkComponent (hooks c) (system c) (memo c) (trace c ++ [e]) (fresh c).

(** a state setter or a write to a ref *)
Definition upd (f : Hooks -> Hooks) (c : Component Sys) : Component Sys :=
  set_hooks (f (hooks c)) c.

(** [system.m(...)] *)
Definition call (m : Sys -> Sys) (e : Sys -> Event Sys) (c : Component Sys)
  : Component Sys :=
  log (e (system c)) (set_system (m (system c)) c).

(** The effects that follow a render in which the system changed:
    [system.init()] (its promise is dropped), the disposal of the
    material of the system that was replaced, and the hand-over of the
    new [handleDebugUpdate] to the debug panel. *)
Definition system_effects (old : Sys) (c : Component Sys) : Component Sys :=
  let ready := sys_init (system c) in
  let c1 := log (EInit (system c) ready) (set_system (default (system c) ready) c) in
  let c2 := if sys_material old then log (EDisposeMaterial old) c1 else c1 in
  log (EUpdateDebugPanel (debugValuesRef (hooks c2))) c2.

(** One re-run of the component function.  [None]: the constructor threw
    inside [useMemo]. *)
Definition render (c : Component Sys) : option (Component Sys) :=
  if same_values (memo c) (dependencies (hooks c)) then Some c
  else
    let t := curveTexture (hooks c) in
    let made := sys_new (fresh c) (renderer (hooks c)) (system_options (hooks c))
                  (texture t) (curve_flags t) in
    let c1 := log (ENew (fresh c) (renderer (hooks c)) (system_options (hooks c))
                     (texture t) made)
                (set_fresh (S (fresh c)) c) in
    match made with
    | None => None
    | Some s =>
        Some (system_effects (system c)
                (set_memo (dependencies (hooks c)) (set_system s c1)))
    end.

(** The hook state of the first render. *)
Definition initial_hooks (r : Renderer) (p : Options) : Hooks :=
  let d := destructured p in
  mkHooks p r
    (d "autoStart")
    (d "maxParticles") (d "lighting") (d "appearance") (d "orientToDirection")
    (d "geometry") (d "shadow")
    (d "fadeSizeCurve") (d "fadeOpacityCurve") (d "velocityCurve")
    (d "rotationSpeedCurve")
    (negb (is_null (d "turbulence"))
     && js_gt (coalesce (opt_member (d "turbulence") "intensity") (JNum (Num 0))) 0)
    (negb (is_null (d "attractors")) && js_gt (member (d "attractors") "length") 0)
    (negb (is_null (d "collision")))
    (js_gt (member (d "colorStart") "length") 1 || negb (is_null (d "colorEnd")))
    (isNonDefaultRotation (d "rotation") || isNonDefaultRotation (d "rotationSpeed"))
    (d "delay") (d "emitCount") (d "turbulence") (d "position") (Num 0)
    ∅ JNull JNull.

(** The first render and its effects: the system is built and
    initialised, and the debug panel is opened on [initialValues]. *)
Definition mount (r : Renderer) (p : Options) : option (Component Sys) :=
  let h := initial_hooks r p in
  let t := curveTexture h in
  let made := sys_new 0 r (system_options h) (texture t) (curve_flags t) in
  match made with
  | None => None
  | Some s =>
      let ready := sys_init s in
      let values := initialValues p in
      let h' := set_prevGeometryArgsRef (prop values "geometryArgs")
                  (set_prevGeometryTypeRef (prop values "geometryType")
                     (set_debugValuesRef values h)) in
      Some (mkComponent h' (default s ready) (dependencies h)
              [ENew 0 r (system_options h) (texture t) made;
               EInit s ready;
               ERenderDebugPanel values;
               EUpdateDebugPanel values]
              1)
  end.

(** The statements of [handleDebugUpdate], in program order, one
    definition each.  [current] is [debugValuesRef.current] after the new
    values have been merged into it. *)

(* Handle colorStart→colorEnd fallback before calling core *)
Definition debug_colour_fallback (current newValues : Options) : Options :=
  let newValues :=
    if has_key newValues "colorStart" && truthy (prop newValues "colorStart")
       && negb (truthy (prop current "colorEnd"))
    then <["colorEnd" := JNull]> newValues
    else newValues in
  if has_key newValues "colorEnd" && negb (truthy (prop newValues "colorEnd"))
  then <["colorStart" :=
           coalesce (prop newValues "colorStart")
             (coalesce (prop current "colorStart") (JArr [JStr "#ffffff"]))]>
         (<["colorEnd" := JNull]> newValues)
  else newValues.

(* React state: curves (trigger recreation) *)
Definition debug_curves (newValues : Options) (c : Component Sys) : Component Sys :=
  let c := if has_key newValues "fadeSizeCurve"
           then upd (set_activeFadeSizeCurve (prop newValues "fadeSizeCurve")) c else c in
  let c := if has_key newValues "fadeOpacityCurve"
           then upd (set_activeFadeOpacityCurve (prop newValues "fadeOpacityCurve")) c
           else c in
  let c := if has_key newValues "velocityCurve"
           then upd (set_activeVelocityCurve (prop newValues "velocityCurve")) c else c in
  if has_key newValues "rotationSpeedCurve"
  then upd (set_activeRotationSpeedCurve (prop newValues "rotationSpeedCurve")) c
  else c.

(* React state: rotation feature flag *)
Definition debug_rotation (current newValues : Options) (c : Component Sys)
  : Component Sys :=
  if has_key newValues "rotation" || has_key newValues "rotationSpeed" then
    let rot := coalesce (prop newValues "rotation")
                 (coalesce (prop current "rotation")
                    (JArr [JNum (Num 0); JNum (Num 0)])) in
    let rotSpeed := coalesce (prop newValues "rotationSpeed")
                      (coalesce (prop current "rotationSpeed")
                         (JArr [JNum (Num 0); JNum (Num 0)])) in
    let needsRotation := isNonDefaultRotation rot || isNonDefaultRotation rotSpeed in
    if xorb needsRotation (activeNeedsRotation (hooks c))
    then upd (set_activeNeedsRotation needsRotation) c else c
  else c.

(* React state: per-particle color feature flag *)
Definition debug_colour (current newValues : Options) (c : Component Sys)
  : Component Sys :=
  if has_key newValues "colorStart" || has_key newValues "colorEnd" then
    let startLen :=
      coalesce (opt_member (prop newValues "colorStart") "length")
        (coalesce (opt_member (prop current "colorStart") "length") (JNum (Num 1))) in
    let hasColorEnd :=
      if has_key newValues "colorEnd" then negb (is_null (prop newValues "colorEnd"))
      else negb (is_null (prop current "colorEnd")) in
    let needsPerParticle := js_gt startLen 1 || hasColorEnd in
    if xorb needsPerParticle (activeNeedsPerParticleColor (hooks c))
    then upd (set_activeNeedsPerParticleColor needsPerParticle) c else c
  else c.

(* React state: turbulence feature flag + ref *)
Definition debug_turbulence (newValues : Options) (c : Component Sys) : Component Sys :=
  if has_key newValues "turbulence" then
    let c := upd (set_turbulenceRef (prop newValues "turbulence")) c in
    let needsTurbulence :=
      negb (is_null (prop newValues "turbulence"))
      && js_gt (coalesce (opt_member (prop newValues "turbulence") "intensity")
                  (JNum (Num 0))) 0 in
    if xorb needsTurbulence (activeTurbulence (hooks c))
    then upd (set_activeTurbulence needsTurbulence) c else c
  else c.

(* React state: attractors feature flag *)
Definition debug_attractors (newValues : Options) (c : Component Sys) : Component Sys :=
  if has_key newValues "attractors" then
    let needsAttractors :=
      negb (is_null (prop newValues "attractors"))
      && js_gt (opt_member (prop newValues "attractors") "length") 0 in
    if xorb needsAttractors (activeAttractors (hooks c))
    then upd (set_activeAttractors needsAttractors) c else c
  else c.

(* React state: collision feature flag *)
Definition debug_collision (newValues : Options) (c : Component Sys) : Component Sys :=
  if has_key newValues "collision" then
    let needsCollision :=
      negb (is_null (prop newValues "collision"))
      && negb (is_undefined (prop newValues "collision")) in
    if xorb needsCollision (activeCollision (hooks c))
    then upd (set_activeCollision needsCollision) c else c
  else c.

(* Position ref update *)
Definition debug_position (newValues : Options) (c : Component Sys) : Component Sys :=
  if truthy (prop newValues "position") then
    call (sys_setPosition (prop newValues "position"))
         (λ s, ESetPosition s (prop newValues "position"))
         (upd (set_positionRef (prop newValues "position")) c)
  else c.

(* Runtime refs update *)
Definition debug_refs (newValues : Options) (c : Component Sys) : Component Sys :=
  let c := if has_key newValues "delay"
           then upd (set_delayRef (coalesce (prop newValues "delay") (JNum (Num 0)))) c
           else c in
  if has_key newValues "emitCount"
  then upd (set_emitCountRef (coalesce (prop newValues "emitCount") (JNum (Num 1)))) c
  else c.

(* Update emitting state *)
Definition debug_autoStart (newValues : Options) (c : Component Sys) : Component Sys :=
  if negb (is_undefined (prop newValues "autoStart"))
  then upd (set_emitting (prop newValues "autoStart")) c else c.

(* Update material blending directly *)
Definition debug_blending (newValues : Options) (c : Component Sys) : Component Sys :=
  if sys_material (system c) && negb (is_undefined (prop newValues "blending"))
  then call (sys_setBlending (prop newValues "blending"))
            (λ s, ESetBlending s (prop newValues "blending")) c
  else c.

(** [newValues.k !== undefined && newValues.k !== active] *)
Definition changed (newValues : Options) (k : string) (active : JsValue) : bool :=
  negb (is_undefined (prop newValues k)) && negb (strict_eq (prop newValues k) active).

(* Remount-required values *)
Definition debug_remount (newValues : Options) (c : Component Sys) : Component Sys :=
  let c := if changed newValues "maxParticles" (activeMaxParticles (hooks c))
           then call sys_invalidate EInvalidate
                  (upd (set_activeMaxParticles (prop newValues "maxParticles")) c)
           else c in
  let c := if changed newValues "lighting" (activeLighting (hooks c))
           then upd (set_activeLighting (prop newValues "lighting")) c else c in
  let c := if changed newValues "appearance" (activeAppearance (hooks c))
           then upd (set_activeAppearance (prop newValues "appearance")) c else c in
  let c := if changed newValues "orientToDirection" (activeOrientToDirection (hooks c))
           then upd (set_activeOrientToDirection (prop newValues "orientToDirection")) c
           else c in
  if changed newValues "shadow" (activeShadow (hooks c))
  then upd (set_activeShadow (prop newValues "shadow")) c else c.

(* Handle geometry type and args changes; the callback of
   [import('debug-vfx').then(...)] is run in place *)
Definition debug_geometry (newValues : Options) (c : Component Sys) : Component Sys :=
  if has_key newValues "geometryType" || has_key newValues "geometryArgs" then
    let previousType := prevGeometryTypeRef (hooks c) in
    let previousArgs := prevGeometryArgsRef (hooks c) in
    let geoType := coalesce (prop newValues "geometryType") previousType in
    let geoArgs := coalesce (prop newValues "geometryArgs") previousArgs in
    let geoTypeChanged :=
      has_key newValues "geometryType" && negb (strict_eq geoType previousType) in
    let geoArgsChanged :=
      has_key newValues "geometryArgs" && negb (same_value geoArgs previousArgs) in
    if geoTypeChanged || geoArgsChanged then
      let c := upd (λ h, set_prevGeometryArgsRef geoArgs
                           (set_prevGeometryTypeRef geoType h)) c in
      let activeGeometry := activeGeometry (hooks c) in
      let geometry := destructured (props (hooks c)) "geometry" in
      if strict_eq geoType GeometryType_NONE || negb (truthy geoType) then
        let c := if negb (is_null activeGeometry) && negb (truthy geometry)
                 then log (EDisposeGeometry activeGeometry) c else c in
        upd (set_activeGeometry JNull) c
      else
        let newGeometry := createGeometry geoType geoArgs in
        let c := log (ECreateGeometry geoType geoArgs) c in
        if truthy newGeometry then
          let c := if negb (is_null activeGeometry)
                      && negb (strict_eq activeGeometry geometry)
                   then log (EDisposeGeometry activeGeometry) c else c in
          upd (set_activeGeometry newGeometry) c
        else c
    else c
  else c.

(** [handleDebugUpdate(newValues)] *)
Definition handleDebugUpdate (newValues : Options) (c : Component Sys) : Component Sys :=
  let c := upd (λ h, set_debugValuesRef (newValues ∪ debugValuesRef h) h) c in
  let current := debugValuesRef (hooks c) in
  let newValues := debug_colour_fallback current newValues in
  let c := call (updateUniformsPartial newValues) (λ s, EUniforms s newValues) c in
  debug_geometry newValues
    (debug_remount newValues
       (debug_blending newValues
          (debug_autoStart newValues
             (debug_refs newValues
                (debug_position newValues
                   (debug_collision newValues
                      (debug_attractors newValues
                         (debug_turbulence newValues
                            (debug_colour current newValues
                               (debug_rotation current newValues
                                  (debug_curves newValues c))))))))))).

(** The callback of [useFrame] *)
Definition useFrame (delta : number) (c : Component Sys) : Component Sys :=
  if negb (sys_initialized (system c)) then c
  else
    let turbSpeed :=
      coalesce (opt_member (turbulenceRef (hooks c)) "speed") (JNum (Num 1)) in
    let c := call (sys_compute delta turbSpeed) (λ s, ECompute s delta) c in
    if truthy (emitting (hooks c)) then
      let px := item 0 (positionRef (hooks c)) in
      let py := item 1 (positionRef (hooks c)) in
      let pz := item 2 (positionRef (hooks c)) in
      let currentDelay := delayRef (hooks c) in
      let currentEmitCount :=
        if is_undefined (emitCountRef (hooks c)) then JNum (Num 20)
        else emitCountRef (hooks c) in
      if negb (truthy currentDelay) then
        call (sys_spawn px py pz currentEmitCount JNull)
             (λ s, ESpawn s px py pz currentEmitCount JNull) c
      else
        let c := upd (λ h, set_emitAccumulator (num_add (emitAccumulator h) delta) h) c in
        if num_ge (emitAccumulator (hooks c)) (ToNumber currentDelay) then
          call (sys_spawn px py pz currentEmitCount JNull)
               (λ s, ESpawn s px py pz currentEmitCount JNull)
               (upd (λ h, set_emitAccumulator
                            (num_sub (emitAccumulator h) (ToNumber currentDelay)) h) c)
        else c
    else c.

(** [start()] *)
Definition start (c : Component Sys) : Component Sys :=
  upd (λ h, set_emitAccumulator (Num 0) (set_emitting (JBool true) h)) c.

(** [stop()] *)
Definition stop (c : Component Sys) : Component Sys :=
  upd (set_emitting (JBool false)) c.
End Component.
End React.

(** ** A particle system to run the wrapper on

    [core-vfx] is outside the translated sources.  The instance below follows
    the specification of the engine as far as the wrapper can observe it:
    capacity and allocation cursor, ages, the feature flags, the colour
    uniforms and the no-op behaviour before initialisation.  Random samples
    and forces are left out: a particle is spawned at the origin of the call
    with the lower bound of the configured lifetime. *)
Module Model.

Definition Colour : Type := Q * Q * Q.

Definition white : Colour := (1, 1, 1)%Q.

Definition hex_digit (c : ascii) : option Z :=
  let n := Z.of_nat (nat_of_ascii c) in
  if (48 <=? n)%Z && (n <=? 57)%Z then Some (n - 48)%Z
  else if (97 <=? n)%Z && (n <=? 102)%Z then Some (n - 87)%Z
  else if (65 <=? n)%Z && (n <=? 70)%Z then Some (n - 55)%Z
  else None.

Definition channel (hi lo : ascii) : option Q :=
  match hex_digit hi, hex_digit lo with
  | Some h, Some l => Some (Qmake (16 * h + l) 255)
  | _, _ => None
  end.

(** Modelled from the spec: colour stops are given as [#rrggbb] strings
    (the hex parser of three.js is missing); malformed input falls back to
    a default instead of failing. *)
Definition parse_colour (v : JsValue) : Colour :=
  match v with
  | JStr (String "#"%char (String r1 (String r2 (String g1 (String g2
         (String b1 (String b2 EmptyString))))))) =>
      match channel r1 r2, channel g1 g2, channel b1 b2 with
      | Some r, Some g, Some b => (r, g, b)
      | _, _, _ => white
      end
  | _ => white
  end.

Definition parse_colours (v : JsValue) : list Colour :=
  match v with
  | JArr items => map parse_colour items
  | _ => [white]
  end.

Record Particle : Type := mkParticle {
  age : number;
  lifetime : number;
  position : number * number * number;
}.

(** A slot with [age >= lifetime] is dead. *)
Definition dead : Particle := mkParticle (Num 0) (Num 0) (Num 0, Num 0, Num 0).

Record System : Type := mkSystem {
  renderObject : Obj;
  renderer : Renderer;
  options : Options;
  initialized : bool;
  disposed : bool;
  features : Features;
  delay : number;
  emitCount : number;
  origin : number * number * number;
  emitting : bool;
  blending : JsValue;
  uniforms : Options;
  colorStart : list Colour;
  colorEnd : list Colour;
  particles : list Particle;
  nextIndex : nat;
}.

Definition to_number (v : JsValue) : number :=
  match v with
  | JNum n => n
  | JNull => Num 0
  | JBool b => Num (if b then 1 else 0)
  | _ => NaN
  end.

Definition to_Z (n : number) : Z :=
  match n with
  | Num q => Qfloor q
  | NaN => 0
  end.

Definition to_count (n : number) : nat := Z.to_nat (to_Z n).

(** Modelled from the spec: [isNonDefaultRotation] of core-vfx is missing;
    the rotation flag is "computed deterministically from configuration",
    and the default rotation in the sources is [[0, 0]]: a rotation is
    non-default when some component of it is a non-zero number. *)
Fixpoint isNonDefaultRotation (v : JsValue) : bool :=
  match v with
  | JNum n => num_truthy n
  | JArr items =>
      (fix any (l : list JsValue) : bool :=
         match l with
         | [] => false
         | x :: l' => isNonDefaultRotation x || any l'
         end) items
  | _ => false
  end.

Definition gt (v : JsValue) (n : Q) : bool := num_gt (to_number v) (Num n).

(** Modelled from the spec: the feature flag set of section 3, "derived
    booleans computed deterministically from configuration". *)
Definition derive_features (o : Options) : Features :=
  mkFeatures
    (negb (is_null (prop o "turbulence"))
     && gt (coalesce (opt_member (prop o "turbulence") "intensity") (JNum (Num 0))) 0)
    (negb (is_null (prop o "attractors")) && gt (opt_member (prop o "attractors") "length") 0)
    (negb (nullish (prop o "collision")))
    (isNonDefaultRotation (coalesce (prop o "rotation") (JArr [JNum (Num 0); JNum (Num 0)]))
     || isNonDefaultRotation
          (coalesce (prop o "rotationSpeed") (JArr [JNum (Num 0); JNum (Num 0)])))
    (gt (coalesce (opt_member (prop o "colorStart") "length") (JNum (Num 1))) 1
     || negb (nullish (prop o "colorEnd"))).

(** Modelled from the spec: "if colorEnd is absent, colorEnd uniforms are
    set so the particle's life-interpolated color holds steady at
    colorStart". *)
Definition end_colours (colorEnd : JsValue) (start : list Colour) : list Colour :=
  if truthy colorEnd then parse_colours colorEnd else start.

(** The device limit on the particle buffer: creating a larger one fails. *)
Definition device_limit : Z := 1000000.

Definition maxParticles (o : Options) : Z :=
  to_Z (to_number (coalesce (prop o "maxParticles") (JNum (Num 10000)))).

Definition capacity (o : Options) : nat := Z.to_nat (maxParticles o).

Definition position_of (v : JsValue) : number * number * number :=
  match v with
  | JArr [x; y; z] => (to_number x, to_number y, to_number z)
  | _ => (Num 0, Num 0, Num 0)
  end.

(** Modelled from the spec: [new VFXParticleSystem(renderer, options)] of
    core-vfx is missing.  Construction normalises the options; the buffer
    of [maxParticles] slots is "allocated once per structural
    configuration" when the system is initialised. *)
Definition create (id : nat) (r : Renderer) (o : Options) (curveTexture curveFlags : JsValue)
  : option System :=
  let start := parse_colours (coalesce (prop o "colorStart") (JArr [JStr "#ffffff"])) in
  Some (mkSystem id r o false false (derive_features o)
          (to_number (coalesce (prop o "delay") (JNum (Num 0))))
          (to_number (coalesce (prop o "emitCount") (JNum (Num 1))))
          (position_of (prop o "position"))
          (truthy (coalesce (prop o "autoStart") (JBool true)))
          (prop o "blending")
          o start (end_colours (prop o "colorEnd") start) [] 0).

Definition with_particles (ps : list Particle) (i : nat) (s : System) : System :=
  mkSystem (renderObject s) (renderer s) (options s) (initialized s) (disposed s)
    (features s) (delay s) (emitCount s) (origin s) (emitting s) (blending s)
    (uniforms s) (colorStart s) (colorEnd s) ps i.

(** Modelled from the spec: "resource errors — GPU resource creation
    failure (e.g., device lost, out of memory): must be surfaced to the host
    as a fatal initialization failure for that system instance". *)
Definition initialise (s : System) : option System :=
  if (maxParticles (options s) <=? device_limit)%Z then
    Some (mkSystem (renderObject s) (renderer s) (options s) true (disposed s)
            (features s) (delay s) (emitCount s) (origin s) (emitting s) (blending s)
            (uniforms s) (colorStart s) (colorEnd s)
            (replicate (capacity (options s)) dead) 0)
  else None.

(** Modelled from the spec: "allocate(count) advances the cursor by count
    mod N"; "spawning always overwrites the next count slots in cursor
    order regardless of whether they are alive". *)
Fixpoint overwrite (count : nat) (p : Particle) (cursor : nat) (buffer : list Particle)
  : list Particle * nat :=
  match count with
  | O => (buffer, cursor)
  | S count' =>
      overwrite count' p ((cursor + 1) `mod` length buffer) (<[cursor := p]> buffer)
  end.

Definition lifetime_of (o : Options) : number :=
  match coalesce (prop o "lifetime") (JArr [JNum (Num 1); JNum (Num 2)]) with
  | JArr (lo :: _) => to_number lo
  | v => to_number v
  end.

(** Modelled from the spec: "calling spawn/update before init() completes:
    defined as a no-op". *)
Definition spawn (x y z count overrides : JsValue) (s : System) : System :=
  if initialized s && negb (disposed s) then
    let p := mkParticle (Num 0) (lifetime_of (options s))
               (to_number x, to_number y, to_number z) in
    let '(buffer, cursor) :=
      overwrite (to_count (to_number count)) p (nextIndex s) (particles s) in
    with_particles buffer cursor s
  else s.

(** Modelled from the spec: "advance age += deltaTime"; dead particles
    "are not relocated, just excluded by the render path reading age". *)
Definition update (delta : number) (s : System) : System :=
  if initialized s && negb (disposed s) then
    with_particles
      (map (λ p, mkParticle (num_add (age p) delta) (lifetime p) (position p)) (particles s))
      (nextIndex s) s
  else s.

(** Modelled from the spec: "dispose() releases all GPU resources". *)
Definition dispose (s : System) : System :=
  mkSystem (renderObject s) (renderer s) (options s) false true
    (features s) (delay s) (emitCount s) (origin s) (emitting s) (blending s)
    (uniforms s) (colorStart s) (colorEnd s) [] 0.

Definition set_emitting (b : bool) (s : System) : System :=
  mkSystem (renderObject s) (renderer s) (options s) (initialized s) (disposed s)
    (features s) (delay s) (emitCount s) (origin s) b (blending s)
    (uniforms s) (colorStart s) (colorEnd s) (particles s) (nextIndex s).

(** Modelled from the spec: "clear() immediately marks the whole buffer
    dead"; "reset() ... rewinds the cursor to 0". *)
Definition clear (s : System) : System :=
  with_particles (replicate (length (particles s)) dead) 0 s.

Definition invalidate (s : System) : System :=
  mkSystem (renderObject s) (renderer s) (options s) false (disposed s)
    (features s) (delay s) (emitCount s) (origin s) (emitting s) (blending s)
    (uniforms s) (colorStart s) (colorEnd s) (particles s) 0.

Definition setPosition (v : JsValue) (s : System) : System :=
  mkSystem (renderObject s) (renderer s) (options s) (initialized s) (disposed s)
    (features s) (delay s) (emitCount s) (position_of v) (emitting s) (blending s)
    (uniforms s) (colorStart s) (colorEnd s) (particles s) (nextIndex s).

Definition setDelay (v : JsValue) (s : System) : System :=
  mkSystem (renderObject s) (renderer s) (options s) (initialized s) (disposed s)
    (features s) (to_number v) (emitCount s) (origin s) (emitting s) (blending s)
    (uniforms s) (colorStart s) (colorEnd s) (particles s) (nextIndex s).

Definition setEmitCount (v : JsValue) (s : System) : System :=
  mkSystem (renderObject s) (renderer s) (options s) (initialized s) (disposed s)
    (features s) (delay s) (to_number v) (origin s) (emitting s) (blending s)
    (uniforms s) (colorStart s) (colorEnd s) (particles s) (nextIndex s).

Definition setBlending (v : JsValue) (s : System) : System :=
  mkSystem (renderObject s) (renderer s) (options s) (initialized s) (disposed s)
    (features s) (delay s) (emitCount s) (origin s) (emitting s) v
    (uniforms s) (colorStart s) (colorEnd s) (particles s) (nextIndex s).

(** Modelled from the spec: [updateUniformsPartial] of core-vfx is missing.
    "Uniform-level" values are patched into the uniforms "without
    interrupting the running simulation"; a [colorEnd] that is absent makes
    the end colours mirror the start colours handed in with it. *)
Definition updateUniformsPartial (values : Options) (s : System) : System :=
  let start :=
    if has_key values "colorStart" && truthy (prop values "colorStart")
    then parse_colours (prop values "colorStart")
    else colorStart s in
  let finish :=
    if has_key values "colorEnd" then end_colours (prop values "colorEnd") start
    else colorEnd s in
  mkSystem (renderObject s) (renderer s) (options s) (initialized s) (disposed s)
    (features s) (delay s) (emitCount s) (origin s) (emitting s) (blending s)
    (values ∪ uniforms s) start finish (particles s) (nextIndex s).

(** Modelled from the spec: the interpolation of a particle's colour over
    its life, between the start and end stop picked for it by its seed. *)
Definition pick (seed : nat) (stops : list Colour) : Colour :=
  nth (seed `mod` length stops) stops white.

Definition mix (a b : Colour) (t : Q) : Colour :=
  let '(ar, ag, ab) := a in
  let '(br, bg, bb) := b in
  (ar + (br - ar) * t, ag + (bg - ag) * t, ab + (bb - ab) * t)%Q.

Definition lifeColor (s : System) (seed : nat) (t : Q) : Colour :=
  mix (pick seed (colorStart s)) (pick seed (colorEnd s)) t.

Definition colour_eq (a b : Colour) : Prop :=
  let '(ar, ag, ab) := a in
  let '(br, bg, bb) := b in
  (ar == br /\ ag == bg /\ ab == bb)%Q.

(** Modelled from the spec: the defaults of the debug panel of debug-vfx
    are missing; these are the defaults the sources give to the same
    options. *)
Definition DEFAULT_VALUES : Options :=
  list_to_map
    [("maxParticles", JNum (Num 10000));
     ("colorStart", JArr [JStr "#ffffff"]);
     ("colorEnd", JNull);
     ("rotation", JArr [JNum (Num 0); JNum (Num 0)]);
     ("rotationSpeed", JArr [JNum (Num 0); JNum (Num 0)]);
     ("delay", JNum (Num 0));
     ("emitCount", JNum (Num 1));
     ("autoStart", JBool true);
     ("turbulence", JNull);
     ("attractors", JNull);
     ("collision", JNull)].

Definition imports : Imports :=
  Build_Imports isNonDefaultRotation DEFAULT_VALUES (JStr "none") (λ _ _, JHost 1)
    (λ _, NaN).

Definition system : VFXParticleSystem System :=
  Build_VFXParticleSystem System
    create initialise
    initialized features delay emitCount origin renderObject (λ _, true)
    spawn update dispose (set_emitting true) (set_emitting false) clear
    setPosition setDelay setEmitCount setBlending invalidate (λ delta _, update delta)
    updateUniformsPartial.

(** Modelled from the spec: [useCurveTextureAsync] is missing.  "pack(curves[])
    -> texture" combines the baked curves into one texture, so the texture
    is identified with the curves packed into it; "curve channel enable
    flags mirror exactly which curves were supplied". *)
Definition curves : React.CurveTextures :=
  λ size opacity velocity rotationSpeed path,
    React.mkCurveTextureResult
      (JObj [("size", size); ("opacity", opacity); ("velocity", velocity);
             ("rotationSpeed", rotationSpeed); ("path", path)])
      (truthy size) (truthy opacity) (truthy velocity) (truthy rotationSpeed).

End Model.

(** ** Observing a run *)

Section Observations.
Context `{!Imports} {Sys : Type} `{!VFXParticleSystem Sys}.

(** The calls made on the way from one state of an instance to a later one *)
Definition since (before after : VFXParticles Sys) : list (Event Sys) :=
  drop (length (trace before)) (trace after).

Fixpoint count (p : Event Sys -> bool) (l : list (Event Sys)) : nat :=
  match l with
  | [] => 0
  | e :: l' => (if p e then 1 else 0) + count p l'
  end.

Definition is_new (e : Event Sys) : bool :=
  match e with ENew _ _ _ _ _ => true | _ => false end.

Definition is_spawn (e : Event Sys) : bool :=
  match e with ESpawn _ _ _ _ _ _ => true | _ => false end.

Definition is_dispose (e : Event Sys) : bool :=
  match e with EDispose _ => true | _ => false end.

(** The calls by which a system is patched in place. *)
Definition uniform_level (e : Event Sys) : bool :=
  match e with
  | EUniforms _ _ | ESetPosition _ _ | ESetDelay _ _ | ESetEmitCount _ _
  | EStart _ | EStop _ | ESetBlending _ _ => true
  | _ => false
  end.

Inductive uniform_call : Sys -> Sys -> Prop :=
| uniform_uniforms values s : uniform_call s (updateUniformsPartial values s)
| uniform_setPosition v s : uniform_call s (sys_setPosition v s)
| uniform_setDelay v s : uniform_call s (sys_setDelay v s)
| uniform_setEmitCount v s : uniform_call s (sys_setEmitCount v s)
| uniform_start s : uniform_call s (sys_start s)
| uniform_stop s : uniform_call s (sys_stop s)
| uniform_setBlending v s : uniform_call s (sys_setBlending v s).

(** An observation of a system that no uniform-level call changes, such as
    the ages and positions in its particle buffer. *)
Definition untouched_by_uniform_calls {A : Type} (obs : Sys -> A) : Prop :=
  ∀ s s', uniform_call s s' → obs s' = obs s.

(** [st'] is [st] with its system patched in place: nothing else changed
    but, possibly, the emitting flag. *)
Definition patched (st st' : VFXParticles Sys) : Prop :=
  group st' = group st ∧ _renderer st' = _renderer st ∧ _config st' = _config st
  ∧ _emitAccumulator st' = _emitAccumulator st ∧ _debug st' = _debug st
  ∧ _initialized st' = _initialized st ∧ fresh st' = fresh st
  ∧ (∃ l, trace st' = trace st ++ l ∧ forallb uniform_level l = true)
  ∧ (∀ s, _system st = Some s → ∃ s', _system st' = Some s' ∧ rtc uniform_call s s').

(** The number of systems an instance holds: one or none. *)
Definition held (st : VFXParticles Sys) : nat :=
  match _system st with Some _ => 1 | None => 0 end.

(** A construction or an initialisation among the calls [l] failed. *)
Definition recreation_failed (l : list (Event Sys)) : bool :=
  existsb (λ e, match e with
                | ENew _ _ _ _ None => true
                | EInit _ None => true
                | _ => false
                end) l.

Definition is_group_add (e : Event Sys) : bool :=
  match e with EGroupAdd _ => true | _ => false end.

(** ['k' in newValues] for one of the keys [ks] *)
Definition touches (newValues : Options) (ks : list string) : bool :=
  existsb (has_key newValues) ks.

(** A derived feature flag of the configuration that [newValues] leads to
    differs from the flag the running system was built with. *)
Definition flag_flips (newValues : Options) (st : VFXParticles Sys) : bool :=
  let config := newValues ∪ _config st in
  touches newValues ["turbulence"]
    && xorb (hasTurbulence config) (old_feature turbulence st)
  || touches newValues ["attractors"]
    && xorb (hasAttractors config) (old_feature attractors st)
  || touches newValues ["collision"]
    && xorb (hasCollision config) (old_feature collision st)
  || touches newValues ["rotation"; "rotationSpeed"]
    && xorb (needsRotationOf config) (old_feature needsRotation st)
  || touches newValues ["colorStart"; "colorEnd"]
    && xorb (needsPerParticleColorOf config) (old_feature needsPerParticleColor st).

Definition GEOMETRY_KEYS : list string := ["geometryType"; "geometryArgs"].

(** The structural keys as the specification names them: capacity,
    lighting model, appearance mode, shadow casting, orientation mode. *)
Definition NAMED_STRUCTURAL_KEYS : list string :=
  ["maxParticles"; "lighting"; "appearance"; "shadow"; "orientToDirection"].

(** The classification of a change as the specification words it. *)
Definition structural_change (newValues : Options) (st : VFXParticles Sys) : bool :=
  touches newValues NAMED_STRUCTURAL_KEYS
  || touches newValues GEOMETRY_KEYS
  || flag_flips newValues st.

(** The fields of an instance, the ghost trace apart. *)
Definition same_fields (a b : VFXParticles Sys) : Prop :=
  group a = group b ∧ _renderer a = _renderer b ∧ _config a = _config b
  ∧ _system a = _system b ∧ _emitting a = _emitting b
  ∧ _emitAccumulator a = _emitAccumulator b ∧ _debug a = _debug b
  ∧ _initialized a = _initialized b ∧ fresh a = fresh b.

(** The public methods, as the host may call them in any order. *)
Inductive Op : Type :=
| OInit
| OUpdate (delta : number)
| ODispose
| OSpawn (x y z count : option number) (overrides : JsValue)
| OStart
| OStop
| OClear
| OSetProps (newValues : Options).

Definition step (st : VFXParticles Sys) (o : Op) : VFXParticles Sys :=
  match o with
  | OInit => fst (init st)
  | OUpdate delta => update delta st
  | ODispose => dispose st
  | OSpawn x y z count overrides => spawn x y z count overrides st
  | OStart => start st
  | OStop => stop st
  | OClear => clear st
  | OSetProps newValues => setProps newValues st
  end.

Definition run (ops : list Op) (st : VFXParticles Sys) : VFXParticles Sys :=
  fold_left step ops st.

Definition is_start (o : Op) : bool :=
  match o with OStart => true | _ => false end.

Definition is_dispose_op (o : Op) : bool :=
  match o with ODispose => true | _ => false end.

(** A call that cannot switch emission back on: anything but [start()] and
    a [setProps] that carries an [autoStart] other than [false]. *)
Definition keeps_stopped (o : Op) : bool :=
  match o with
  | OStart => false
  | OSetProps newValues =>
      is_undefined (prop newValues "autoStart")
      || strict_eq (prop newValues "autoStart") (JBool false)
  | _ => true
  end.
End Observations.

Section ReactObservations.
Context `{!Imports} {Sys : Type} `{!VFXParticleSystem Sys} `{!React.CurveTextures}.

Definition CURVE_KEYS : list string :=
  ["fadeSizeCurve"; "fadeOpacityCurve"; "velocityCurve"; "rotationSpeedCurve"].

(** The keys from which a feature flag is derived. *)
Definition FLAG_KEYS : list string :=
  ["turbulence"; "attractors"; "collision"; "rotation"; "rotationSpeed"; "colorStart";
   "colorEnd"].

(** The keys whose value is a dependency of the memoised system of the
    component: the curves, the structural keys and the geometry keys. *)
Definition REBUILD_KEYS : list string :=
  ["fadeSizeCurve"; "fadeOpacityCurve"; "velocityCurve"; "rotationSpeedCurve";
   "maxParticles"; "lighting"; "appearance"; "shadow"; "orientToDirection";
   "geometryType"; "geometryArgs"].

(** The component has been rendered since its state last changed. *)
Definition rendered (c : React.Component Sys) : Prop :=
  same_values (React.memo c) (React.dependencies (React.hooks c)) = true.

(** The feature flags the component keeps as state. *)
Definition flag_state (c : React.Component Sys) : bool * bool * bool * bool * bool :=
  (React.activeTurbulence (React.hooks c), React.activeAttractors (React.hooks c),
   React.activeCollision (React.hooks c),
   React.activeNeedsPerParticleColor (React.hooks c),
   React.activeNeedsRotation (React.hooks c)).

(** The renderer, the props and the remount-required values the component
    keeps as state. *)
Definition rebuild_state (c : React.Component Sys) : list JsValue * Options :=
  ([JHost (React.renderer (React.hooks c));
    React.activeMaxParticles (React.hooks c);
    React.activeLighting (React.hooks c);
    React.activeAppearance (React.hooks c);
    React.activeOrientToDirection (React.hooks c);
    React.activeGeometry (React.hooks c);
    React.activeShadow (React.hooks c);
    React.activeFadeSizeCurve (React.hooks c);
    React.activeFadeOpacityCurve (React.hooks c);
    React.activeVelocityCurve (React.hooks c);
    React.activeRotationSpeedCurve (React.hooks c)],
   React.props (React.hooks c)).
End ReactObservations.

Section ModelObservations.
#[local] Existing Instance Model.imports.
#[local] Existing Instance Model.system.

(** The colour uniforms of the system an instance holds. *)
Definition colour_uniforms (st : VFXParticles Model.System)
  : option (list Model.Colour * list Model.Colour) :=
  (λ s, (Model.colorStart s, Model.colorEnd s)) <$> _system st.
End ModelObservations.

(** ** Instances to run

    A small effect on the modelled particle system, for the statements that
    are checked on a concrete run. *)
Section Examples.
#[local] Existing Instance Model.imports.
#[local] Existing Instance Model.system.
#[local] Existing Instance Model.curves.

Definition demo_options : Options :=
  list_to_map [("maxParticles", JNum (Num 4)); ("delay", JNum (Num (1 # 2)))].

(** [const p = new VFXParticles(renderer, options); await p.init()] *)
Definition demo : VFXParticles Model.System :=
  fst (init (new_VFXParticles 1 (Some demo_options))).

Definition blank : Model.System :=
  Model.mkSystem 0 0 ∅ false false (mkFeatures false false false false false)
    (Num 0) (Num 0) (Num 0, Num 0, Num 0) false JUndefined ∅ [] [] [] 0.

Definition demo_system : Model.System := default blank (_system demo).

(** An instance whose system has been constructed but not initialised. *)
Definition unready : VFXParticles Model.System :=
  mkVFXParticles [] 1 demo_options
    (Model.create 0 1 demo_options JUndefined JUndefined)
    (JBool true) (Num 0) (JBool false) false [] 1.

(** More particles than the device can hold. *)
Definition too_many : Options := {["maxParticles" := JNum (Num 4000000)]}.

Definition same_capacity : Options := {["maxParticles" := JNum (Num 4)]}.

Definition restart : Options := {["autoStart" := JBool true]}.

Definition red : Options := {["colorStart" := JArr [JStr "#ff0000"]]}.

Definition gravity : Options :=
  {["gravity" := JArr [JNum (Num 0); JNum (Num (-1)); JNum (Num 0)]]}.

Definition curve : Options :=
  {["fadeSizeCurve" := JObj [("points", JArr [JNum (Num 1); JNum (Num 0)])]]}.

(** The React component, mounted and run for one frame. *)
Definition blank_component : React.Component Model.System :=
  React.mkComponent (React.initial_hooks 0 ∅) blank [] [] 0.

Definition demo_component : React.Component Model.System :=
  React.useFrame (Num (1 # 10))
    (default blank_component
       (React.mount 1 (list_to_map [("maxParticles", JNum (Num 3));
                                    ("debug", JBool true)]))).

(** The particle buffer of a component that rendered. *)
Definition rendered_particles (o : option (React.Component Model.System))
  : option (list Model.Particle) :=
  (λ c, Model.particles (React.system c)) <$> o.

(** The claims that the code does not keep, as they are worded. *)

(** A failed recreation leaves the previous system in place. *)
Definition survives_failed_recreation (nv : Options) (st : VFXParticles Model.System)
  : Prop :=
  recreation_failed (since st (setProps nv st)) = true →
  _system (setProps nv st) = _system st ∧ group (setProps nv st) = group st.

(** Applying a change of the given kind in the React component leaves the
    particles as they are. *)
Definition debug_update_keeps_particles (nv : Options)
    (c : React.Component Model.System) : Prop :=
  ∀ c', React.render (React.handleDebugUpdate nv c) = Some c' →
        Model.particles (React.system c') = Model.particles (React.system c).

(** Reapplying values that are in effect recreates nothing. *)
Definition reapplying_recreates_nothing (nv : Options) (st : VFXParticles Model.System)
  : Prop :=
  nv ⊆ _config st → count is_new (since st (setProps nv st)) = 0.

(** Between [stop()] and the next [start()] no [update] spawns. *)
Definition no_spawn_until_start (ops : list Op) (st : VFXParticles Model.System) : Prop :=
  forallb (λ o, negb (is_start o)) ops = true →
  ∀ delta,
    count is_spawn (since (run ops (stop st)) (update delta (run ops (stop st)))) = 0.
End Examples.

(** ** Recreations in flight

    [setProps] does not wait for the promise of [_recreateSystem], and the
    callback it hands to [import('debug-vfx').then] runs later still.  The
    definitions below cut [_recreateSystem] at its [await] and [setProps] at
    the points where it returns with work pending, so that calls made while a
    recreation is in flight can be stated.  [setProps] of the section above
    is [setProps_begin] followed by the pending work, with nothing in
    between. *)
Section InFlight.
Context `{!Imports} {Sys : Type} `{!VFXParticleSystem Sys}.

(** Work that is pending when [setProps] returns. *)
Inductive Pending : Type :=
| AwaitInit (s : Sys)   (* [_recreateSystem], suspended at [await s.init()] *)
| AwaitImport.          (* the callback of [import('debug-vfx').then(...)] *)

(** [_recreateSystem()] up to [await s.init()]: the old system is removed
    and disposed and the new one constructed, synchronously.  The call
    [s.init()] is made here too; it is logged with its outcome where its
    promise settles, in [_recreateSystem_resume]. *)
Definition _recreateSystem_begin (st : VFXParticles Sys)
  : VFXParticles Sys * option Pending :=
  let st1 :=
    match _system st with
    | Some old =>
        let st' := log (EGroupRemove (sys_renderObject old))
                     (set_group (group_remove (sys_renderObject old) (group st)) st) in
        call sys_dispose EDispose old st'
    | None => st
    end in
  let made := sys_new (fresh st1) (_renderer st1) (_config st1) JUndefined JUndefined in
  let st2 := log (ENew (fresh st1) (_renderer st1) (_config st1) JUndefined made)
               (set_fresh (S (fresh st1)) st1) in
  (st2, AwaitInit <$> made).

(** The rest of [_recreateSystem()], run when the promise of [s.init()]
    has settled. *)
Definition _recreateSystem_resume (s : Sys) (st : VFXParticles Sys)
  : VFXParticles Sys * bool :=
  let ready := sys_init s in
  let st3 := log (EInit s ready) st in
  match ready with
  | None => (st3, false)
  | Some s' =>
      let st4 := set_system (Some s') st3 in
      let st5 := log (EGroupAdd (sys_renderObject s'))
                   (set_group (group_add (sys_renderObject s') (group st4)) st4) in
      (set_emitAccumulator (Num 0) st5, true)
  end.

(** [setProps(newValues)] up to its [return]. *)
Definition setProps_begin (newValues : Options) (st : VFXParticles Sys)
  : VFXParticles Sys * option Pending :=
  let st := set_config (newValues ∪ _config st) st in
  let needsRecreate := existsb (has_key newValues) STRUCTURAL_KEYS in
  if has_key newValues "turbulence"
     && xorb (hasTurbulence newValues) (old_feature turbulence st)
  then _recreateSystem_begin st
  else if has_key newValues "attractors"
     && xorb (hasAttractors newValues) (old_feature attractors st)
  then _recreateSystem_begin st
  else if has_key newValues "collision"
     && xorb (hasCollision newValues) (old_feature collision st)
  then _recreateSystem_begin st
  else if (has_key newValues "rotation" || has_key newValues "rotationSpeed")
     && xorb (needsRotationOf (_config st)) (old_feature needsRotation st)
  then _recreateSystem_begin st
  else if (has_key newValues "colorStart" || has_key newValues "colorEnd")
     && xorb (needsPerParticleColorOf (_config st)) (old_feature needsPerParticleColor st)
  then _recreateSystem_begin st
  else if has_key newValues "geometryType" || has_key newValues "geometryArgs"
  then (st, Some AwaitImport)
  else if needsRecreate
  then _recreateSystem_begin st
  else (_applyUniformUpdates newValues st, None).

(** One piece of pending work, run on the state it finds. *)
Definition resume (p : Pending) (st : VFXParticles Sys)
  : VFXParticles Sys * option Pending :=
  match p with
  | AwaitInit s => (fst (_recreateSystem_resume s st), None)
  | AwaitImport =>
      let geoType := prop (_config st) "geometryType" in
      let st1 :=
        if strict_eq geoType GeometryType_NONE || negb (truthy geoType)
        then set_config (<["geometry" := JNull]> (_config st)) st
        else
          let args := prop (_config st) "geometryArgs" in
          log (ECreateGeometry geoType args)
            (set_config (<["geometry" := createGeometry geoType args]> (_config st)) st) in
      _recreateSystem_begin st1
  end.

(** The pending work of one call run to its end with nothing in between. *)
Definition settle (x : VFXParticles Sys * option Pending) : VFXParticles Sys :=
  match x with
  | (st, None) => st
  | (st, Some p) =>
      match resume p st with
      | (st', None) => st'
      | (st', Some p') => fst (resume p' st')
      end
  end.
End InFlight.

Arguments Pending : clear implicits.
Arguments AwaitInit {Sys} s.
Arguments AwaitImport {Sys}.
(** ** Further observations *)

Section FurtherObservations.
Context `{!Imports} {Sys : Type} `{!VFXParticleSystem Sys}.

(** One call of a mutating method of a system, or of
    [updateUniformsPartial] on it. *)
Inductive method_call : Sys -> Sys -> Prop :=
| method_uniform s s' : uniform_call s s' → method_call s s'
| method_spawn x y z n o s : method_call s (sys_spawn x y z n o s)
| method_update delta s : method_call s (sys_update delta s)
| method_dispose s : method_call s (sys_dispose s)
| method_clear s : method_call s (sys_clear s).

(** The render object of a system is created with it and never replaced. *)
Definition render_object_stable : Prop :=
  (∀ s s', method_call s s' → sys_renderObject s' = sys_renderObject s)
  ∧ (∀ s s', sys_init s = Some s' → sys_renderObject s' = sys_renderObject s).

(** The group holds nothing but the render object of the system held. *)
Definition group_in_step (st : VFXParticles Sys) : Prop :=
  match _system st with
  | Some s => group st = [] ∨ group st = [sys_renderObject s]
  | None => group st = []
  end.

(** [st'] has the group of [st], and its system is the one of [st] after
    some calls of its methods. *)
Definition evolves (st st' : VFXParticles Sys) : Prop :=
  group st' = group st
  ∧ match _system st with
    | Some s => ∃ s', _system st' = Some s' ∧ rtc method_call s s'
    | None => _system st' = None
    end.

(** The methods that only act through the system held. *)
Definition acts_on_system (o : Op) : bool :=
  match o with
  | OUpdate _ | OSpawn _ _ _ _ _ | OStart | OStop | OClear => true
  | _ => false
  end.

Definition is_render_panel (e : Event Sys) : bool :=
  match e with ERenderDebugPanel _ => true | _ => false end.

(** The calls [handleDebugUpdate] may make. *)
Definition debug_level (e : Event Sys) : bool :=
  match e with
  | EUniforms _ _ | ESetPosition _ _ | ESetBlending _ _ | EInvalidate _
  | ECreateGeometry _ _ | EDisposeGeometry _ => true
  | _ => false
  end.

(** The calls between two states of a component. *)
Definition frame_calls (before after : React.Component Sys) : list (Event Sys) :=
  drop (length (React.trace before)) (React.trace after).

(** [c'] is [c] after statements of [handleDebugUpdate] that follow the
    merge: the memoised dependencies, the next identity, the props, the
    merged debug values and the emission accumulator are those of [c], and
    the calls made are debug-level ones. *)
Definition debug_stepped (c c' : React.Component Sys) : Prop :=
  React.memo c' = React.memo c
  ∧ React.fresh c' = React.fresh c
  ∧ React.props (React.hooks c') = React.props (React.hooks c)
  ∧ React.debugValuesRef (React.hooks c') = React.debugValuesRef (React.hooks c)
  ∧ React.emitAccumulator (React.hooks c') = React.emitAccumulator (React.hooks c)
  ∧ ∃ l, React.trace c' = React.trace c ++ l ∧ forallb debug_level l = true.

(** The state [activeMaxParticles] is that of [c]. *)
Definition capacity_kept (c c' : React.Component Sys) : Prop :=
  React.activeMaxParticles (React.hooks c') = React.activeMaxParticles (React.hooks c).

(** The feature flags the component keeps as state, the one for
    per-particle colours apart. *)
Definition feature_flags (c : React.Component Sys) : bool * bool * bool * bool :=
  (React.activeTurbulence (React.hooks c), React.activeAttractors (React.hooks c),
   React.activeCollision (React.hooks c), React.activeNeedsRotation (React.hooks c)).

(** [geo.constructor.name] and [geo.parameters || {}] *)
Definition geometry_name (geo : JsValue) : JsValue :=
  opt_member (opt_member geo "constructor") "name".

Definition geometry_parameters (geo : JsValue) : JsValue :=
  if truthy (member geo "parameters") then member geo "parameters" else JObj [].

(** The thirteen geometries the debug panel knows, by the name of their
    constructor, and the type each is shown as. *)
Definition KNOWN_GEOMETRIES : list (string * string) :=
  [("BoxGeometry", "box"); ("SphereGeometry", "sphere");
   ("CylinderGeometry", "cylinder"); ("ConeGeometry", "cone");
   ("TorusGeometry", "torus"); ("PlaneGeometry", "plane");
   ("CircleGeometry", "circle"); ("RingGeometry", "ring");
   ("DodecahedronGeometry", "dodecahedron"); ("IcosahedronGeometry", "icosahedron");
   ("OctahedronGeometry", "octahedron"); ("TetrahedronGeometry", "tetrahedron");
   ("CapsuleGeometry", "capsule")].

(** The arguments detected for a geometry hold no [null] or [undefined]. *)
Definition complete_args (args : JsValue) : Prop :=
  ∃ fields, args = JObj fields ∧ Forall (λ kv, nullish (snd kv) = false) fields.
End FurtherObservations.


(** ** Further instances to run *)
Section FurtherExamples.
#[local] Existing Instance Model.imports.
#[local] Existing Instance Model.system.
#[local] Existing Instance Model.curves.

(** [new VFXParticles(renderer, options)], before any [init()] *)
Definition constructed : VFXParticles Model.System :=
  new_VFXParticles 1 (Some demo_options).

(** An instance that asks for more particles than the device can hold. *)
Definition oversized : VFXParticles Model.System :=
  new_VFXParticles 1 (Some too_many).

(** An instance in debug mode. *)
Definition debugged : VFXParticles Model.System :=
  new_VFXParticles 1
    (Some (list_to_map [("delay", JNum (Num (1 # 2))); ("debug", JBool true)])).

(** Calls that need a system. *)
Definition idle_calls : list Op :=
  [OUpdate (Num 1); OSpawn None None None None JUndefined; OStop; OStart; OClear].

(** A life of an instance in which a recreation fails and a later one
    succeeds. *)
Definition eventful : list Op :=
  [OInit; OUpdate (Num 1); OSetProps too_many; OUpdate (Num 1);
   OSetProps same_capacity; OSetProps gravity; OUpdate (Num 1)].

(** The React component with the options of [demo], mounted. *)
Definition paced_component : React.Component Model.System :=
  default blank_component
    (React.mount 1 (list_to_map [("maxParticles", JNum (Num 4));
                                 ("delay", JNum (Num (1 # 2)));
                                 ("debug", JBool true)])).
(** Two structural [setProps] on [demo], the second made before the
    recreation of the first has settled. *)
Definition first_begun : VFXParticles Model.System * option (Pending Model.System) :=
  setProps_begin same_capacity demo.

Definition second_begun : VFXParticles Model.System * option (Pending Model.System) :=
  setProps_begin same_capacity (fst first_begun).

(** The system a begun recreation waits for. *)
Definition awaited (x : VFXParticles Model.System * option (Pending Model.System))
  : Model.System :=
  match snd x with
  | Some (AwaitInit s) => s
  | _ => blank
  end.

(** [new THREE.SphereGeometry(2)], as far as the debug panel reads it. *)
Definition sphere : JsValue :=
  JObj [("constructor", JObj [("name", JStr "SphereGeometry")]);
        ("parameters", JObj [("radius", JNum (Num 2))])].
End FurtherExamples.
(** * Properties *)

Section Traces.
Context `{!Imports} {Sys : Type} `{!VFXParticleSystem Sys}.
Implicit Types (st : VFXParticles Sys) (s : Sys) (e : Event Sys).

Lemma since_app st st' l : trace st' = trace st ++ l → since st st' = l.
Proof. intros E. unfold since. rewrite E. apply drop_app_length. Qed.

Lemma since_refl st : since st st = [].
Proof. apply since_app. by rewrite app_nil_r. Qed.

Lemma count_app p (l k : list (Event Sys)) : count p (l ++ k) = count p l + count p k.
Proof. induction l as [|e l IH]; simpl; [done | rewrite IH; lia]. Qed.

Lemma trace_call m ev s st : trace (call m ev s st) = trace st ++ [ev s].
Proof. reflexivity. Qed.

Lemma system_call m ev s st : _system (call m ev s st) = Some (m s).
Proof. reflexivity. Qed.
End Traces.

Section Pacing.
Context `{!Imports} {Sys : Type} `{!VFXParticleSystem Sys}.
Implicit Types (st : VFXParticles Sys) (s : Sys).

Lemma update_without_system st delta : _system st = None → update delta st = st.
Proof. intros E. unfold update. by rewrite E. Qed.

Lemma update_uninitialised st s delta :
  _system st = Some s → sys_initialized s = false → update delta st = st.
Proof. intros E I. unfold update. by rewrite E, I. Qed.

(** At most one [spawn] leaves an [update], whatever the state. *)
Lemma update_spawns_at_most_once st delta :
  count is_spawn (since st (update delta st)) ≤ 1.
Proof.
  unfold update.
  destruct (_system st) as [s|] eqn:E; [|rewrite since_refl; simpl; lia].
  destruct (sys_initialized s); simpl; [|rewrite since_refl; simpl; lia].
  destruct (truthy (_emitting st)).
  - destruct (sys_position s) as [[px py] pz].
    destruct (num_truthy (sys_delay s)); simpl.
    + destruct (num_ge _ _); simpl.
      * erewrite since_app; [|simpl; by rewrite <- app_assoc]. simpl. lia.
      * rewrite E. erewrite since_app; [|reflexivity]. simpl. lia.
    + erewrite since_app; [|simpl; by rewrite <- app_assoc]. simpl. lia.
  - rewrite E. erewrite since_app; [|reflexivity]. simpl. lia.
Qed.

(** C10.  While the instance is emitting, an [update(delta)] on an
    initialised system spawns [emitCount] particles exactly once when the
    delay is falsy; with a delay it adds [delta] to the accumulator and,
    when the accumulator has reached the delay, spawns exactly once and
    keeps the remainder [accumulator - delay]; otherwise it does not spawn.
    In every case the system is then advanced by [delta], and no call of
    [update] spawns more than once. *)
Theorem update_paces_emission st s delta px py pz :
  _system st = Some s →
  sys_initialized s = true →
  truthy (_emitting st) = true →
  sys_position s = (px, py, pz) →
  let emitCount := JNum (sys_emitCount s) in
  let spawned := sys_spawn (JNum px) (JNum py) (JNum pz) emitCount JUndefined s in
  let once := [ESpawn s (JNum px) (JNum py) (JNum pz) emitCount JUndefined;
               EUpdate spawned delta] in
  let accumulated := num_add (_emitAccumulator st) delta in
  (if num_truthy (sys_delay s) then
     if num_ge accumulated (sys_delay s) then
       since st (update delta st) = once
       ∧ _emitAccumulator (update delta st) = num_sub accumulated (sys_delay s)
       ∧ _system (update delta st) = Some (sys_update delta spawned)
     else
       since st (update delta st) = [EUpdate s delta]
       ∧ _emitAccumulator (update delta st) = accumulated
       ∧ _system (update delta st) = Some (sys_update delta s)
   else
     since st (update delta st) = once
     ∧ _emitAccumulator (update delta st) = _emitAccumulator st
     ∧ _system (update delta st) = Some (sys_update delta spawned))
  ∧ count is_spawn (since st (update delta st)) ≤ 1.
Proof.
  intros E I T P. cbv zeta. split; [|apply update_spawns_at_most_once].
  unfold update. rewrite E, I, T, P. simpl.
  destruct (num_truthy (sys_delay s)); simpl.
  - destruct (num_ge _ _); simpl.
    + split; [|done]. apply since_app. simpl. by rewrite <- app_assoc.
    + rewrite E. split; [|done]. by apply since_app.
  - split; [|done]. apply since_app. simpl. by rewrite <- app_assoc.
Qed.
End Pacing.

Section Frames.
Context `{!Imports} {Sys : Type} `{!VFXParticleSystem Sys}.
Implicit Types (st : VFXParticles Sys) (s : Sys) (nv : Options).

Lemma patched_refl st : patched st st.
Proof.
  repeat split; try done.
  - exists []. by rewrite app_nil_r.
  - intros s E. exists s. by split.
Qed.

Lemma patched_trans st1 st2 st3 : patched st1 st2 → patched st2 st3 → patched st1 st3.
Proof.
  intros (G1 & R1 & C1 & A1 & D1 & I1 & F1 & (l1 & T1 & U1) & S1)
         (G2 & R2 & C2 & A2 & D2 & I2 & F2 & (l2 & T2 & U2) & S2).
  repeat split; try congruence.
  - exists (l1 ++ l2). split.
    + by rewrite T2, T1, app_assoc.
    + rewrite forallb_app. by rewrite U1, U2.
  - intros s E. destruct (S1 s E) as (s' & E' & Q). destruct (S2 s' E') as (s'' & E'' & Q').
    exists s''. split; [done|]. by etrans.
Qed.

Lemma patched_on_system m ev st :
  (∀ s, uniform_call s (m s)) → (∀ s, uniform_level (ev s) = true) →
  patched st (on_system m ev st).
Proof.
  intros Hm Hev. unfold on_system.
  destruct (_system st) as [s|] eqn:E; [|apply patched_refl].
  repeat split; try done.
  - exists [ev s]. split; [done|]. simpl. by rewrite Hev.
  - intros s0 E0. exists (m s). split; [done|].
    rewrite E in E0. injection E0 as <-. apply rtc_once, Hm.
Qed.

Lemma patched_call m ev s st :
  _system st = Some s → uniform_call s (m s) → uniform_level (ev s) = true →
  patched st (call m ev s st).
Proof.
  intros E Hm Hev. repeat split; try done.
  - exists [ev s]. split; [done|]. simpl. by rewrite Hev.
  - intros s0 E0. exists (m s). split; [done|].
    rewrite E in E0. injection E0 as <-. by apply rtc_once.
Qed.

Lemma patched_set_emitting v st : patched st (set_emitting v st).
Proof.
  repeat split; try done.
  - exists []. by rewrite app_nil_r.
  - intros s E. exists s. by split.
Qed.

Lemma patched_if (b : bool) st x y : patched st x → patched st y → patched st (if b then x else y).
Proof. by destruct b. Qed.

Lemma apply_position_patched nv st : patched st (apply_position nv st).
Proof.
  unfold apply_position. apply patched_if; [|apply patched_refl].
  apply patched_on_system; [intros; constructor | done].
Qed.

Lemma apply_delay_patched nv st : patched st (apply_delay nv st).
Proof.
  unfold apply_delay. apply patched_if; [|apply patched_refl].
  apply patched_on_system; [intros; constructor | done].
Qed.

Lemma apply_emitCount_patched nv st : patched st (apply_emitCount nv st).
Proof.
  unfold apply_emitCount. apply patched_if; [|apply patched_refl].
  apply patched_on_system; [intros; constructor | done].
Qed.

Lemma apply_autoStart_patched nv st : patched st (apply_autoStart nv st).
Proof.
  unfold apply_autoStart. apply patched_if; [|apply patched_refl].
  cbv zeta. eapply patched_trans; [apply patched_set_emitting|].
  apply patched_if; apply patched_on_system; (intros; constructor) || done.
Qed.

Lemma apply_blending_patched nv st : patched st (apply_blending nv st).
Proof.
  unfold apply_blending. apply patched_if; [|apply patched_refl].
  apply patched_on_system; [intros; constructor | done].
Qed.

(** The statements after [updateUniformsPartial] patch the system in place. *)
Lemma non_uniform_updates_patched nv st :
  patched st
    (apply_blending nv
       (apply_autoStart nv (apply_emitCount nv (apply_delay nv (apply_position nv st))))).
Proof.
  eapply patched_trans; [apply apply_position_patched|].
  eapply patched_trans; [apply apply_delay_patched|].
  eapply patched_trans; [apply apply_emitCount_patched|].
  eapply patched_trans; [apply apply_autoStart_patched|].
  apply apply_blending_patched.
Qed.

(** [_applyUniformUpdates] patches the system in place. *)
Lemma applyUniformUpdates_patched nv st : patched st (_applyUniformUpdates nv st).
Proof.
  unfold _applyUniformUpdates.
  destruct (_system st) as [s|] eqn:E; [|apply patched_refl].
  cbv zeta. eapply patched_trans; [|apply non_uniform_updates_patched].
  apply patched_on_system; [intros; constructor | done].
Qed.

Lemma applyUniformUpdates_without_system nv st :
  _system st = None → _applyUniformUpdates nv st = st.
Proof. intros E. unfold _applyUniformUpdates. by rewrite E. Qed.

Lemma uniform_level_not_new (l : list (Event Sys)) :
  forallb uniform_level l = true → count is_new l = 0 ∧ count is_spawn l = 0
  ∧ count is_dispose l = 0 ∧ count is_group_add l = 0 ∧ recreation_failed l = false.
Proof.
  induction l as [|e l IH]; [done|]. simpl. intros [U Ul]%andb_prop.
  destruct (IH Ul) as (-> & -> & -> & -> & ->). by destruct e.
Qed.

Lemma since_trans st1 st2 st3 l k :
  trace st2 = trace st1 ++ l → trace st3 = trace st2 ++ k → since st1 st3 = l ++ k.
Proof. intros E1 E2. apply since_app. by rewrite E2, E1, app_assoc. Qed.

Lemma since_same_start st1 st2 st3 : trace st1 = trace st2 → since st1 st3 = since st2 st3.
Proof. unfold since. by intros ->. Qed.

(** What [_recreateSystem] leaves alone, and the calls it makes: the old
    system, when there is one, is removed and disposed first, then the
    constructor runs exactly once. *)
Lemma recreateSystem_frame st :
  let st' := fst (_recreateSystem st) in
  _config st' = _config st ∧ _emitting st' = _emitting st ∧ _debug st' = _debug st
  ∧ _initialized st' = _initialized st ∧ _renderer st' = _renderer st
  ∧ ∃ made post,
      trace st' =
        trace st
        ++ match _system st with
           | Some old => [EGroupRemove (sys_renderObject old); EDispose old]
           | None => []
           end
        ++ ENew (fresh st) (_renderer st) (_config st) JUndefined made :: post
      ∧ count is_new post = 0 ∧ count is_spawn post = 0 ∧ count is_dispose post = 0.
Proof.
  unfold _recreateSystem.
  destruct (_system st) as [old|] eqn:E; simpl;
    (destruct (sys_new _ _ _ _ _) as [s|]; simpl;
     [destruct (sys_init s) as [s'|]; simpl|]);
    repeat split; try done; eexists _, _;
    (split; [rewrite <- ?app_assoc; simpl; reflexivity | done]).
Qed.

Lemma recreateSystem_news st st0 :
  trace st0 = trace st → count is_new (since st0 (fst (_recreateSystem st))) = 1.
Proof.
  intros E0. destruct (recreateSystem_frame st) as (_ & _ & _ & _ & _ & made & post & T & N & _).
  erewrite since_app; [|rewrite E0; exact T].
  rewrite count_app. simpl. rewrite N. by destruct (_system st).
Qed.

(** A recreation that fails leaves the instance with the disposed old
    system and without its render object. *)
Lemma recreateSystem_failure st s :
  _system st = Some s →
  snd (_recreateSystem st) = false →
  let st' := fst (_recreateSystem st) in
  _system st' = Some (sys_dispose s)
  ∧ group st' = group_remove (sys_renderObject s) (group st)
  ∧ _emitAccumulator st' = _emitAccumulator st
  ∧ count is_group_add (since st st') = 0.
Proof.
  intros E. unfold _recreateSystem. rewrite E. simpl.
  destruct (sys_new _ _ _ _ _) as [s1|]; simpl.
  - destruct (sys_init s1) as [s1'|]; simpl; [done|]. intros _.
    repeat split. erewrite since_app; [|simpl; rewrite <- ?app_assoc; reflexivity]. done.
  - intros _. repeat split. erewrite since_app; [|simpl; rewrite <- ?app_assoc; reflexivity]. done.
Qed.

Lemma recreateSystem_failed_iff st :
  recreation_failed (since st (fst (_recreateSystem st))) = negb (snd (_recreateSystem st)).
Proof.
  unfold _recreateSystem.
  destruct (_system st) as [old|] eqn:E; simpl;
    (destruct (sys_new _ _ _ _ _) as [s|]; simpl;
     [destruct (sys_init s) as [s'|]; simpl|]);
    (erewrite since_app; [|simpl; rewrite <- ?app_assoc; reflexivity]); done.
Qed.
End Frames.

Section Classification.
Context `{!Imports} {Sys : Type} `{!VFXParticleSystem Sys}.
Implicit Types (st : VFXParticles Sys) (s : Sys) (nv : Options).

Lemma has_key_true (o : Options) k : has_key o k = true ↔ is_Some (o !! k).
Proof. unfold has_key. apply bool_decide_eq_true. Qed.

Lemma has_key_false (o : Options) k : has_key o k = false ↔ o !! k = None.
Proof. unfold has_key. rewrite bool_decide_eq_false. symmetry. apply eq_None_not_Some. Qed.

(** [{...config, ...newValues}] reads as [newValues] on the keys it has. *)
Lemma prop_merge_l (nv cfg : Options) k :
  has_key nv k = true → prop (nv ∪ cfg) k = prop nv k.
Proof.
  intros [v Hv]%has_key_true. unfold prop.
  by rewrite (lookup_union_Some_l nv cfg k v Hv), Hv.
Qed.

Lemma prop_merge_r (nv cfg : Options) k :
  has_key nv k = false → prop (nv ∪ cfg) k = prop cfg k.
Proof. intros Hk%has_key_false. unfold prop. by rewrite lookup_union_r. Qed.

Lemma hasTurbulence_merge (nv cfg : Options) :
  has_key nv "turbulence" = true → hasTurbulence (nv ∪ cfg) = hasTurbulence nv.
Proof. intros Hk. unfold hasTurbulence. by rewrite prop_merge_l. Qed.

Lemma hasAttractors_merge (nv cfg : Options) :
  has_key nv "attractors" = true → hasAttractors (nv ∪ cfg) = hasAttractors nv.
Proof. intros Hk. unfold hasAttractors. by rewrite prop_merge_l. Qed.

Lemma hasCollision_merge (nv cfg : Options) :
  has_key nv "collision" = true → hasCollision (nv ∪ cfg) = hasCollision nv.
Proof. intros Hk. unfold hasCollision. by rewrite prop_merge_l. Qed.

(** The chain of early returns of [setProps], flattened. *)
Lemma flag_flips_as_checked nv st :
  flag_flips nv st =
    (has_key nv "turbulence" && xorb (hasTurbulence nv) (old_feature turbulence st)
     || has_key nv "attractors" && xorb (hasAttractors nv) (old_feature attractors st)
     || has_key nv "collision" && xorb (hasCollision nv) (old_feature collision st)
     || (has_key nv "rotation" || has_key nv "rotationSpeed")
        && xorb (needsRotationOf (nv ∪ _config st)) (old_feature needsRotation st)
     || (has_key nv "colorStart" || has_key nv "colorEnd")
        && xorb (needsPerParticleColorOf (nv ∪ _config st))
             (old_feature needsPerParticleColor st)).
Proof.
  unfold flag_flips, touches. simpl. rewrite !orb_false_r.
  destruct (has_key nv "turbulence") eqn:K1;
    [rewrite hasTurbulence_merge by done|];
    (destruct (has_key nv "attractors") eqn:K2;
       [rewrite hasAttractors_merge by done|]);
    (destruct (has_key nv "collision") eqn:K3;
       [rewrite hasCollision_merge by done|]);
    reflexivity.
Qed.

Lemma rebuild_geometry_trace st :
  ∃ pre made post,
    trace (rebuild_geometry st) = trace st ++ pre ++ made :: post
    ∧ count is_new pre = 0 ∧ is_new made = true ∧ count is_new post = 0.
Proof.
  unfold rebuild_geometry.
  match goal with |- context [_recreateSystem ?x] => set (st1 := x) end.
  destruct (recreateSystem_frame st1) as (_ & _ & _ & _ & _ & made & post & T & N & _).
  assert (∃ l, trace st1 = trace st ++ l ∧ count is_new l = 0
               ∧ Forall (λ e, is_dispose e = false) l) as (l & T1 & N1 & _).
  { subst st1. destruct (_ || _).
    - exists []. by rewrite app_nil_r.
    - eexists [_]. repeat split; simpl; by repeat constructor. }
  exists (l ++ match _system st1 with
               | Some old => [EGroupRemove (sys_renderObject old); EDispose old]
               | None => []
               end),
    (ENew (fresh st1) (_renderer st1) (_config st1) JUndefined made), post.
  split; [|split; [|split]].
  - rewrite T, T1. by rewrite <- !app_assoc.
  - rewrite count_app, N1. by destruct (_system st1).
  - reflexivity.
  - exact N.
Qed.

(** How [setProps] classifies a change. *)
Lemma setProps_classified nv st :
  count is_new (since st (setProps nv st)) = (if structural_change nv st then 1 else 0)
  ∧ (structural_change nv st = false →
       setProps nv st = _applyUniformUpdates nv (set_config (nv ∪ _config st) st)
       ∧ patched (set_config (nv ∪ _config st) st) (setProps nv st)
       ∧ ∀ s, _system st = Some s →
           ∃ values rest, since st (setProps nv st) = EUniforms s values :: rest).
Proof.
  unfold structural_change. rewrite flag_flips_as_checked.
  unfold setProps, touches, STRUCTURAL_KEYS, NAMED_STRUCTURAL_KEYS, GEOMETRY_KEYS.
  cbn [existsb]. rewrite !orb_false_r.
  set (st1 := set_config (nv ∪ _config st) st).
  change (old_feature turbulence st1) with (old_feature turbulence st).
  change (old_feature attractors st1) with (old_feature attractors st).
  change (old_feature collision st1) with (old_feature collision st).
  change (old_feature needsRotation st1) with (old_feature needsRotation st).
  change (old_feature needsPerParticleColor st1)
    with (old_feature needsPerParticleColor st).
  change (_config st1) with (nv ∪ _config st).
  assert (R : count is_new (since st (fst (_recreateSystem st1))) = 1)
    by (by apply recreateSystem_news).
  destruct (has_key nv "turbulence" && _) eqn:C1;
    [rewrite !orb_true_r; split; [exact R | done]|].
  destruct (has_key nv "attractors" && _) eqn:C2;
    [rewrite !orb_true_r; split; [exact R | done]|].
  destruct (has_key nv "collision" && _) eqn:C3;
    [rewrite !orb_true_r; split; [exact R | done]|].
  destruct ((has_key nv "rotation" || _) && _) eqn:C4;
    [rewrite !orb_true_r; split; [exact R | done]|].
  destruct ((has_key nv "colorStart" || _) && _) eqn:C5;
    [rewrite !orb_true_r; split; [exact R | done]|].
  rewrite !orb_false_r.
  destruct (has_key nv "geometryType" || _) eqn:C6.
  { rewrite orb_true_r. split; [|done].
    destruct (rebuild_geometry_trace st1) as (pre & made & post & T & N1 & N2 & N3).
    erewrite since_app; [|exact T].
    rewrite count_app. simpl. rewrite N1, N2, N3. done. }
  rewrite orb_false_r.
  destruct (has_key nv "maxParticles" || _) eqn:C7; [split; [exact R | done]|].
  pose proof (applyUniformUpdates_patched nv st1) as P.
  split; [|intros _; split; [done | split; [exact P|]]].
  - destruct P as (_ & _ & _ & _ & _ & _ & _ & (l & T & U) & _).
    erewrite since_app; [|exact T]. by apply uniform_level_not_new.
  - intros s E. unfold _applyUniformUpdates.
    change (_system st1) with (_system st). rewrite E. cbv zeta.
    set (nv2 := colour_fallback (_config st1) nv).
    set (st2 := on_system (updateUniformsPartial nv2) _ st1).
    destruct (non_uniform_updates_patched nv2 st2)
      as (_ & _ & _ & _ & _ & _ & _ & (l & T & _) & _).
    exists nv2, l. apply since_app. rewrite T. subst st2. unfold on_system.
    change (_system st1) with (_system st). rewrite E. simpl.
    by rewrite <- app_assoc.
Qed.
End Classification.

Section Recreation.
Context `{!Imports} {Sys : Type} `{!VFXParticleSystem Sys}.
Implicit Types (st : VFXParticles Sys) (s : Sys) (nv : Options).

(** The two ways [setProps] can go: a recreation from a state that differs
    from the merged one at most by the rebuilt geometry, or the uniform
    updates. *)
Lemma setProps_cases nv st :
  let st1 := set_config (nv ∪ _config st) st in
  if structural_change nv st then
    ∃ st2 pre,
      setProps nv st = fst (_recreateSystem st2)
      ∧ _system st2 = _system st ∧ group st2 = group st
      ∧ _emitting st2 = _emitting st ∧ _emitAccumulator st2 = _emitAccumulator st
      ∧ _debug st2 = _debug st ∧ _initialized st2 = _initialized st
      ∧ _renderer st2 = _renderer st ∧ fresh st2 = fresh st
      ∧ (∀ k, k ≠ "geometry" → _config st2 !! k = (nv ∪ _config st) !! k)
      ∧ trace st2 = trace st ++ pre
      ∧ forallb (λ e, match e with ECreateGeometry _ _ => true | _ => false end) pre = true
  else setProps nv st = _applyUniformUpdates nv st1.
Proof.
  cbv zeta.
  assert (Direct : ∃ st2 pre,
    fst (_recreateSystem (set_config (nv ∪ _config st) st)) = fst (_recreateSystem st2)
    ∧ _system st2 = _system st ∧ group st2 = group st
    ∧ _emitting st2 = _emitting st ∧ _emitAccumulator st2 = _emitAccumulator st
    ∧ _debug st2 = _debug st ∧ _initialized st2 = _initialized st
    ∧ _renderer st2 = _renderer st ∧ fresh st2 = fresh st
    ∧ (∀ k, k ≠ "geometry" → _config st2 !! k = (nv ∪ _config st) !! k)
    ∧ trace st2 = trace st ++ pre
    ∧ forallb (λ e, match e with ECreateGeometry _ _ => true | _ => false end) pre = true).
  { exists (set_config (nv ∪ _config st) st), []. repeat split; try done.
    simpl. by rewrite app_nil_r. }
  unfold structural_change. rewrite flag_flips_as_checked.
  unfold setProps, touches, STRUCTURAL_KEYS, NAMED_STRUCTURAL_KEYS, GEOMETRY_KEYS.
  cbn [existsb]. rewrite !orb_false_r.
  set (st1 := set_config (nv ∪ _config st) st) in *.
  change (old_feature turbulence st1) with (old_feature turbulence st).
  change (old_feature attractors st1) with (old_feature attractors st).
  change (old_feature collision st1) with (old_feature collision st).
  change (old_feature needsRotation st1) with (old_feature needsRotation st).
  change (old_feature needsPerParticleColor st1)
    with (old_feature needsPerParticleColor st).
  change (_config st1) with (nv ∪ _config st).
  destruct (has_key nv "turbulence" && _) eqn:C1; [by rewrite !orb_true_r|].
  destruct (has_key nv "attractors" && _) eqn:C2; [by rewrite !orb_true_r|].
  destruct (has_key nv "collision" && _) eqn:C3; [by rewrite !orb_true_r|].
  destruct ((has_key nv "rotation" || _) && _) eqn:C4; [by rewrite !orb_true_r|].
  destruct ((has_key nv "colorStart" || _) && _) eqn:C5; [by rewrite !orb_true_r|].
  rewrite !orb_false_r.
  destruct (has_key nv "geometryType" || _) eqn:C6.
  { rewrite orb_true_r. unfold rebuild_geometry. clear Direct.
    destruct (strict_eq _ _ || _).
    - eexists _, []. split; [reflexivity|]. repeat split; try done.
      + intros k Hk. simpl. by rewrite lookup_insert_ne.
      + simpl. by rewrite app_nil_r.
    - eexists _, [ECreateGeometry _ _]. split; [reflexivity|]. repeat split; try done.
      intros k Hk. simpl. by rewrite lookup_insert_ne. }
  rewrite orb_false_r.
  by destruct (has_key nv "maxParticles" || _) eqn:C7.
Qed.

(** C2, amended.  When [setProps] recreates a running system, the render
    object of the old system is removed from the group and the old system
    is disposed before the constructor of the new one runs.  If that
    construction or the initialisation that follows fails, the instance is
    left holding the disposed old system, its render object is gone from
    the group and no render object has been added; the flag [_initialized]
    and the emission accumulator are as before. *)
Theorem failed_recreation_leaves_old_disposed nv st s :
  _system st = Some s →
  structural_change nv st = true →
  let st' := setProps nv st in
  (∃ pre made post,
      since st st' =
        pre ++ [EGroupRemove (sys_renderObject s); EDispose s; made] ++ post
      ∧ is_new made = true ∧ count is_new pre = 0 ∧ count is_dispose pre = 0)
  ∧ (recreation_failed (since st st') = true →
       _system st' = Some (sys_dispose s)
       ∧ group st' = group_remove (sys_renderObject s) (group st)
       ∧ count is_group_add (since st st') = 0
       ∧ _initialized st' = _initialized st
       ∧ _emitAccumulator st' = _emitAccumulator st).
Proof.
  intros E S. cbv zeta.
  pose proof (setProps_cases nv st) as C. cbv zeta in C. rewrite S in C.
  destruct C as (st2 & pre & -> & E2 & G2 & _ & A2 & _ & I2 & _ & _ & _ & T2 & P2).
  rewrite <- E2 in E.
  destruct (recreateSystem_frame st2) as (_ & _ & _ & I & _ & made & post & T & _).
  rewrite E in T.
  assert (Pre : count is_new pre = 0 ∧ count is_dispose pre = 0
                ∧ count is_group_add pre = 0 ∧ recreation_failed pre = false).
  { clear -P2. induction pre as [|e pre IH]; [done|].
    simpl in P2. apply andb_prop in P2 as [Pe P2].
    destruct (IH P2) as (? & ? & ? & ?). by destruct e. }
  destruct Pre as (N1 & N2 & N3 & N4).
  split.
  - exists pre, (ENew (fresh st2) (_renderer st2) (_config st2) JUndefined made), post.
    split; [|done]. apply since_app. rewrite T, T2. rewrite <- !app_assoc. reflexivity.
  - intros F.
    assert (F2 : snd (_recreateSystem st2) = false).
    { pose proof (recreateSystem_failed_iff st2) as Q.
      assert (since st (_recreateSystem st2).1 = pre ++ since st2 (_recreateSystem st2).1)
        as Q2.
      { erewrite (since_app st2); [|exact T]. apply since_app.
        rewrite T, T2. by rewrite <- !app_assoc. }
      rewrite Q2 in F. unfold recreation_failed in F. rewrite existsb_app in F.
      fold (recreation_failed pre) in F. rewrite N4 in F. simpl in F.
      fold (recreation_failed (since st2 (_recreateSystem st2).1)) in F.
      rewrite Q in F. by destruct (snd (_recreateSystem st2)). }
    destruct (recreateSystem_failure st2 s E F2) as (S' & G' & A' & N').
    repeat split.
    + exact S'.
    + by rewrite G', G2.
    + assert (since st (_recreateSystem st2).1 = pre ++ since st2 (_recreateSystem st2).1)
        as ->.
      { erewrite (since_app st2); [|exact T]. apply since_app.
        rewrite T, T2. by rewrite <- !app_assoc. }
      rewrite count_app, N3. exact N'.
    + by rewrite I, I2.
    + by rewrite A', A2.
Qed.
End Recreation.

Section Lifecycle.
Context `{!Imports} {Sys : Type} `{!VFXParticleSystem Sys}.
Implicit Types (st : VFXParticles Sys) (s : Sys) (nv : Options).

Lemma spawn_without_system st x y z n o : _system st = None → spawn x y z n o st = st.
Proof. intros E. unfold spawn. by rewrite E. Qed.

(** C5.  While the instance holds no system, [spawn] and [update] return
    the state they were given and call nothing.  While it holds a system
    whose [initialized] is false, [update] does the same; [spawn] hands
    the call to the system, whose own [spawn] is a no-op before its
    initialisation has completed, so that every field of the instance is
    as before. *)
Theorem not_ready_is_noop st :
  (_system st = None ∨ ∃ s, _system st = Some s ∧ sys_initialized s = false) →
  (∀ x y z n o s, sys_initialized s = false → sys_spawn x y z n o s = s) →
  ∀ delta x y z n o,
    update delta st = st
    ∧ count is_spawn (since st (update delta st)) = 0
    ∧ same_fields (spawn x y z n o st) st
    ∧ (_system st = None → spawn x y z n o st = st).
Proof.
  intros Hst Hcore delta x y z n o.
  destruct Hst as [E | (s & E & I)].
  - rewrite (update_without_system _ _ E), (spawn_without_system _ _ _ _ _ _ E).
    rewrite since_refl. repeat split; done.
  - rewrite (update_uninitialised _ _ _ E I), since_refl.
    split; [done|]. split; [done|]. split; [|by rewrite E].
    unfold spawn. rewrite E. repeat split; try done.
    simpl. by rewrite Hcore.
Qed.

Lemma dispose_disposed st :
  _system st = None →
  _system (dispose st) = None ∧ _initialized (dispose st) = false
  ∧ group (dispose st) = group st ∧ _renderer (dispose st) = _renderer st
  ∧ _config (dispose st) = _config st ∧ _emitting (dispose st) = _emitting st
  ∧ _emitAccumulator (dispose st) = _emitAccumulator st
  ∧ _debug (dispose st) = _debug st ∧ fresh (dispose st) = fresh st
  ∧ ∃ l, trace (dispose st) = trace st ++ l ∧ Forall (λ e, e = EDestroyDebugPanel) l.
Proof.
  intros E. unfold dispose. rewrite E.
  destruct (truthy (_debug st)); simpl; repeat split; try done.
  - exists [EDestroyDebugPanel]. split; [done|]. by repeat constructor.
  - exists []. by rewrite app_nil_r.
Qed.

Lemma dispose_once st :
  _system (dispose st) = None ∧ _initialized (dispose st) = false
  ∧ ∃ l, trace (dispose st) = trace st ++ l ∧ count is_dispose l = held st.
Proof.
  unfold dispose, held. destruct (_system st) as [s|] eqn:E; simpl.
  - destruct (truthy (_debug st)); simpl; (split; [done|]); (split; [done|]).
    + eexists [_; _; _]. split; [by rewrite <- !app_assoc | done].
    + eexists [_; _]. split; [by rewrite <- !app_assoc | done].
  - destruct (truthy (_debug st)); simpl; rewrite E; (split; [done|]); (split; [done|]).
    + by eexists [_].
    + exists []. by rewrite app_nil_r.
Qed.

(** C7.  After one [dispose()] any number of further calls leaves the
    instance without a system and uninitialised, with every field as the
    first call left it; the further calls reach neither the particle
    system nor the group (the only call they make is the request to
    destroy the debug panel, when [debug] is on), so that over all the
    calls together the system is disposed once if there was one, and never
    otherwise. *)
Theorem dispose_idempotent st n :
  let once := dispose st in
  let again := Nat.iter n dispose once in
  _system again = None
  ∧ _initialized again = false
  ∧ same_fields again once
  ∧ Forall (λ e, e = EDestroyDebugPanel) (since once again)
  ∧ count is_dispose (since st again) = held st.
Proof.
  cbv zeta.
  destruct (dispose_once st) as (S1 & I1 & l1 & T1 & N1).
  assert (Q : _system (Nat.iter n dispose (dispose st)) = None
              ∧ _initialized (Nat.iter n dispose (dispose st)) = false
              ∧ same_fields (Nat.iter n dispose (dispose st)) (dispose st)
              ∧ ∃ l, trace (Nat.iter n dispose (dispose st)) = trace (dispose st) ++ l
                     ∧ Forall (λ e, e = EDestroyDebugPanel) l).
  { induction n as [|n IH]; [|rewrite Nat.iter_succ].
    - simpl. repeat split; try done. exists []. by rewrite app_nil_r.
    - destruct IH as (S & I & (G & R & C & Sy & Em & A & D & In & F) & l & T & P).
      destruct (dispose_disposed _ S)
        as (S' & I' & G' & R' & C' & Em' & A' & D' & F' & l' & T' & P').
      split; [done|]. split; [done|]. split.
      { unfold same_fields. repeat split; congruence. }
      exists (l ++ l'). split; [by rewrite T', T, app_assoc | by apply Forall_app]. }
  destruct Q as (S & I & SF & l & T & P).
  repeat split; try done; try apply SF.
  - by erewrite since_app.
  - erewrite since_app; [|rewrite T, T1, <- app_assoc; reflexivity].
    rewrite count_app, N1.
    assert (count is_dispose l = 0) as ->; [|lia].
    clear -P. induction P as [|e l -> _ IH]; [done | exact IH].
Qed.

Lemma set_config_same st : set_config (_config st) st = st.
Proof. by destruct st. Qed.

Lemma init_initialised st : _initialized st = true → init st = (st, true).
Proof. intros I. unfold init. by rewrite I. Qed.

Lemma init_completed st st1 : init st = (st1, true) → _initialized st1 = true.
Proof.
  unfold init. destruct (_initialized st) eqn:I; [by intros [= <-]|].
  destruct (_recreateSystem _) as [st2 [|]]; [|done].
  destruct (truthy _); by intros [= <-].
Qed.

Lemma setProps_initialized nv st : _initialized (setProps nv st) = _initialized st.
Proof.
  pose proof (setProps_cases nv st) as C. cbv zeta in C.
  destruct (structural_change nv st).
  - destruct C as (st2 & pre & -> & _ & _ & _ & _ & _ & I2 & _).
    destruct (recreateSystem_frame st2) as (_ & _ & _ & I & _). by rewrite I, I2.
  - rewrite C. by destruct (applyUniformUpdates_patched nv
                              (set_config (nv ∪ _config st) st))
      as (_ & _ & _ & _ & _ & -> & _).
Qed.

Lemma step_keeps_initialized st o :
  _initialized st = true → is_dispose_op o = false → _initialized (step st o) = true.
Proof.
  intros I D. destruct o; simpl; try done.
  - by rewrite init_initialised.
  - unfold update. destruct (_system st) as [s|] eqn:E; [|done].
    destruct (sys_initialized s); [|done]. simpl.
    destruct (truthy (_emitting st)); [|by rewrite E].
    destruct (sys_position s) as [[px py] pz].
    destruct (num_truthy _); simpl; [destruct (num_ge _ _); simpl; by rewrite ?E|done].
  - unfold spawn. by destruct (_system st).
  - unfold start. simpl. by destruct (_system st).
  - unfold stop. simpl. by destruct (_system st).
  - unfold clear. by destruct (_system st).
  - by rewrite setProps_initialized.
Qed.

Lemma run_keeps_initialized ops st :
  _initialized st = true → forallb (λ o, negb (is_dispose_op o)) ops = true →
  _initialized (run ops st) = true.
Proof.
  revert st. induction ops as [|o ops IH]; intros st I F; [done|].
  simpl in F. apply andb_prop in F as [Fo F]. simpl. apply IH; [|done].
  apply step_keeps_initialized; [done | by destruct (is_dispose_op o)].
Qed.

(** C9.  Once a call of [init()] has been fulfilled, a further call
    returns the state it was given: no system is constructed, nothing is
    added to the group, the debug panel is not rendered again.  This stays
    so after any calls of the other methods that do not include
    [dispose()].  After [dispose()] the instance is uninitialised and
    [init()] constructs a system again. *)
Theorem init_at_most_once st st1 :
  init st = (st1, true) →
  init st1 = (st1, true)
  ∧ since st1 (fst (init st1)) = []
  ∧ (∀ ops, forallb (λ o, negb (is_dispose_op o)) ops = true →
       init (run ops st1) = (run ops st1, true))
  ∧ _initialized (dispose st1) = false
  ∧ count is_new (since (dispose st1) (fst (init (dispose st1)))) = 1.
Proof.
  intros C. pose proof (init_completed _ _ C) as I.
  rewrite (init_initialised _ I). simpl. rewrite since_refl.
  split; [done|]. split; [done|]. split; [|split].
  - intros ops F. apply init_initialised. by apply run_keeps_initialized.
  - reflexivity.
  - destruct (dispose_once st1) as (_ & I' & _).
    unfold init. rewrite I'.
    set (st2 := if truthy _ then _ else _).
    assert (T2 : trace st2 = trace (dispose st1)) by (subst st2; by destruct (truthy _)).
    destruct (recreateSystem_frame st2) as (_ & _ & _ & _ & _ & made & post & T & N & _).
    destruct (_recreateSystem st2) as [st3 [|]] eqn:R; simpl in T.
    + assert (∃ l, trace (if truthy (_debug (set_initialized true st3))
                          then (log (ERenderDebugPanel (_config (set_initialized true st3)))
                                  (set_initialized true st3), true)
                          else (set_initialized true st3, true)).1
                   = trace st3 ++ l ∧ count is_new l = 0) as (l & T3 & N3).
      { simpl. destruct (truthy (_debug st3)); simpl.
        - eexists [_]. split; [reflexivity | done].
        - exists []. by rewrite app_nil_r. }
      erewrite since_app; [|rewrite T3, T, T2, <- !app_assoc; reflexivity].
      rewrite !count_app. simpl. rewrite N, N3. by destruct (_system st2).
    + simpl. erewrite since_app; [|rewrite T, T2; reflexivity].
      rewrite !count_app. simpl. rewrite N. by destruct (_system st2).
Qed.
End Lifecycle.

Section Emission.
Context `{!Imports} {Sys : Type} `{!VFXParticleSystem Sys}.
Implicit Types (st : VFXParticles Sys) (s : Sys) (nv : Options).

Lemma emitting_on_system m ev st : _emitting (on_system m ev st) = _emitting st.
Proof. unfold on_system. by destruct (_system st). Qed.

Lemma prop_insert_ne (o : Options) k k' v : k ≠ k' → prop (<[k := v]> o) k' = prop o k'.
Proof. intros Hk. unfold prop. by rewrite lookup_insert_ne. Qed.

Lemma prop_colour_fallback config nv k :
  k ≠ "colorStart" → k ≠ "colorEnd" → prop (colour_fallback config nv) k = prop nv k.
Proof.
  intros K1 K2. unfold colour_fallback.
  repeat match goal with
         | |- context [if ?b then _ else _] => destruct b
         end; by rewrite ?prop_insert_ne.
Qed.

Lemma has_key_insert_ne (o : Options) k k' v :
  k ≠ k' → has_key (<[k := v]> o) k' = has_key o k'.
Proof. intros Hk. unfold has_key. by rewrite lookup_insert_ne. Qed.

Lemma has_key_colour_fallback config nv k :
  k ≠ "colorStart" → k ≠ "colorEnd" →
  has_key (colour_fallback config nv) k = has_key nv k.
Proof.
  intros K1 K2. unfold colour_fallback.
  repeat match goal with
         | |- context [if ?b then _ else _] => destruct b
         end; by rewrite ?has_key_insert_ne.
Qed.

(** The emitting flag after the uniform updates: untouched, or the
    [autoStart] that was handed in. *)
Lemma applyUniformUpdates_emitting nv st :
  _emitting (_applyUniformUpdates nv st) =
    if is_undefined (prop nv "autoStart") then _emitting st
    else match _system st with Some _ => prop nv "autoStart" | None => _emitting st end.
Proof.
  unfold _applyUniformUpdates.
  destruct (_system st) as [s|] eqn:E; [|by destruct (is_undefined _)].
  cbv zeta. unfold apply_blending.
  match goal with
  | |- context [if ?b then _ else _] => destruct b
  end; rewrite ?emitting_on_system;
    unfold apply_autoStart; rewrite prop_colour_fallback by done;
    (destruct (is_undefined (prop nv "autoStart")); cbn [negb];
     [unfold apply_emitCount, apply_delay, apply_position;
      repeat (match goal with
              | |- context [if ?b then _ else _] => destruct b
              end; rewrite ?emitting_on_system); reflexivity
     |cbv zeta; destruct (truthy _); by rewrite emitting_on_system]).
Qed.

Lemma setProps_emitting nv st :
  _emitting (setProps nv st) = _emitting st
  ∨ is_undefined (prop nv "autoStart") = false
    ∧ _emitting (setProps nv st) = prop nv "autoStart".
Proof.
  pose proof (setProps_cases nv st) as C. cbv zeta in C.
  destruct (structural_change nv st).
  - destruct C as (st2 & pre & -> & _ & _ & Em2 & _).
    destruct (recreateSystem_frame st2) as (_ & Em & _). left. by rewrite Em, Em2.
  - rewrite C, applyUniformUpdates_emitting. simpl.
    destruct (is_undefined _); [by left|].
    destruct (_system st); [by right | by left].
Qed.

Lemma strict_eq_false_value v : strict_eq v (JBool false) = true → v = JBool false.
Proof. destruct v as [| |[|]| | | | |]; try done. by destruct n. Qed.

Lemma step_keeps_stopped st o :
  _emitting st = JBool false → keeps_stopped o = true → _emitting (step st o) = JBool false.
Proof.
  intros Em K. destruct o; simpl in *; try done.
  - unfold init. destruct (_initialized st); [done|].
    match goal with |- context [_recreateSystem ?x] => set (st1 := x) end.
    assert (Em1 : _emitting st1 = JBool false) by (subst st1; by destruct (truthy _)).
    destruct (recreateSystem_frame st1) as (_ & Em2 & _).
    destruct (_recreateSystem st1) as [st2 [|]]; simpl in Em2.
    + destruct (truthy (_debug (set_initialized true st2))); simpl; congruence.
    + simpl. congruence.
  - unfold update. destruct (_system st) as [s|] eqn:E; [|done].
    destruct (sys_initialized s); [|done]. simpl.
    rewrite Em. simpl. by rewrite E.
  - unfold dispose. destruct (_system st); simpl; by destruct (truthy _).
  - unfold spawn. by destruct (_system st).
  - unfold stop. simpl. by destruct (_system st).
  - unfold clear. by destruct (_system st).
  - destruct (setProps_emitting newValues st) as [-> | [U ->]]; [done|].
    rewrite U in K. simpl in K. by apply strict_eq_false_value.
Qed.

Lemma run_keeps_stopped ops st :
  _emitting st = JBool false → forallb keeps_stopped ops = true →
  _emitting (run ops st) = JBool false.
Proof.
  revert st. induction ops as [|o ops IH]; intros st Em F; [done|].
  simpl in F. apply andb_prop in F as [Fo F]. simpl. apply IH; [|done].
  by apply step_keeps_stopped.
Qed.

Lemma stop_emitting st : _emitting (stop st) = JBool false.
Proof. unfold stop. simpl. by destruct (_system st). Qed.

(** C6, amended.  After [stop()], and as long as neither [start()] is
    called nor a [setProps] carries an [autoStart] other than [false],
    [isEmitting] is [false] and no [update(delta)] spawns; an
    [update(delta)] on an initialised system makes exactly one call,
    [system.update(delta)], so that the particles alive keep ageing. *)
Theorem stopped_until_restarted st ops :
  forallb keeps_stopped ops = true →
  let st' := run ops (stop st) in
  isEmitting st' = JBool false
  ∧ ∀ delta,
      count is_spawn (since st' (update delta st')) = 0
      ∧ ∀ s, _system st' = Some s → sys_initialized s = true →
          since st' (update delta st') = [EUpdate s delta]
          ∧ _system (update delta st') = Some (sys_update delta s).
Proof.
  intros F. cbv zeta.
  pose proof (run_keeps_stopped ops (stop st) (stop_emitting st) F) as Em.
  split; [exact Em|]. intros delta.
  set (st' := run ops (stop st)) in *.
  assert (Q : ∀ s, _system st' = Some s → sys_initialized s = true →
              since st' (update delta st') = [EUpdate s delta]
              ∧ _system (update delta st') = Some (sys_update delta s)).
  { intros s E I. unfold update. rewrite E, I, Em. simpl. rewrite E.
    split; [by apply since_app | done]. }
  split; [|exact Q].
  destruct (_system st') as [s|] eqn:E.
  - destruct (sys_initialized s) eqn:I.
    + by destruct (Q s eq_refl I) as [-> _].
    + by rewrite (update_uninitialised _ _ _ E I), since_refl.
  - by rewrite (update_without_system _ _ E), since_refl.
Qed.

Lemma has_key_empty k : has_key (∅ : Options) k = false.
Proof. by apply has_key_false. Qed.

Lemma prop_empty k : prop (∅ : Options) k = JUndefined.
Proof. unfold prop. by rewrite lookup_empty. Qed.

(** Unless it rebuilds the geometry, [setProps] leaves the merged
    configuration in [_config]. *)
Lemma setProps_config nv st :
  touches nv GEOMETRY_KEYS = false → _config (setProps nv st) = nv ∪ _config st.
Proof.
  intros G. unfold touches, GEOMETRY_KEYS in G. cbn [existsb] in G.
  rewrite orb_false_r in G.
  assert (R : _config (fst (_recreateSystem (set_config (nv ∪ _config st) st)))
              = nv ∪ _config st).
  { by destruct (recreateSystem_frame (set_config (nv ∪ _config st) st)) as (-> & _). }
  assert (U : _config (_applyUniformUpdates nv (set_config (nv ∪ _config st) st))
              = nv ∪ _config st).
  { by destruct (applyUniformUpdates_patched nv (set_config (nv ∪ _config st) st))
      as (_ & _ & -> & _). }
  unfold setProps. cbv zeta. rewrite G.
  repeat first
    [ exact R
    | exact U
    | match goal with
      | |- _config (if ?b then _ else _) = _ => destruct b
      end ].
Qed.

(** [setProps({})] constructs nothing: it leaves every field of the
    instance as it was, and its only call is [updateUniformsPartial] with no
    values on the system, if there is one. *)
Lemma setProps_empty st :
  count is_new (since st (setProps ∅ st)) = 0
  ∧ same_fields (set_system (_system (setProps ∅ st)) st) (setProps ∅ st)
  ∧ _system (setProps ∅ st) = updateUniformsPartial ∅ <$> _system st
  ∧ since st (setProps ∅ st) =
      match _system st with Some s => [EUniforms s ∅] | None => [] end.
Proof.
  assert (Empty : setProps ∅ st = _applyUniformUpdates ∅ st).
  { pose proof (setProps_cases ∅ st) as C. cbv zeta in C.
    assert (structural_change ∅ st = false) as S0.
    { unfold structural_change, flag_flips, touches. simpl.
      by rewrite !has_key_empty. }
    rewrite S0 in C. rewrite C. by rewrite (left_id_L ∅ (∪)), set_config_same. }
  assert (Run : _applyUniformUpdates ∅ st =
                match _system st with
                | Some s => call (updateUniformsPartial ∅) (λ s, EUniforms s ∅) s st
                | None => st
                end).
  { unfold _applyUniformUpdates. destruct (_system st) as [s|] eqn:E; [|done].
    cbv zeta.
    assert (colour_fallback (_config st) ∅ = ∅) as ->.
    { unfold colour_fallback. by rewrite !has_key_empty. }
    unfold apply_blending, apply_autoStart, apply_emitCount, apply_delay, apply_position.
    rewrite !has_key_empty, !prop_empty. simpl. rewrite andb_false_r.
    unfold on_system. by rewrite E. }
  split; [|split; [|split]].
  - rewrite Empty, Run. destruct (_system st);
      [erewrite since_app; [|reflexivity]; done | by rewrite since_refl].
  - rewrite Empty, Run. unfold same_fields.
    destruct (_system st) eqn:E; simpl; rewrite ?E; repeat split; done.
  - rewrite Empty, Run. destruct (_system st) eqn:E; simpl; by rewrite ?E.
  - rewrite Empty, Run. destruct (_system st);
      [erewrite since_app; [|reflexivity]; done | by rewrite since_refl].
Qed.
End Emission.

Section UniformChanges.
Context `{!Imports} {Sys : Type} `{!VFXParticleSystem Sys} `{!React.CurveTextures}.
Implicit Types (st : VFXParticles Sys) (s : Sys) (nv : Options) (c : React.Component Sys).

Lemma touches_false nv ks k : touches nv ks = false → k ∈ ks → has_key nv k = false.
Proof.
  unfold touches. intros T Hk.
  destruct (has_key nv k) eqn:K; [|done].
  rewrite <- T. symmetry. apply existsb_exists. exists k. split; [|done].
  by apply list_elem_of_In.
Qed.

Lemma prop_absent nv k : has_key nv k = false → prop nv k = JUndefined.
Proof. intros K%has_key_false. unfold prop. by rewrite K. Qed.

Ltac by_cases :=
  cbv zeta;
  repeat match goal with
         | |- context [if ?b then _ else _] => destruct b
         end; reflexivity.

(** No statement of [handleDebugUpdate] writes the memoised dependencies:
    only a render does. *)
Lemma handleDebugUpdate_memo nv c : React.memo (React.handleDebugUpdate nv c) = React.memo c.
Proof.
  unfold React.handleDebugUpdate. cbv zeta.
  set (fallen := React.debug_colour_fallback _ _).
  set (current := React.debugValuesRef _).
  assert (G : ∀ c, React.memo (React.debug_geometry fallen c) = React.memo c)
    by (intros; unfold React.debug_geometry; by_cases).
  assert (R : ∀ c, React.memo (React.debug_remount fallen c) = React.memo c)
    by (intros; unfold React.debug_remount; by_cases).
  assert (B : ∀ c, React.memo (React.debug_blending fallen c) = React.memo c)
    by (intros; unfold React.debug_blending; by_cases).
  assert (S : ∀ c, React.memo (React.debug_autoStart fallen c) = React.memo c)
    by (intros; unfold React.debug_autoStart; by_cases).
  assert (F : ∀ c, React.memo (React.debug_refs fallen c) = React.memo c)
    by (intros; unfold React.debug_refs; by_cases).
  assert (P : ∀ c, React.memo (React.debug_position fallen c) = React.memo c)
    by (intros; unfold React.debug_position; by_cases).
  assert (Co : ∀ c, React.memo (React.debug_collision fallen c) = React.memo c)
    by (intros; unfold React.debug_collision; by_cases).
  assert (At : ∀ c, React.memo (React.debug_attractors fallen c) = React.memo c)
    by (intros; unfold React.debug_attractors; by_cases).
  assert (Tu : ∀ c, React.memo (React.debug_turbulence fallen c) = React.memo c)
    by (intros; unfold React.debug_turbulence; by_cases).
  assert (Cl : ∀ c, React.memo (React.debug_colour current fallen c) = React.memo c)
    by (intros; unfold React.debug_colour; by_cases).
  assert (Ro : ∀ c, React.memo (React.debug_rotation current fallen c) = React.memo c)
    by (intros; unfold React.debug_rotation; by_cases).
  assert (Cu : ∀ c, React.memo (React.debug_curves fallen c) = React.memo c)
    by (intros; unfold React.debug_curves; by_cases).
  by rewrite G, R, B, S, F, P, Co, At, Tu, Cl, Ro, Cu.
Qed.

Lemma rtc_untouched {A : Type} (obs : Sys → A) s s' :
  untouched_by_uniform_calls obs → rtc uniform_call s s' → obs s' = obs s.
Proof.
  intros U R. induction R as [|x y z Hxy _ IH]; [done|]. rewrite IH. by apply U.
Qed.
End UniformChanges.

Section Colours.
#[local] Existing Instance Model.imports.
#[local] Existing Instance Model.system.
Implicit Types (st : VFXParticles Model.System) (s : Model.System) (nv : Options).

Lemma nullish_falsy v : nullish v = true → truthy v = false.
Proof. by destruct v. Qed.

Lemma mix_same a t : Model.colour_eq (Model.mix a a t) a.
Proof. destruct a as [[r g] b]. simpl. repeat split; ring. Qed.

Lemma on_system_colours m ev st :
  (∀ s, Model.colorStart (m s) = Model.colorStart s
        ∧ Model.colorEnd (m s) = Model.colorEnd s) →
  colour_uniforms (on_system m ev st) = colour_uniforms st.
Proof.
  intros Hm. unfold on_system, colour_uniforms.
  destruct (_system st) as [s|] eqn:E; [|by rewrite E].
  cbn [call log set_system _system fmap option_fmap option_map].
  destruct (Hm s) as [H1 H2]. by rewrite H1, H2.
Qed.

Lemma set_emitting_colours v st : colour_uniforms (set_emitting v st) = colour_uniforms st.
Proof. reflexivity. Qed.

Lemma non_uniform_updates_colours nv st :
  colour_uniforms
    (apply_blending nv
       (apply_autoStart nv (apply_emitCount nv (apply_delay nv (apply_position nv st)))))
  = colour_uniforms st.
Proof.
  unfold apply_blending, apply_autoStart, apply_emitCount, apply_delay, apply_position.
  cbv zeta.
  repeat match goal with
         | |- context [if ?b then _ else _] => destruct b
         end;
    repeat first [rewrite on_system_colours by done | rewrite set_emitting_colours];
    reflexivity.
Qed.

(** What [colour_fallback] hands to the core when [colorStart] is updated
    and the configuration has no [colorEnd]. *)
Lemma colour_fallback_without_end config nv cs :
  nv !! "colorStart" = Some (JArr cs) →
  truthy (prop config "colorEnd") = false →
  colour_fallback config nv = <["colorStart" := JArr cs]> (<["colorEnd" := JNull]> nv).
Proof.
  intros Hs He. unfold colour_fallback.
  assert (has_key nv "colorStart" = true) as -> by (apply has_key_true; by rewrite Hs).
  assert (prop nv "colorStart" = JArr cs) as -> by (unfold prop; by rewrite Hs).
  rewrite He. cbn [truthy negb andb]. cbv zeta.
  assert (has_key (<["colorEnd" := JNull]> nv) "colorEnd" = true) as ->
    by (apply has_key_true; by rewrite lookup_insert_eq).
  assert (prop (<["colorEnd" := JNull]> nv) "colorEnd" = JNull) as ->
    by (unfold prop; by rewrite lookup_insert_eq).
  cbn [truthy negb andb].
  assert (prop (<["colorEnd" := JNull]> nv) "colorStart" = JArr cs) as ->
    by (unfold prop; by rewrite lookup_insert_ne, Hs).
  done.
Qed.

Lemma created_colours id r o t f s cs :
  Model.create id r o t f = Some s →
  prop o "colorStart" = JArr cs →
  truthy (prop o "colorEnd") = false →
  Model.colorStart s = Model.parse_colours (JArr cs)
  ∧ Model.colorEnd s = Model.parse_colours (JArr cs).
Proof.
  unfold Model.create. intros [= <-] Hs He. simpl.
  unfold Model.end_colours. by rewrite Hs, He.
Qed.

Lemma initialised_colours s s' :
  Model.initialise s = Some s' →
  Model.colorStart s' = Model.colorStart s ∧ Model.colorEnd s' = Model.colorEnd s.
Proof. unfold Model.initialise. destruct (_ <=? _)%Z; [|done]. by intros [= <-]. Qed.

(** C8.  On the particle system modelled from the specification: when a
    running instance is given a list of start colours and the configuration
    that results has no [colorEnd], the end-colour uniforms of the system
    it then holds are the start colours just given, and the colour of every
    particle, interpolated over its life between its start and end stop, is
    its start stop at every moment.  This holds on the uniform path and,
    when the update is a structural change, provided the recreation
    succeeds. *)
Theorem colorEnd_mirrors_colorStart st s nv cs :
  _system st = Some s →
  nv !! "colorStart" = Some (JArr cs) →
  nullish (prop (nv ∪ _config st) "colorEnd") = true →
  (structural_change nv st = true →
   recreation_failed (since st (setProps nv st)) = false) →
  ∃ s', _system (setProps nv st) = Some s'
        ∧ Model.colorStart s' = Model.parse_colours (JArr cs)
        ∧ Model.colorEnd s' = Model.colorStart s'
        ∧ ∀ seed t,
            Model.colour_eq (Model.lifeColor s' seed t)
              (Model.pick seed (Model.parse_colours (JArr cs))).
Proof.
  intros E Hs He Ok.
  apply nullish_falsy in He.
  assert (Goal : ∃ s', _system (setProps nv st) = Some s'
                       ∧ Model.colorStart s' = Model.parse_colours (JArr cs)
                       ∧ Model.colorEnd s' = Model.parse_colours (JArr cs)).
  { pose proof (setProps_cases nv st) as C. cbv zeta in C.
    destruct (structural_change nv st) eqn:S.
    - specialize (Ok eq_refl).
      destruct C as (st2 & pre & EQ & E2 & _ & _ & _ & _ & _ & _ & _ & Cfg & T2 & P2).
      rewrite EQ in Ok |- *.
      assert (F : recreation_failed (since st2 (_recreateSystem st2).1) = false).
      { destruct (recreateSystem_frame st2) as (_ & _ & _ & _ & _ & made & post & T & _).
        assert (since st (_recreateSystem st2).1
                = pre ++ since st2 (_recreateSystem st2).1) as Q.
        { erewrite (since_app st2); [|exact T]. apply since_app.
          rewrite T, T2. by rewrite <- !app_assoc. }
        rewrite Q in Ok. unfold recreation_failed in Ok |- *.
        rewrite existsb_app in Ok. by apply orb_false_elim in Ok as [_ ->]. }
      rewrite recreateSystem_failed_iff in F. apply negb_false_iff in F.
      revert F. unfold _recreateSystem. rewrite E2, E. cbn [call log set_system].
      cbv zeta.
      match goal with
      | |- context [sys_new ?i ?r ?o ?t ?f] =>
          destruct (sys_new i r o t f) as [s1|] eqn:N; [|done]
      end.
      destruct (sys_init s1) as [s1'|] eqn:I; [|done]. intros _. simpl.
      exists s1'. split; [done|].
      destruct (initialised_colours _ _ I) as [-> ->].
      simpl in N. eapply created_colours; [exact N | |].
      + unfold prop. rewrite Cfg by done.
        by rewrite (lookup_union_Some_l nv (_config st) _ _ Hs).
      + unfold prop in He |- *. by rewrite Cfg.
    - rewrite C. unfold _applyUniformUpdates.
      change (_system (set_config (nv ∪ _config st) st)) with (_system st).
      rewrite E. cbv zeta.
      change (_config (set_config (nv ∪ _config st) st)) with (nv ∪ _config st).
      rewrite (colour_fallback_without_end _ _ _ Hs He).
      set (nv2 := <["colorStart" := JArr cs]> (<["colorEnd" := JNull]> nv)).
      pose proof (non_uniform_updates_colours nv2
                    (on_system (updateUniformsPartial nv2) (λ s, EUniforms s nv2)
                       (set_config (nv ∪ _config st) st))) as Q.
      unfold colour_uniforms in Q. unfold on_system at 2 in Q.
      change (_system (set_config (nv ∪ _config st) st)) with (_system st) in Q.
      rewrite E in Q. cbn [call log set_system _system fmap option_fmap option_map] in Q.
      match goal with
      | |- ∃ s', ?x = Some s' ∧ _ => destruct x as [s'|]; [|done]
      end.
      exists s'. split; [done|].
      cbn [fmap option_fmap option_map] in Q. injection Q as Q1 Q2.
      rewrite Q1, Q2. simpl. unfold Model.updateUniformsPartial. simpl.
      assert (has_key nv2 "colorStart" = true) as ->
        by (apply has_key_true; subst nv2; by rewrite lookup_insert_eq).
      assert (prop nv2 "colorStart" = JArr cs) as ->
        by (unfold prop; subst nv2; by rewrite lookup_insert_eq).
      assert (has_key nv2 "colorEnd" = true) as ->
        by (apply has_key_true; subst nv2;
            by rewrite lookup_insert_ne, lookup_insert_eq).
      assert (prop nv2 "colorEnd" = JNull) as ->
        by (unfold prop; subst nv2; by rewrite lookup_insert_ne, lookup_insert_eq).
      done. }
  destruct Goal as (s' & E' & Cs & Ce). exists s'.
  split; [done|]. split; [done|]. split; [by rewrite Cs, Ce|].
  intros seed t. unfold Model.lifeColor. rewrite Cs, Ce. apply mix_same.
Qed.
End Colours.

Section Runs.
#[local] Existing Instance Model.imports.
#[local] Existing Instance Model.system.
#[local] Existing Instance Model.curves.

Lemma demo_holds_system : _system demo = Some demo_system.
Proof. vm_compute. reflexivity. Qed.

Lemma singleton_subseteq (k : string) (v : JsValue) (o : Options) :
  o !! k = Some v → ({[k := v]} : Options) ⊆ o.
Proof.
  intros Hk. apply map_subseteq_spec. intros i x Hi.
  apply lookup_singleton_Some in Hi as [<- <-]. exact Hk.
Qed.

Lemma model_spawn_before_init x y z n o (s : Model.System) :
  sys_initialized s = false → sys_spawn x y z n o s = s.
Proof. simpl. intros I. unfold Model.spawn. by rewrite I. Qed.

Lemma model_particles_untouched : untouched_by_uniform_calls Model.particles.
Proof. intros s s' C. by destruct C. Qed.

Lemma update_paces_emission_witness :
  count is_spawn (since demo (update (Num (3 # 4)) demo)) ≤ 1.
Proof.
  refine (proj2 (update_paces_emission demo demo_system (Num (3 # 4))
                   (Num 0) (Num 0) (Num 0) _ _ _ _)); vm_compute; reflexivity.
Defined.

(** C2, as worded, fails: asking for more particles than the device can
    hold makes the recreation fail, and the instance is left with the old
    system disposed and its render object removed from the group. *)
Lemma failed_recreation_loses_old_system : ¬ survives_failed_recreation too_many demo.
Proof.
  intros H. destruct H as [_ G].
  - vm_compute. reflexivity.
  - vm_compute in G. discriminate G.
Qed.

Lemma failed_recreation_leaves_old_disposed_witness :
  _system (setProps too_many demo) = Some (sys_dispose demo_system)
  ∧ group (setProps too_many demo) = [].
Proof.
  destruct (failed_recreation_leaves_old_disposed too_many demo demo_system) as [_ F].
  - vm_compute. reflexivity.
  - vm_compute. reflexivity.
  - destruct F as (S & G & _).
    + vm_compute. reflexivity.
    + split; [exact S | exact G].
Defined.


Lemma not_ready_is_noop_witness :
  update (Num 1) unready = unready
  ∧ same_fields (spawn None None None None JUndefined unready) unready.
Proof.
  destruct (not_ready_is_noop unready) with (delta := Num 1) (x := @None number)
    (y := @None number) (z := @None number) (n := @None number) (o := JUndefined)
    as (U & _ & S & _).
  - right. exists (default blank (_system unready)). split; vm_compute; reflexivity.
  - exact model_spawn_before_init.
  - split; [exact U | exact S].
Defined.

(** C6, as worded, fails: after [stop()], a [setProps] with
    [autoStart: true] switches emission back on without any [start()], and
    the next [update] spawns. *)
Lemma autoStart_resumes_emission : ¬ no_spawn_until_start [OSetProps restart] demo.
Proof.
  intros H. specialize (H eq_refl (Num 1)). vm_compute in H. discriminate H.
Qed.

Lemma stopped_until_restarted_witness :
  isEmitting (run [OSetProps gravity; OUpdate (Num 1)] (stop demo)) = JBool false.
Proof.
  refine (proj1 (stopped_until_restarted demo [OSetProps gravity; OUpdate (Num 1)] _)).
  vm_compute. reflexivity.
Defined.

Lemma colorEnd_mirrors_colorStart_witness :
  ∃ s', _system (setProps red demo) = Some s'
        ∧ Model.colorEnd s' = Model.colorStart s'.
Proof.
  destruct (colorEnd_mirrors_colorStart demo demo_system red [JStr "#ff0000"])
    as (s' & E & _ & M & _).
  - vm_compute. reflexivity.
  - vm_compute. reflexivity.
  - vm_compute. reflexivity.
  - vm_compute. discriminate.
  - exists s'. split; [exact E | exact M].
Defined.

Lemma init_at_most_once_witness : init demo = (demo, true).
Proof.
  refine (proj1 (init_at_most_once (new_VFXParticles 1 (Some demo_options)) demo _)).
  vm_compute. reflexivity.
Defined.
End Runs.

(** * Further properties of the wrapper *)

Section MoreLifecycle.
Context `{!Imports} {Sys : Type} `{!VFXParticleSystem Sys}.
Implicit Types (st : VFXParticles Sys) (s : Sys) (nv : Options).

Lemma step_without_system st o :
  _system st = None → acts_on_system o = true →
  _system (step st o) = None ∧ trace (step st o) = trace st
  ∧ group (step st o) = group st ∧ _config (step st o) = _config st
  ∧ _initialized (step st o) = _initialized st.
Proof.
  intros E A. destruct o; try done; simpl.
  - by rewrite update_without_system.
  - by rewrite spawn_without_system.
  - unfold start. simpl. by rewrite E.
  - unfold stop. simpl. by rewrite E.
  - unfold clear. by rewrite E.
Qed.

(** X1.  As long as the instance holds no system, [update], [spawn],
    [start], [stop] and [clear], in any number and order, make no call at
    all and leave the group, the configuration and [_initialized] as they
    are: nothing can be emitted before a system has been created. *)
Theorem idle_without_system ops st :
  _system st = None →
  forallb acts_on_system ops = true →
  _system (run ops st) = None
  ∧ since st (run ops st) = []
  ∧ group (run ops st) = group st
  ∧ _config (run ops st) = _config st
  ∧ _initialized (run ops st) = _initialized st.
Proof.
  intros E F.
  assert (Q : _system (run ops st) = None ∧ trace (run ops st) = trace st
              ∧ group (run ops st) = group st ∧ _config (run ops st) = _config st
              ∧ _initialized (run ops st) = _initialized st).
  { revert st E. induction ops as [|o ops IH]; intros st E; [done|].
    simpl in F. apply andb_prop in F as [Fo F].
    destruct (step_without_system st o E Fo) as (E1 & T1 & G1 & C1 & I1).
    destruct (IH F (step st o) E1) as (E2 & T2 & G2 & C2 & I2).
    simpl. repeat split; congruence. }
  destruct Q as (E' & T' & G' & C' & I').
  repeat split; try done. apply since_app. by rewrite T', app_nil_r.
Qed.

Lemma recreateSystem_holds st :
  is_Some (_system st) → is_Some (_system (fst (_recreateSystem st))).
Proof.
  intros [s E]. unfold _recreateSystem. rewrite E. simpl.
  destruct (sys_new _ _ _ _ _) as [s1|]; simpl; [|by eexists].
  destruct (sys_init s1); simpl; by eexists.
Qed.

Lemma recreateSystem_fulfilled st st' :
  _recreateSystem st = (st', true) →
  ∃ s0 s, sys_new (fresh st) (_renderer st) (_config st) JUndefined JUndefined = Some s0
          ∧ sys_init s0 = Some s
          ∧ _system st' = Some s
          ∧ group st' = group_add (sys_renderObject s)
                          (from_option (λ old, group_remove (sys_renderObject old) (group st))
                             (group st) (_system st))
          ∧ _emitAccumulator st' = Num 0
          ∧ fresh st' = S (fresh st).
Proof.
  unfold _recreateSystem.
  destruct (_system st) as [old|] eqn:E; simpl;
    (destruct (sys_new _ _ _ _ _) as [s0|] eqn:N; simpl; [|done]);
    (destruct (sys_init s0) as [s|] eqn:I; simpl; [|done]);
    intros [= <-]; exists s0, s; by repeat split.
Qed.

Lemma setProps_holds nv st : is_Some (_system st) → is_Some (_system (setProps nv st)).
Proof.
  intros Hs. pose proof (setProps_cases nv st) as C. cbv zeta in C.
  destruct (structural_change nv st).
  - destruct C as (st2 & pre & -> & E2 & _). apply recreateSystem_holds. by rewrite E2.
  - rewrite C. destruct Hs as [s E].
    destruct (applyUniformUpdates_patched nv (set_config (nv ∪ _config st) st))
      as (_ & _ & _ & _ & _ & _ & _ & _ & Sy).
    destruct (Sy s E) as (s' & -> & _). by eexists.
Qed.

Lemma update_holds delta st : is_Some (_system st) → is_Some (_system (update delta st)).
Proof.
  intros [s E]. unfold update. rewrite E.
  destruct (sys_initialized s); simpl; [|by exists s].
  destruct (truthy (_emitting st)); [|rewrite E; by eexists].
  destruct (sys_position s) as [[px py] pz].
  destruct (num_truthy (sys_delay s)); simpl; [|by eexists].
  destruct (num_ge _ _); simpl; [by eexists|]. rewrite E. by eexists.
Qed.

Lemma update_initialized delta st : _initialized (update delta st) = _initialized st.
Proof.
  unfold update. destruct (_system st) as [s|] eqn:E; [|done].
  destruct (sys_initialized s); simpl; [|done].
  destruct (truthy (_emitting st)); [|by rewrite E].
  destruct (sys_position s) as [[px py] pz].
  destruct (num_truthy (sys_delay s)); simpl; [|done].
  destruct (num_ge _ _); simpl; [done|]. by rewrite E.
Qed.

Lemma spawn_holds x y z c o st : is_Some (_system st) → is_Some (_system (spawn x y z c o st)).
Proof. intros [s E]. unfold spawn. rewrite E. by eexists. Qed.

Lemma spawn_initialized x y z c o st : _initialized (spawn x y z c o st) = _initialized st.
Proof. unfold spawn. by destruct (_system st). Qed.

Lemma start_holds st : is_Some (_system st) → is_Some (_system (start st)).
Proof. intros [s E]. unfold start. simpl. rewrite E. by eexists. Qed.

Lemma start_initialized st : _initialized (start st) = _initialized st.
Proof. unfold start. simpl. by destruct (_system st). Qed.

Lemma stop_holds st : is_Some (_system st) → is_Some (_system (stop st)).
Proof. intros [s E]. unfold stop. simpl. rewrite E. by eexists. Qed.

Lemma stop_initialized st : _initialized (stop st) = _initialized st.
Proof. unfold stop. simpl. by destruct (_system st). Qed.

Lemma clear_holds st : is_Some (_system st) → is_Some (_system (clear st)).
Proof. intros [s E]. unfold clear. rewrite E. by eexists. Qed.

Lemma clear_initialized st : _initialized (clear st) = _initialized st.
Proof. unfold clear. by destruct (_system st). Qed.

Lemma step_initialized_holds st o :
  (_initialized st = true → is_Some (_system st)) →
  _initialized (step st o) = true → is_Some (_system (step st o)).
Proof.
  intros Inv. destruct o; simpl.
  - unfold init. destruct (_initialized st) eqn:I; [simpl; intros _; by apply Inv|].
    match goal with |- context [_recreateSystem ?x] => set (st1 := x) end.
    destruct (_recreateSystem st1) as [st2 [|]] eqn:R.
    + destruct (recreateSystem_fulfilled _ _ R) as (s0 & s & _ & _ & E & _).
      destruct (truthy (_debug (set_initialized true st2))); simpl; intros _; exists s; exact E.
    + simpl.
      destruct (recreateSystem_frame st1) as (_ & _ & _ & I2 & _).
      rewrite R in I2. simpl in I2. rewrite I2.
      assert (_initialized st1 = false) as -> by (subst st1; by destruct (truthy _)).
      done.
  - intros I. apply update_holds, Inv. by rewrite update_initialized in I.
  - done.
  - intros I. apply spawn_holds, Inv. by rewrite spawn_initialized in I.
  - intros I. apply start_holds, Inv. by rewrite start_initialized in I.
  - intros I. apply stop_holds, Inv. by rewrite stop_initialized in I.
  - intros I. apply clear_holds, Inv. by rewrite clear_initialized in I.
  - rewrite setProps_initialized. intros I. by apply setProps_holds, Inv.
Qed.

(** X2.  Whatever methods are called on an instance after its
    construction, and whether or not recreations fail on the way, an
    instance that reports [_initialized] holds a system. *)
Theorem initialized_holds_system r options ops :
  let st := run ops (new_VFXParticles r options) in
  _initialized st = true → is_Some (_system st).
Proof.
  cbv zeta.
  assert (G : ∀ st, (_initialized st = true → is_Some (_system st)) →
                    _initialized (run ops st) = true → is_Some (_system (run ops st))).
  { induction ops as [|o ops IH]; intros st Inv; [done|].
    simpl. apply IH. by apply step_initialized_holds. }
  apply G. done.
Qed.

(** X3.  A call of [init()] on an uninitialised instance that is fulfilled
    has constructed exactly one system with the configuration, initialised
    it, and left the instance holding it, with its render object the last
    child of the group, the emission accumulator at zero and
    [_initialized] set. *)
Theorem init_fulfilled st st1 :
  _initialized st = false →
  init st = (st1, true) →
  ∃ s0 s,
    sys_new (fresh st) (_renderer st) (_config st1) JUndefined JUndefined = Some s0
    ∧ sys_init s0 = Some s
    ∧ _system st1 = Some s
    ∧ last (group st1) = Some (sys_renderObject s)
    ∧ _emitAccumulator st1 = Num 0
    ∧ _initialized st1 = true
    ∧ count is_new (since st st1) = 1.
Proof.
  intros I. unfold init. rewrite I.
  match goal with |- context [_recreateSystem ?x] => set (st0 := x) end.
  assert (F0 : fresh st0 = fresh st ∧ _renderer st0 = _renderer st
               ∧ trace st0 = trace st)
    by (subst st0; by destruct (truthy _)).
  destruct F0 as (F0 & R0 & T0).
  pose proof (recreateSystem_news st0 st (eq_sym T0)) as N.
  destruct (recreateSystem_frame st0) as (C2 & _ & _ & _ & _ & m & p & T & _).
  destruct (_recreateSystem st0) as [st2 [|]] eqn:R; [|done].
  destruct (recreateSystem_fulfilled _ _ R) as (s0 & s & N0 & I0 & E & G & A & _).
  simpl in N, C2, T. rewrite T0 in T.
  assert (L : last (group st2) = Some (sys_renderObject s))
    by (rewrite G; unfold group_add; apply last_snoc).
  rewrite F0, R0, <- C2 in N0.
  rewrite (since_app _ _ _ T) in N.
  destruct (truthy (_debug (set_initialized true st2))); intros [= <-];
    exists s0, s; repeat split; try done.
  - rewrite (since_trans st st2 (log (ERenderDebugPanel (_config st2))
                                    (set_initialized true st2))
               _ [ERenderDebugPanel (_config st2)] T eq_refl).
    by rewrite count_app, N.
  - by rewrite (since_app st (set_initialized true st2) _ T).
Qed.

(** X4.  A call of [init()] that is rejected (the constructor threw or the
    initialisation of the system failed) leaves the instance uninitialised,
    adds nothing to the group and does not open the debug panel; since
    [_initialized] is still false, calling [init()] again runs the
    constructor again. *)
Theorem init_rejected st st1 :
  init st = (st1, false) →
  _initialized st1 = false
  ∧ recreation_failed (since st st1) = true
  ∧ count is_group_add (since st st1) = 0
  ∧ count is_render_panel (since st st1) = 0
  ∧ count is_new (since st1 (fst (init st1))) = 1.
Proof.
  unfold init at 1. destruct (_initialized st) eqn:I; [done|].
  match goal with |- context [_recreateSystem ?x] => set (st0 := x) end.
  assert (T0 : trace st0 = trace st ∧ _initialized st0 = false)
    by (subst st0; by destruct (truthy _)).
  destruct T0 as (T0 & I0).
  pose proof (recreateSystem_failed_iff st0) as FI.
  destruct (recreateSystem_frame st0)
    as (_ & _ & _ & I2 & _ & made & post & T & _).
  destruct (_recreateSystem st0) as [st2 [|]] eqn:R.
  { by destruct (truthy (_debug (set_initialized true st2))). }
  intros [= <-]. simpl in *.
  assert (Q : since st st2 = since st0 st2) by (by apply since_same_start).
  assert (Shape : ∃ l, since st0 st2 = l ∧ count is_group_add l = 0
                       ∧ count is_render_panel l = 0).
  { revert R. unfold _recreateSystem.
    destruct (_system st0) as [old|]; simpl;
      (destruct (sys_new _ _ _ _ _) as [s0|]; simpl;
       [destruct (sys_init s0); simpl; [done|]|]);
      intros [= <-]; eexists; (split; [apply since_app; simpl;
                                        rewrite <- ?app_assoc; reflexivity|done]). }
  destruct Shape as (l & L & G & P).
  rewrite Q, L. rewrite L in FI.
  split; [congruence|]. split; [done|]. split; [done|]. split; [done|].
  unfold init. rewrite I2, I0.
  match goal with |- context [_recreateSystem ?x] => set (st3 := x) end.
  assert (T3 : trace st3 = trace st2) by (subst st3; by destruct (truthy (_debug st2))).
  pose proof (recreateSystem_news st3 st2 (eq_sym T3)) as N.
  destruct (recreateSystem_frame st3) as (_ & _ & _ & _ & _ & m3 & p3 & T' & N3 & _).
  destruct (_recreateSystem st3) as [st4 [|]]; simpl in *; [|exact N].
  rewrite T3 in T'. rewrite (since_app st2 _ _ T') in N.
  destruct (truthy (_debug st4)); simpl.
  - rewrite (since_trans st2 st4 (log (ERenderDebugPanel (_config st4))
                                    (set_initialized true st4))
               _ [ERenderDebugPanel (_config st4)] T' eq_refl).
    by rewrite count_app, N.
  - by rewrite (since_app st2 (set_initialized true st4) _ T').
Qed.

(** X5.  [init()] on an uninitialised instance in debug mode completes the
    configuration with the defaults of the debug panel: every option the
    instance was given keeps its value, and only the options it lacks take
    the default.  Without debug mode the configuration is left as it is. *)
Theorem init_completes_configuration st :
  _initialized st = false →
  let st1 := fst (init st) in
  (truthy (_debug st) = true →
     _config st1 = _config st ∪ DEFAULT_VALUES
     ∧ (∀ k v, _config st !! k = Some v → _config st1 !! k = Some v)
     ∧ (∀ k, _config st !! k = None → _config st1 !! k = DEFAULT_VALUES !! k))
  ∧ (truthy (_debug st) = false → _config st1 = _config st).
Proof.
  intros I. cbv zeta.
  assert (C : _config (fst (init st)) =
              if truthy (_debug st) then _config st ∪ DEFAULT_VALUES else _config st).
  { unfold init. rewrite I.
    match goal with |- context [_recreateSystem ?x] => set (st0 := x) end.
    assert (C0 : _config st0
                 = if truthy (_debug st) then _config st ∪ DEFAULT_VALUES else _config st)
      by (subst st0; by destruct (truthy _)).
    destruct (recreateSystem_frame st0) as (C2 & _).
    destruct (_recreateSystem st0) as [st2 [|]]; simpl in C2 |- *;
      [|by rewrite C2, C0].
    destruct (truthy (_debug st2)); simpl; by rewrite C2, C0. }
  split; intros D; rewrite D in C; [|done].
  split; [done|]. rewrite C. split.
  - intros k v Hk. by apply lookup_union_Some_l.
  - intros k Hk. by apply lookup_union_r.
Qed.

(** X6.  [setProps(newValues)] always records the new values: whichever
    way the call goes, and also when the recreation it triggers fails, the
    configuration afterwards holds the given value for every key of
    [newValues] and the previous value for every other key; the one
    exception is the key [geometry], which a change of [geometryType] or
    [geometryArgs] rebuilds. *)
Theorem setProps_records_values nv st k :
  k ≠ "geometry" →
  _config (setProps nv st) !! k = (nv ∪ _config st) !! k
  ∧ (∀ v, nv !! k = Some v → _config (setProps nv st) !! k = Some v)
  ∧ (nv !! k = None → _config (setProps nv st) !! k = _config st !! k).
Proof.
  intros Hk.
  assert (C : _config (setProps nv st) !! k = (nv ∪ _config st) !! k).
  { pose proof (setProps_cases nv st) as C. cbv zeta in C.
    destruct (structural_change nv st).
    - destruct C as (st2 & pre & -> & _ & _ & _ & _ & _ & _ & _ & _ & Cfg & _).
      destruct (recreateSystem_frame st2) as (-> & _). by apply Cfg.
    - rewrite C.
      by destruct (applyUniformUpdates_patched nv (set_config (nv ∪ _config st) st))
        as (_ & _ & -> & _). }
  split; [done|]. rewrite C. split.
  - intros v Hv. by apply lookup_union_Some_l.
  - intros Hn. by apply lookup_union_r.
Qed.
End MoreLifecycle.

Section Group.
Context `{!Imports} {Sys : Type} `{!VFXParticleSystem Sys}.
Implicit Types (st : VFXParticles Sys) (s : Sys) (nv : Options).

Lemma group_remove_single (o : Obj) : group_remove o [o] = [].
Proof. unfold group_remove. rewrite filter_cons. by case_decide. Qed.

Lemma group_add_nil (o : Obj) : group_add o [] = [o].
Proof. reflexivity. Qed.

Lemma evolves_refl st : evolves st st.
Proof. split; [done|]. destruct (_system st) as [s|]; [by exists s|done]. Qed.

Lemma evolves_call m ev s st :
  _system st = Some s → method_call s (m s) → evolves st (call m ev s st).
Proof. intros E M. split; [done|]. rewrite E. exists (m s). split; [done|by apply rtc_once]. Qed.

Lemma evolves_trans st1 st2 st3 : evolves st1 st2 → evolves st2 st3 → evolves st1 st3.
Proof.
  intros [G1 S1] [G2 S2]. split; [congruence|].
  destruct (_system st1) as [s|].
  - destruct S1 as (s' & E' & R1). rewrite E' in S2. destruct S2 as (s'' & E'' & R2).
    exists s''. split; [done|]. by etrans.
  - by rewrite S1 in S2.
Qed.

Lemma rtc_stable s s' :
  render_object_stable → rtc method_call s s' → sys_renderObject s' = sys_renderObject s.
Proof.
  intros [St _] R. induction R as [|x y z M _ IH]; [done|]. rewrite IH. by apply St.
Qed.

Lemma evolves_in_step st st' :
  render_object_stable → evolves st st' → group_in_step st → group_in_step st'.
Proof.
  intros St [G S]. unfold group_in_step. rewrite G.
  destruct (_system st) as [s|].
  - destruct S as (s' & -> & R). by rewrite (rtc_stable _ _ St R).
  - by rewrite S.
Qed.

Lemma patched_evolves st st' : patched st st' → _system st ≠ None → evolves st st'.
Proof.
  intros (G & _ & _ & _ & _ & _ & _ & _ & S) N. split; [done|].
  destruct (_system st) as [s|]; [|done].
  destruct (S s eq_refl) as (s' & E & R). exists s'. split; [done|].
  clear -R. induction R as [|x y z U _ IH]; [done|].
  eapply rtc_l; [by apply method_uniform|done].
Qed.

Lemma update_evolves delta st : evolves st (update delta st).
Proof.
  unfold update. destruct (_system st) as [s|] eqn:E; [|apply evolves_refl].
  destruct (sys_initialized s); simpl; [|apply evolves_refl].
  assert (U : ∀ st1 s1, _system st1 = Some s1 → evolves st st1 →
                evolves st (call (sys_update delta) (λ s, EUpdate s delta) s1 st1)).
  { intros st1 s1 E1 Ev. eapply evolves_trans; [exact Ev|].
    apply evolves_call; [done|apply method_update]. }
  assert (A : ∀ a, evolves st (set_emitAccumulator a st))
    by (intros a; split; [done|]; rewrite E; by exists s).
  destruct (truthy (_emitting st)); [|rewrite E; by apply U, evolves_refl].
  destruct (sys_position s) as [[px py] pz].
  destruct (num_truthy (sys_delay s)); simpl.
  - destruct (num_ge _ _); simpl.
    + apply U; [done|]. eapply evolves_trans; [apply (A (num_sub
        (num_add (_emitAccumulator st) delta) (sys_delay s)))|].
      eapply evolves_trans; [apply (A (num_add (_emitAccumulator st) delta))|].
      split; [done|]. simpl. rewrite E. eexists. split; [reflexivity|].
      apply rtc_once, method_spawn.
    + rewrite E. apply U; [done|apply A].
  - apply U; [done|]. apply evolves_call; [done|apply method_spawn].
Qed.

Lemma recreateSystem_in_step st :
  group_in_step st → group_in_step (fst (_recreateSystem st)).
Proof.
  unfold group_in_step, _recreateSystem.
  destruct (_system st) as [old|] eqn:E; simpl.
  - intros G.
    assert (R : group_remove (sys_renderObject old) (group st) = [])
      by (destruct G as [-> | ->]; [reflexivity|apply group_remove_single]).
    destruct (sys_new _ _ _ _ _) as [s0|]; simpl; [|by left].
    destruct (sys_init s0) as [s1|]; simpl; [|by left].
    right. by rewrite R.
  - intros G. destruct (sys_new _ _ _ _ _) as [s0|]; simpl; [|by rewrite E].
    destruct (sys_init s0) as [s1|]; simpl; [right; by rewrite G|by rewrite E].
Qed.

Lemma step_in_step st o :
  render_object_stable → group_in_step st → group_in_step (step st o).
Proof.
  intros St G. destruct o; simpl.
  - unfold init. destruct (_initialized st); [done|].
    match goal with |- context [_recreateSystem ?x] => set (st0 := x) end.
    assert (G0 : group_in_step st0) by (subst st0; by destruct (truthy (_debug st))).
    pose proof (recreateSystem_in_step st0 G0) as G2.
    destruct (_recreateSystem st0) as [st2 [|]]; simpl in *; [|done].
    by destruct (truthy (_debug st2)).
  - by eapply evolves_in_step, G; [|apply update_evolves].
  - unfold group_in_step, dispose in *.
    destruct (_system st) as [s|] eqn:E; simpl.
    + destruct (truthy (_debug st)); simpl;
        (destruct G as [-> | ->]; [reflexivity|apply group_remove_single]).
    + destruct (truthy (_debug st)); simpl; by rewrite E.
  - unfold spawn. destruct (_system st) as [s|] eqn:E; [|done].
    eapply evolves_in_step, G; [done|]. apply evolves_call; [done|apply method_spawn].
  - unfold start. simpl. destruct (_system st) as [s|] eqn:E.
    + eapply evolves_in_step, G; [done|]. split; [done|]. rewrite E.
      eexists. split; [reflexivity|]. apply rtc_once, method_uniform, uniform_start.
    + unfold group_in_step in *. simpl. by rewrite E in *.
  - unfold stop. simpl. destruct (_system st) as [s|] eqn:E.
    + eapply evolves_in_step, G; [done|]. split; [done|]. rewrite E.
      eexists. split; [reflexivity|]. apply rtc_once, method_uniform, uniform_stop.
    + unfold group_in_step in *. simpl. by rewrite E in *.
  - unfold clear. destruct (_system st) as [s|] eqn:E; [|done].
    eapply evolves_in_step, G; [done|]. apply evolves_call; [done|apply method_clear].
  - pose proof (setProps_cases newValues st) as C. cbv zeta in C.
    destruct (structural_change newValues st).
    + destruct C as (st2 & pre & -> & E2 & G2 & _).
      apply recreateSystem_in_step. unfold group_in_step. by rewrite E2, G2.
    + rewrite C. destruct (_system st) as [s|] eqn:E.
      * eapply evolves_in_step; [done| |].
        -- apply patched_evolves; [apply applyUniformUpdates_patched|]. simpl. by rewrite E.
        -- exact G.
      * rewrite applyUniformUpdates_without_system by done. exact G.
Qed.

Lemma recreateSystem_split st :
  _recreateSystem st =
    match _recreateSystem_begin st with
    | (st2, Some (AwaitInit s)) => _recreateSystem_resume s st2
    | (st2, _) => (st2, false)
    end.
Proof.
  unfold _recreateSystem, _recreateSystem_begin, _recreateSystem_resume. cbv zeta.
  by destruct (sys_new _ _ _ _ _).
Qed.

Lemma recreateSystem_settled st : fst (_recreateSystem st) = settle (_recreateSystem_begin st).
Proof.
  rewrite recreateSystem_split. unfold settle.
  destruct (_recreateSystem_begin st) as [st2 [[s|]|]] eqn:B; try done.
  unfold _recreateSystem_begin in B. cbv zeta in B.
  by destruct (sys_new _ _ _ _ _).
Qed.

Lemma recreateSystem_begin_pending st st2 p :
  _recreateSystem_begin st = (st2, Some p) → ∃ s, p = AwaitInit s.
Proof.
  unfold _recreateSystem_begin. cbv zeta.
  destruct (sys_new _ _ _ _ _) as [s|]; [|done]. intros [= _ <-]. by exists s.
Qed.

(** [setProps] is [setProps_begin] followed by its pending work. *)
Lemma setProps_settled nv st : setProps nv st = settle (setProps_begin nv st).
Proof.
  unfold setProps, setProps_begin. cbv zeta.
  set (st1 := set_config (nv ∪ _config st) st).
  pose proof (recreateSystem_settled st1) as R.
  repeat match goal with
         | |- (if ?b then _ else _) = settle (if ?b then _ else _) => destruct b
         end; try exact R.
  - unfold rebuild_geometry, settle, resume. cbv zeta.
    match goal with |- context [_recreateSystem ?x] => set (st2 := x) end.
    rewrite (recreateSystem_settled st2). unfold settle.
    destruct (_recreateSystem_begin st2) as [st3 [p|]] eqn:B; [|done].
    destruct (recreateSystem_begin_pending _ _ _ B) as [s ->]. done.
  - done.
Qed.

(** A [setProps] that returns with a recreation suspended at its [await]
    has begun it on the merged configuration. *)
Lemma setProps_begin_await nv st st1 a :
  setProps_begin nv st = (st1, Some (AwaitInit a)) →
  _recreateSystem_begin (set_config (nv ∪ _config st) st) = (st1, Some (AwaitInit a)).
Proof.
  unfold setProps_begin. cbv zeta.
  repeat match goal with
         | |- (if ?b then _ else _) = _ → _ => destruct b
         end; done.
Qed.

Lemma recreateSystem_begin_held st s st1 a :
  _system st = Some s →
  _recreateSystem_begin st = (st1, Some (AwaitInit a)) →
  _system st1 = Some (sys_dispose s)
  ∧ group st1 = group_remove (sys_renderObject s) (group st)
  ∧ ∃ made, trace st1 = trace st ++ [EGroupRemove (sys_renderObject s); EDispose s; made]
            ∧ is_dispose made = false.
Proof.
  intros E. unfold _recreateSystem_begin. cbv zeta. rewrite E. simpl.
  destruct (sys_new _ _ _ _ _) as [s0|]; [|done]. intros [= <- <-]. simpl.
  repeat split. eexists. split; [by rewrite <- !app_assoc|done].
Qed.

Lemma recreateSystem_resume_ready a b st :
  sys_init a = Some b →
  let st' := fst (resume (AwaitInit a) st) in
  _system st' = Some b
  ∧ group st' = group_add (sys_renderObject b) (group st)
  ∧ trace st' = trace st ++ [EInit a (Some b); EGroupAdd (sys_renderObject b)].
Proof.
  intros I. cbv zeta. unfold resume, _recreateSystem_resume. rewrite I. simpl.
  repeat split. by rewrite <- app_assoc.
Qed.

(** X7.  The render objects in the group.
    [setProps] returns before the recreation it started has settled; run
    with nothing in between, a call is the part up to its [return] followed
    by the pending work.  As long as every recreation has settled before
    the next method is called, and provided a system keeps the render
    object it was created with, the group has at most one child, the
    render object of the system held.  Two recreations in flight at once
    break this: when a second structural [setProps] is made before the
    first recreation has settled, the old system is disposed twice, both
    new render objects are added, and the group is left with two
    children, the first of which belongs to a system the instance does
    not hold. *)
Theorem group_holds_only_current :
  (∀ nv st, setProps nv st = settle (setProps_begin nv st))
  ∧ (render_object_stable →
     ∀ r options ops,
       let st := run ops (new_VFXParticles r options) in
       group_in_step st ∧ length (group st) ≤ 1)
  ∧ (∀ nv1 nv2 st s st1 st2 a1 a2 b1 b2,
       _system st = Some s →
       group st = [sys_renderObject s] →
       setProps_begin nv1 st = (st1, Some (AwaitInit a1)) →
       setProps_begin nv2 st1 = (st2, Some (AwaitInit a2)) →
       sys_init a1 = Some b1 → sys_init a2 = Some b2 →
       sys_renderObject b1 ≠ sys_renderObject b2 →
       let st3 := fst (resume (AwaitInit a1) st2) in
       let st4 := fst (resume (AwaitInit a2) st3) in
       _system st4 = Some b2
       ∧ group st4 = [sys_renderObject b1; sys_renderObject b2]
       ∧ count is_dispose (since st st4) = 2).
Proof.
  split; [exact setProps_settled|]. split.
  - intros St r options ops. cbv zeta.
    assert (G : ∀ st, group_in_step st → group_in_step (run ops st)).
    { induction ops as [|o ops IH]; intros st G; [done|].
      simpl. apply IH. by apply step_in_step. }
    assert (G0 : group_in_step (run ops (new_VFXParticles r options)))
      by (apply G; reflexivity).
    split; [done|]. unfold group_in_step in G0.
    destruct (_system _); [destruct G0 as [-> | ->]|rewrite G0]; simpl; lia.
  - intros nv1 nv2 st s st1 st2 a1 a2 b1 b2 E G B1 B2 I1 I2 Ne. cbv zeta.
    apply setProps_begin_await in B1, B2.
    destruct (recreateSystem_begin_held (set_config (nv1 ∪ _config st) st) s _ _ E B1)
      as (E1 & G1 & m1 & T1 & M1).
    destruct (recreateSystem_begin_held (set_config (nv2 ∪ _config st1) st1)
                (sys_dispose s) _ _ E1 B2)
      as (E2 & G2 & m2 & T2 & M2).
    simpl in G1, G2, T1, T2. rewrite G, group_remove_single in G1.
    rewrite G1 in G2. simpl in G2.
    destruct (recreateSystem_resume_ready a1 b1 st2 I1) as (E3 & G3 & T3).
    destruct (recreateSystem_resume_ready a2 b2 (fst (resume (AwaitInit a1) st2)) I2)
      as (E4 & G4 & T4).
    split; [exact E4|]. split.
    + rewrite G4, G3, G2. unfold group_add, group_remove. simpl.
      rewrite filter_cons. case_decide; [done|]. by destruct Ne.
    + erewrite since_app; [|rewrite T4, T3, T2, T1, <- !app_assoc; reflexivity].
      rewrite !count_app. simpl. rewrite M1, M2. done.
Qed.
End Group.

Section MoreEmission.
Context `{!Imports} {Sys : Type} `{!VFXParticleSystem Sys}.
Implicit Types (st : VFXParticles Sys) (s : Sys) (nv : Options).

Lemma num_add_nan a b : a = NaN ∨ b = NaN → num_add a b = NaN.
Proof. intros [-> | ->]; [done|by destruct a]. Qed.

Lemma update_accumulator_nan delta st :
  _emitAccumulator st = NaN → _emitAccumulator (update delta st) = NaN.
Proof.
  intros A. unfold update. destruct (_system st) as [s|] eqn:E; [|done].
  destruct (sys_initialized s); simpl; [|done].
  destruct (truthy (_emitting st)); [|by rewrite E].
  destruct (sys_position s) as [[px py] pz].
  destruct (num_truthy (sys_delay s)); simpl; [|done].
  rewrite A. simpl. by rewrite E.
Qed.

(** X8.  A [NaN] stops auto-emission.  With a delay in force, an
    [update(delta)] whose [delta] is [NaN], or that finds the accumulator
    at [NaN], does not spawn; on an emitting, initialised system it leaves
    the accumulator at [NaN], and a [NaN] accumulator stays so under every
    further [update].  [start()] puts the accumulator back to zero. *)
Theorem nan_blocks_emission st s delta :
  _system st = Some s →
  num_truthy (sys_delay s) = true →
  _emitAccumulator st = NaN ∨ delta = NaN →
  count is_spawn (since st (update delta st)) = 0
  ∧ (sys_initialized s = true → truthy (_emitting st) = true →
       _emitAccumulator (update delta st) = NaN)
  ∧ (_emitAccumulator st = NaN →
       ∀ deltas, _emitAccumulator (run (map OUpdate deltas) st) = NaN)
  ∧ _emitAccumulator (start (update delta st)) = Num 0.
Proof.
  intros E D N. pose proof (num_add_nan _ _ N) as A.
  split; [|split; [|split]].
  - unfold update. rewrite E.
    destruct (sys_initialized s); simpl; [|by rewrite since_refl].
    destruct (truthy (_emitting st)).
    + destruct (sys_position s) as [[px py] pz]. rewrite D. simpl. rewrite A. simpl.
      rewrite E. erewrite since_app; [|reflexivity]. done.
    + rewrite E. erewrite since_app; [|reflexivity]. done.
  - intros I T. unfold update. rewrite E, I, T. simpl.
    destruct (sys_position s) as [[px py] pz]. rewrite D. simpl. rewrite A. simpl.
    by rewrite E.
  - intros A0 deltas. clear -A0. revert st A0.
    induction deltas as [|d deltas IH]; intros st A0; [done|].
    simpl. apply IH. by apply update_accumulator_nan.
  - unfold start. simpl. by destruct (_system (update delta st)).
Qed.

Lemma nullish_coalesce v d : nullish d = false → nullish (coalesce v d) = false.
Proof. intros Hd. unfold coalesce. by destruct (nullish v) eqn:N. Qed.

Lemma has_key_insert (o : Options) k v : has_key (<[k := v]> o) k = true.
Proof. unfold has_key. rewrite lookup_insert_eq. by apply bool_decide_eq_true. Qed.

Lemma prop_insert (o : Options) k v : prop (<[k := v]> o) k = v.
Proof. unfold prop. by rewrite lookup_insert_eq. Qed.

Lemma truthy_not_nullish v : truthy v = true → nullish v = false.
Proof. by destruct v. Qed.

Lemma coalesce_not_nullish v d : nullish v = false → coalesce v d = v.
Proof. intros N. unfold coalesce. by rewrite N. Qed.

(** What [colour_fallback] hands on. *)
Lemma colour_fallback_complete config nv :
  let nv' := colour_fallback config nv in
  (has_key nv' "colorEnd" = true → truthy (prop nv' "colorEnd") = false →
     has_key nv' "colorStart" = true ∧ nullish (prop nv' "colorStart") = false)
  ∧ (nullish (prop nv "colorStart") = false →
       prop nv' "colorStart" = prop nv "colorStart")
  ∧ (has_key nv "colorStart" = true → truthy (prop nv "colorStart") = true →
     truthy (prop config "colorEnd") = false →
       has_key nv' "colorEnd" = true ∧ prop nv' "colorEnd" = JNull).
Proof.
  cbv zeta. unfold colour_fallback.
  set (nv1 := if has_key nv "colorStart" && truthy (prop nv "colorStart")
                 && negb (truthy (prop config "colorEnd"))
              then <["colorEnd" := JNull]> nv else nv).
  assert (S1 : prop nv1 "colorStart" = prop nv "colorStart")
    by (subst nv1; destruct (_ && _); by rewrite ?prop_insert_ne).
  destruct (has_key nv1 "colorEnd" && negb (truthy (prop nv1 "colorEnd"))) eqn:B.
  - split; [|split].
    + intros _ _. rewrite has_key_insert, prop_insert. split; [done|].
      by apply nullish_coalesce, nullish_coalesce.
    + intros N. rewrite prop_insert, S1. by apply coalesce_not_nullish.
    + intros K T C. rewrite has_key_insert_ne, prop_insert_ne by done.
      subst nv1. rewrite K, T, C. simpl. by rewrite has_key_insert, prop_insert.
  - split; [|split].
    + intros K T. rewrite K, T in B. done.
    + by rewrite S1.
    + intros K T C. subst nv1. rewrite K, T, C in B |- *. simpl in *.
      by rewrite has_key_insert, prop_insert in B.
Qed.

(** X10.  When [setProps] patches the running system in place, the first
    call it makes is [updateUniformsPartial] on the new values after the
    colour fallback against the merged configuration.  The fallback
    changes no key but [colorStart] and [colorEnd]; it never hands a falsy
    [colorEnd] to the core without a [colorStart] that is neither [null]
    nor [undefined]; it keeps a [colorStart] that was given; and a truthy
    [colorStart] given while the configuration has no end colour comes
    with [colorEnd: null]. *)
Theorem uniform_update_carries_start_colour nv st s :
  _system st = Some s →
  structural_change nv st = false →
  let nv' := colour_fallback (nv ∪ _config st) nv in
  (∃ rest, since st (setProps nv st) = EUniforms s nv' :: rest)
  ∧ (∀ k, k ≠ "colorStart" → k ≠ "colorEnd" →
       prop nv' k = prop nv k ∧ has_key nv' k = has_key nv k)
  ∧ (has_key nv' "colorEnd" = true → truthy (prop nv' "colorEnd") = false →
       has_key nv' "colorStart" = true ∧ nullish (prop nv' "colorStart") = false)
  ∧ (nullish (prop nv "colorStart") = false →
       prop nv' "colorStart" = prop nv "colorStart")
  ∧ (has_key nv "colorStart" = true → truthy (prop nv "colorStart") = true →
     truthy (prop (nv ∪ _config st) "colorEnd") = false →
       has_key nv' "colorEnd" = true ∧ prop nv' "colorEnd" = JNull).
Proof.
  intros E S. cbv zeta.
  split; [|split; [|exact (colour_fallback_complete (nv ∪ _config st) nv)]].
  - pose proof (setProps_cases nv st) as C. cbv zeta in C. rewrite S in C. rewrite C.
    set (st1 := set_config (nv ∪ _config st) st).
    unfold _applyUniformUpdates. change (_system st1) with (_system st). rewrite E.
    cbv zeta. change (_config st1) with (nv ∪ _config st).
    set (nv' := colour_fallback (nv ∪ _config st) nv).
    set (st2 := on_system (updateUniformsPartial nv') (λ s0, EUniforms s0 nv') st1).
    destruct (non_uniform_updates_patched nv' st2)
      as (_ & _ & _ & _ & _ & _ & _ & (l & T & _) & _).
    exists l. apply since_app. rewrite T. subst st2. unfold on_system.
    change (_system st1) with (_system st). rewrite E. simpl.
    by rewrite <- app_assoc.
  - intros k K1 K2. split; [by apply prop_colour_fallback|by apply has_key_colour_fallback].
Qed.

Lemma recreateSystem_without_system st :
  _system st = None →
  count is_dispose (since st (fst (_recreateSystem st))) = 0
  ∧ count is_new (since st (fst (_recreateSystem st))) = 1.
Proof.
  intros E. split; [|by apply recreateSystem_news].
  destruct (recreateSystem_frame st) as (_ & _ & _ & _ & _ & made & post & T & _ & _ & D).
  rewrite E in T. rewrite (since_app _ _ _ T). simpl. exact D.
Qed.

(** X11.  [setProps] on an instance that holds no system.  A change that
    is not structural is only recorded in the configuration: nothing is
    called.  A structural change constructs a system although [init()] has
    not run; [_initialized] stays false, so a later [init()] constructs a
    second system, after disposing the first if it was installed. *)
Theorem setProps_without_system nv st :
  _system st = None →
  _initialized st = false →
  let st1 := setProps nv st in
  (structural_change nv st = false → st1 = set_config (nv ∪ _config st) st)
  ∧ (structural_change nv st = true →
       count is_new (since st st1) = 1
       ∧ count is_dispose (since st st1) = 0
       ∧ _initialized st1 = false
       ∧ count is_new (since st1 (fst (init st1))) = 1
       ∧ count is_dispose (since st1 (fst (init st1))) = held st1).
Proof.
  intros E I. cbv zeta.
  pose proof (setProps_cases nv st) as C. cbv zeta in C.
  destruct (structural_change nv st) eqn:S;
    [split; [done|intros _] | split; [intros _|done]].
  2: { rewrite C. by apply applyUniformUpdates_without_system. }
  - destruct C as (st2 & pre & Q & E2 & _ & _ & _ & _ & I2 & _ & _ & _ & T2 & P2).
    rewrite E in E2.
    assert (Pre : count is_new pre = 0 ∧ count is_dispose pre = 0).
    { clear -P2. induction pre as [|e pre IH]; [done|].
      simpl in P2. apply andb_prop in P2 as [Pe P2].
      destruct (IH P2) as (? & ?). by destruct e. }
    destruct Pre as (N1 & N2).
    destruct (recreateSystem_frame st2)
      as (_ & _ & _ & I3 & _ & made & post & T & Np & _ & Dp).
    rewrite E2 in T. simpl in T.
    assert (Si : since st (setProps nv st)
                 = pre ++ ENew (fresh st2) (_renderer st2) (_config st2) JUndefined made
                            :: post).
    { apply since_app. rewrite Q, T, T2. by rewrite <- app_assoc. }
    assert (I1 : _initialized (setProps nv st) = false) by (rewrite Q; congruence).
    rewrite Si, !count_app, N1, N2. simpl. rewrite Np, Dp.
    split; [done|]. split; [done|]. split; [done|].
    set (st1 := setProps nv st) in *. clearbody st1.
    unfold init. rewrite I1.
    match goal with |- context [_recreateSystem ?x] => set (st0 := x) end.
    assert (F0 : trace st0 = trace st1 ∧ _system st0 = _system st1)
      by (subst st0; by destruct (truthy (_debug st1))).
    destruct F0 as (T0 & E0).
    destruct (recreateSystem_frame st0)
      as (_ & _ & _ & _ & _ & made' & post' & T' & Np' & _ & Dp').
    rewrite T0, E0 in T'.
    assert (Sr : since st1 (fst (_recreateSystem st0))
                 = match _system st1 with
                   | Some old => [EGroupRemove (sys_renderObject old); EDispose old]
                   | None => []
                   end ++ ENew (fresh st0) (_renderer st0) (_config st0) JUndefined made'
                            :: post')
      by (by apply since_app).
    assert (Cn : count is_new (since st1 (fst (_recreateSystem st0))) = 1
                 ∧ count is_dispose (since st1 (fst (_recreateSystem st0))) = held st1).
    { rewrite Sr, !count_app. simpl. rewrite Np', Dp'. unfold held.
      by destruct (_system st1). }
    destruct (_recreateSystem st0) as [st3 [|]]; simpl in *; [|exact Cn].
    destruct (truthy (_debug st3)); simpl; [|exact Cn].
    rewrite (since_trans st1 st3 (log (ERenderDebugPanel (_config st3))
                                    (set_initialized true st3))
               _ [ERenderDebugPanel (_config st3)] T' eq_refl).
    rewrite !count_app. simpl. rewrite Np', Dp'. unfold held.
    by destruct (_system st1).
Qed.

(** X12.  A recreation by [setProps] that succeeds installs the new
    system: it was constructed from the configuration the instance now
    has, and initialised; its render object has taken the place of the old
    one in the group; the emission accumulator starts from zero; the
    emitting flag and [_initialized] are as they were. *)
Theorem successful_recreation_installs_new nv st s :
  _system st = Some s →
  structural_change nv st = true →
  let st' := setProps nv st in
  recreation_failed (since st st') = false →
  ∃ s0 s',
    sys_new (fresh st) (_renderer st) (_config st') JUndefined JUndefined = Some s0
    ∧ sys_init s0 = Some s'
    ∧ _system st' = Some s'
    ∧ group st' = group_add (sys_renderObject s')
                    (group_remove (sys_renderObject s) (group st))
    ∧ _emitAccumulator st' = Num 0
    ∧ _emitting st' = _emitting st
    ∧ _initialized st' = _initialized st.
Proof.
  intros E S. cbv zeta.
  pose proof (setProps_cases nv st) as C. cbv zeta in C. rewrite S in C.
  destruct C as (st2 & pre & -> & E2 & G2 & Em2 & _ & _ & I2 & R2 & F2 & _ & T2 & P2).
  intros F.
  assert (Pre : recreation_failed pre = false).
  { clear -P2. induction pre as [|e pre IH]; [done|].
    simpl in P2. apply andb_prop in P2 as [Pe P2].
    unfold recreation_failed in *. simpl. rewrite (IH P2). by destruct e. }
  destruct (recreateSystem_frame st2) as (C3 & Em3 & _ & I3 & _ & made & post & T & _).
  assert (Ok : snd (_recreateSystem st2) = true).
  { pose proof (recreateSystem_failed_iff st2) as Q.
    assert (since st (_recreateSystem st2).1 = pre ++ since st2 (_recreateSystem st2).1)
      as Q2.
    { erewrite (since_app st2); [|exact T]. apply since_app.
      rewrite T, T2. by rewrite <- !app_assoc. }
    rewrite Q2 in F. unfold recreation_failed in F. rewrite existsb_app in F.
    apply orb_false_elim in F as [_ F].
    fold (recreation_failed (since st2 (_recreateSystem st2).1)) in F.
    rewrite Q in F. by destruct (snd (_recreateSystem st2)). }
  destruct (_recreateSystem st2) as [st3 ok] eqn:R. simpl in Ok. subst ok.
  destruct (recreateSystem_fulfilled _ _ R) as (s0 & s' & N0 & I0 & E3 & G3 & A3 & _).
  simpl in *. exists s0, s'.
  rewrite E2, E in G3. simpl in G3. rewrite G2 in G3.
  rewrite F2, R2, <- C3 in N0.
  repeat split; try done; congruence.
Qed.
End MoreEmission.

Section MoreReact.
Context `{!Imports} {Sys : Type} `{!VFXParticleSystem Sys} `{!React.CurveTextures}.
Implicit Types (st : VFXParticles Sys) (s : Sys) (nv : Options) (c : React.Component Sys).

Lemma frame_calls_app c c' l : React.trace c' = React.trace c ++ l → frame_calls c c' = l.
Proof. intros E. unfold frame_calls. rewrite E. apply drop_app_length. Qed.

Lemma stepped_refl c : debug_stepped c c.
Proof. repeat split; try done. exists []. by rewrite app_nil_r. Qed.

Lemma stepped_trans c1 c2 c3 : debug_stepped c1 c2 → debug_stepped c2 c3 → debug_stepped c1 c3.
Proof.
  intros (M1 & F1 & P1 & D1 & A1 & l1 & T1 & U1) (M2 & F2 & P2 & D2 & A2 & l2 & T2 & U2).
  repeat split; try congruence.
  exists (l1 ++ l2). split; [by rewrite T2, T1, app_assoc|].
  by rewrite forallb_app, U1, U2.
Qed.

Lemma stepped_if (b : bool) c x y :
  debug_stepped c x → debug_stepped c y → debug_stepped c (if b then x else y).
Proof. by destruct b. Qed.

Lemma stepped_upd f c :
  React.props (f (React.hooks c)) = React.props (React.hooks c) →
  React.debugValuesRef (f (React.hooks c)) = React.debugValuesRef (React.hooks c) →
  React.emitAccumulator (f (React.hooks c)) = React.emitAccumulator (React.hooks c) →
  debug_stepped c (React.upd f c).
Proof. intros P D A. repeat split; try done. exists []. by rewrite app_nil_r. Qed.

Lemma stepped_call m ev c :
  (∀ s, debug_level (ev s) = true) → debug_stepped c (React.call m ev c).
Proof.
  intros Hev. repeat split; try done.
  exists [ev (React.system c)]. split; [done|]. simpl. by rewrite Hev.
Qed.

Lemma stepped_log e c : debug_level e = true → debug_stepped c (React.log e c).
Proof.
  intros He. repeat split; try done. exists [e]. split; [done|]. simpl. by rewrite He.
Qed.

Lemma debug_curves_stepped nv c : debug_stepped c (React.debug_curves nv c).
Proof.
  unfold React.debug_curves. cbv zeta.
  eapply stepped_trans; [|apply stepped_if; [by apply stepped_upd|apply stepped_refl]].
  eapply stepped_trans; [|apply stepped_if; [by apply stepped_upd|apply stepped_refl]].
  eapply stepped_trans; [|apply stepped_if; [by apply stepped_upd|apply stepped_refl]].
  apply stepped_if; [by apply stepped_upd|apply stepped_refl].
Qed.

Lemma debug_rotation_stepped current nv c :
  debug_stepped c (React.debug_rotation current nv c).
Proof.
  unfold React.debug_rotation. cbv zeta. apply stepped_if; [|apply stepped_refl].
  apply stepped_if; [by apply stepped_upd|apply stepped_refl].
Qed.

Lemma debug_colour_stepped current nv c :
  debug_stepped c (React.debug_colour current nv c).
Proof.
  unfold React.debug_colour. cbv zeta. apply stepped_if; [|apply stepped_refl].
  apply stepped_if; [by apply stepped_upd|apply stepped_refl].
Qed.

Lemma debug_turbulence_stepped nv c : debug_stepped c (React.debug_turbulence nv c).
Proof.
  unfold React.debug_turbulence. cbv zeta. apply stepped_if; [|apply stepped_refl].
  apply stepped_if; [|by apply stepped_upd].
  eapply stepped_trans; [|by apply stepped_upd]. by apply stepped_upd.
Qed.

Lemma debug_attractors_stepped nv c : debug_stepped c (React.debug_attractors nv c).
Proof.
  unfold React.debug_attractors. cbv zeta. apply stepped_if; [|apply stepped_refl].
  apply stepped_if; [by apply stepped_upd|apply stepped_refl].
Qed.

Lemma debug_collision_stepped nv c : debug_stepped c (React.debug_collision nv c).
Proof.
  unfold React.debug_collision. cbv zeta. apply stepped_if; [|apply stepped_refl].
  apply stepped_if; [by apply stepped_upd|apply stepped_refl].
Qed.

Lemma debug_position_stepped nv c : debug_stepped c (React.debug_position nv c).
Proof.
  unfold React.debug_position. apply stepped_if; [|apply stepped_refl].
  eapply stepped_trans; [|by apply stepped_call]. by apply stepped_upd.
Qed.

Lemma debug_refs_stepped nv c : debug_stepped c (React.debug_refs nv c).
Proof.
  unfold React.debug_refs. cbv zeta.
  eapply stepped_trans; [|apply stepped_if; [by apply stepped_upd|apply stepped_refl]].
  apply stepped_if; [by apply stepped_upd|apply stepped_refl].
Qed.

Lemma debug_autoStart_stepped nv c : debug_stepped c (React.debug_autoStart nv c).
Proof.
  unfold React.debug_autoStart. apply stepped_if; [by apply stepped_upd|apply stepped_refl].
Qed.

Lemma debug_blending_stepped nv c : debug_stepped c (React.debug_blending nv c).
Proof.
  unfold React.debug_blending. apply stepped_if; [by apply stepped_call|apply stepped_refl].
Qed.

Lemma debug_remount_stepped nv c : debug_stepped c (React.debug_remount nv c).
Proof.
  unfold React.debug_remount. cbv zeta.
  eapply stepped_trans; [|apply stepped_if; [by apply stepped_upd|apply stepped_refl]].
  eapply stepped_trans; [|apply stepped_if; [by apply stepped_upd|apply stepped_refl]].
  eapply stepped_trans; [|apply stepped_if; [by apply stepped_upd|apply stepped_refl]].
  eapply stepped_trans; [|apply stepped_if; [by apply stepped_upd|apply stepped_refl]].
  apply stepped_if; [|apply stepped_refl].
  eapply stepped_trans; [|by apply stepped_call]. by apply stepped_upd.
Qed.

Lemma debug_geometry_stepped nv c : debug_stepped c (React.debug_geometry nv c).
Proof.
  unfold React.debug_geometry. cbv zeta.
  apply stepped_if; [|apply stepped_refl].
  apply stepped_if; [|apply stepped_refl].
  apply stepped_if.
  - eapply stepped_trans; [|by apply stepped_upd].
    apply stepped_if; [|by apply stepped_upd].
    eapply stepped_trans; [|by apply stepped_log]. by apply stepped_upd.
  - assert (L : ∀ e f, debug_level e = true →
                  React.props (f (React.hooks c)) = React.props (React.hooks c) →
                  React.debugValuesRef (f (React.hooks c))
                  = React.debugValuesRef (React.hooks c) →
                  React.emitAccumulator (f (React.hooks c))
                  = React.emitAccumulator (React.hooks c) →
                  debug_stepped c (React.log e (React.upd f c))).
    { intros e f He P D A. eapply stepped_trans; [|by apply stepped_log].
      by apply stepped_upd. }
    apply stepped_if; [|by apply L].
    eapply stepped_trans; [|by apply stepped_upd].
    apply stepped_if; [|by apply L].
    eapply stepped_trans; [|by apply stepped_log]. by apply L.
Qed.

(** The statements of [handleDebugUpdate] after [updateUniformsPartial]. *)
Lemma debug_statements_stepped current nv c :
  debug_stepped c
    (React.debug_geometry nv
       (React.debug_remount nv
          (React.debug_blending nv
             (React.debug_autoStart nv
                (React.debug_refs nv
                   (React.debug_position nv
                      (React.debug_collision nv
                         (React.debug_attractors nv
                            (React.debug_turbulence nv
                               (React.debug_colour current nv
                                  (React.debug_rotation current nv
                                     (React.debug_curves nv c)))))))))))).
Proof.
  eapply stepped_trans; [|apply debug_geometry_stepped].
  eapply stepped_trans; [|apply debug_remount_stepped].
  eapply stepped_trans; [|apply debug_blending_stepped].
  eapply stepped_trans; [|apply debug_autoStart_stepped].
  eapply stepped_trans; [|apply debug_refs_stepped].
  eapply stepped_trans; [|apply debug_position_stepped].
  eapply stepped_trans; [|apply debug_collision_stepped].
  eapply stepped_trans; [|apply debug_attractors_stepped].
  eapply stepped_trans; [|apply debug_turbulence_stepped].
  eapply stepped_trans; [|apply debug_colour_stepped].
  eapply stepped_trans; [|apply debug_rotation_stepped].
  apply debug_curves_stepped.
Qed.

(** X13.  [handleDebugUpdate(newValues)] merges the new values into the
    values it keeps for the debug panel (a new value wins, every other key
    is kept), makes [updateUniformsPartial] its first call, on the current
    system and with the new values after the colour fallback, and apart
    from it calls nothing but [setPosition], the blending of the material,
    the invalidation of the system and the creation and disposal of
    geometries: it never constructs, initialises, disposes or spawns.  The
    memoised dependencies, the props and the emission accumulator are left
    as they are. *)
Theorem handleDebugUpdate_calls nv c :
  let c' := React.handleDebugUpdate nv c in
  let merged := nv ∪ React.debugValuesRef (React.hooks c) in
  React.debugValuesRef (React.hooks c') = merged
  ∧ (∀ k v, nv !! k = Some v → merged !! k = Some v)
  ∧ (∀ k, nv !! k = None → merged !! k = React.debugValuesRef (React.hooks c) !! k)
  ∧ (∃ rest,
       frame_calls c c'
       = EUniforms (React.system c) (React.debug_colour_fallback merged nv) :: rest
       ∧ forallb debug_level rest = true
       ∧ count is_new rest = 0 ∧ count is_spawn rest = 0 ∧ count is_dispose rest = 0)
  ∧ React.memo c' = React.memo c
  ∧ React.fresh c' = React.fresh c
  ∧ React.props (React.hooks c') = React.props (React.hooks c)
  ∧ React.emitAccumulator (React.hooks c') = React.emitAccumulator (React.hooks c).
Proof.
  cbv zeta. unfold React.handleDebugUpdate. cbv zeta.
  set (c1 := React.upd _ c).
  set (merged := nv ∪ React.debugValuesRef (React.hooks c)).
  change (React.debugValuesRef (React.hooks c1)) with merged.
  set (nv' := React.debug_colour_fallback merged nv).
  set (c2 := React.call (updateUniformsPartial nv') (λ s, EUniforms s nv') c1).
  destruct (debug_statements_stepped merged nv' c2) as (M & F & P & D & A & l & T & U).
  split; [by rewrite D|].
  split; [intros k v Hk; by apply lookup_union_Some_l|].
  split; [intros k Hk; by apply lookup_union_r|].
  split; [|by rewrite M, F, P, A].
  exists l. split; [|split; [done|]].
  - apply frame_calls_app. rewrite T. simpl. by rewrite <- app_assoc.
  - clear -U. induction l as [|e l IH]; [done|].
    simpl in U. apply andb_prop in U as [Ue U]. destruct (IH U) as (? & ? & ?).
    by destruct e.
Qed.
End MoreReact.

Section FramePacing.
Context `{!Imports} {Sys : Type} `{!VFXParticleSystem Sys} `{!React.CurveTextures}.
Implicit Types (st : VFXParticles Sys) (s : Sys) (nv : Options) (c : React.Component Sys).

(** X14.  The frame callback of the React component and [update] of the
    imperative wrapper pace auto-emission alike: started from the same
    emitting flag, the same accumulator and the same delay, on initialised
    systems, a frame of [delta] spawns in the one exactly when it spawns
    in the other, at most once, and leaves the same accumulator.  They
    differ in the order of the calls: the component runs the simulation
    step first and spawns after it, the wrapper spawns first and then
    runs the step on the system that has the new particles. *)
Theorem frame_pacing_agrees st s c delta :
  _system st = Some s →
  sys_initialized s = true →
  sys_initialized (React.system c) = true →
  React.emitting (React.hooks c) = _emitting st →
  React.delayRef (React.hooks c) = JNum (sys_delay s) →
  React.emitAccumulator (React.hooks c) = _emitAccumulator st →
  let st' := update delta st in
  let c' := React.useFrame delta c in
  count is_spawn (frame_calls c c') = count is_spawn (since st st')
  ∧ count is_spawn (since st st') ≤ 1
  ∧ React.emitAccumulator (React.hooks c') = _emitAccumulator st'
  ∧ head (frame_calls c c') = Some (ECompute (React.system c) delta)
  ∧ (∃ s1, last (since st st') = Some (EUpdate s1 delta)).
Proof.
  intros E I Ic Em Dl Ac. cbv zeta.
  split; [|split; [apply update_spawns_at_most_once|]].
  - unfold update, React.useFrame. rewrite E, I, Ic. simpl.
    rewrite Em, Dl. simpl. destruct (truthy (_emitting st)).
    + destruct (sys_position s) as [[px py] pz].
      destruct (num_truthy (sys_delay s)); simpl.
      * rewrite Ac. destruct (num_ge _ _); simpl.
        -- erewrite frame_calls_app; [|simpl; rewrite <- app_assoc; reflexivity].
           erewrite since_app; [|simpl; rewrite <- app_assoc; reflexivity]. done.
        -- rewrite E. erewrite frame_calls_app; [|reflexivity].
           erewrite since_app; [|reflexivity]. done.
      * erewrite frame_calls_app; [|simpl; rewrite <- app_assoc; reflexivity].
        erewrite since_app; [|simpl; rewrite <- app_assoc; reflexivity]. done.
    + rewrite E. erewrite frame_calls_app; [|reflexivity].
      erewrite since_app; [|reflexivity]. done.
  - unfold update, React.useFrame. rewrite E, I, Ic. simpl.
    rewrite Em, Dl. simpl. destruct (truthy (_emitting st)).
    + destruct (sys_position s) as [[px py] pz].
      destruct (num_truthy (sys_delay s)); simpl.
      * rewrite Ac. destruct (num_ge _ _); simpl.
        -- split; [by rewrite Ac|].
           erewrite frame_calls_app; [|simpl; rewrite <- app_assoc; reflexivity].
           erewrite since_app; [|simpl; rewrite <- app_assoc; reflexivity].
           split; [done|]. by eexists.
        -- rewrite E. split; [simpl; by rewrite Ac|].
           erewrite frame_calls_app; [|reflexivity].
           erewrite since_app; [|reflexivity]. split; [done|]. by eexists.
      * split; [done|].
        erewrite frame_calls_app; [|simpl; rewrite <- app_assoc; reflexivity].
        erewrite since_app; [|simpl; rewrite <- app_assoc; reflexivity].
        split; [done|]. by eexists.
    + rewrite E. split; [done|]. erewrite frame_calls_app; [|reflexivity].
      erewrite since_app; [|reflexivity]. split; [done|]. by eexists.
Qed.
End FramePacing.

Section Capacity.
Context `{!Imports} {Sys : Type} `{!VFXParticleSystem Sys} `{!React.CurveTextures}.
Implicit Types (st : VFXParticles Sys) (s : Sys) (nv : Options) (c : React.Component Sys).

Ltac by_cases :=
  repeat match goal with
         | |- context [if ?b then _ else _] => destruct b
         end;
  try reflexivity.

Lemma prop_debug_colour_fallback current nv k :
  k ≠ "colorStart" → k ≠ "colorEnd" →
  prop (React.debug_colour_fallback current nv) k = prop nv k.
Proof.
  intros K1 K2. unfold React.debug_colour_fallback.
  by_cases; by rewrite ?prop_insert_ne.
Qed.

Lemma capacity_kept_trans c1 c2 c3 :
  capacity_kept c1 c2 → capacity_kept c2 c3 → capacity_kept c1 c3.
Proof. unfold capacity_kept. congruence. Qed.

Lemma debug_curves_capacity nv c : capacity_kept c (React.debug_curves nv c).
Proof. unfold capacity_kept, React.debug_curves. by_cases. Qed.

Lemma debug_rotation_capacity current nv c :
  capacity_kept c (React.debug_rotation current nv c).
Proof. unfold capacity_kept, React.debug_rotation. by_cases. Qed.

Lemma debug_colour_capacity current nv c :
  capacity_kept c (React.debug_colour current nv c).
Proof. unfold capacity_kept, React.debug_colour. by_cases. Qed.

Lemma debug_turbulence_capacity nv c : capacity_kept c (React.debug_turbulence nv c).
Proof. unfold capacity_kept, React.debug_turbulence. by_cases. Qed.

Lemma debug_attractors_capacity nv c : capacity_kept c (React.debug_attractors nv c).
Proof. unfold capacity_kept, React.debug_attractors. by_cases. Qed.

Lemma debug_collision_capacity nv c : capacity_kept c (React.debug_collision nv c).
Proof. unfold capacity_kept, React.debug_collision. by_cases. Qed.

Lemma debug_position_capacity nv c : capacity_kept c (React.debug_position nv c).
Proof. unfold capacity_kept, React.debug_position. by_cases. Qed.

Lemma debug_refs_capacity nv c : capacity_kept c (React.debug_refs nv c).
Proof. unfold capacity_kept, React.debug_refs. by_cases. Qed.

Lemma debug_autoStart_capacity nv c : capacity_kept c (React.debug_autoStart nv c).
Proof. unfold capacity_kept, React.debug_autoStart. by_cases. Qed.

Lemma debug_blending_capacity nv c : capacity_kept c (React.debug_blending nv c).
Proof. unfold capacity_kept, React.debug_blending. by_cases. Qed.

Lemma before_remount_capacity current nv c :
  capacity_kept c
    (React.debug_blending nv
       (React.debug_autoStart nv
          (React.debug_refs nv
             (React.debug_position nv
                (React.debug_collision nv
                   (React.debug_attractors nv
                      (React.debug_turbulence nv
                         (React.debug_colour current nv
                            (React.debug_rotation current nv
                               (React.debug_curves nv c)))))))))).
Proof.
  eapply capacity_kept_trans; [|apply debug_blending_capacity].
  eapply capacity_kept_trans; [|apply debug_autoStart_capacity].
  eapply capacity_kept_trans; [|apply debug_refs_capacity].
  eapply capacity_kept_trans; [|apply debug_position_capacity].
  eapply capacity_kept_trans; [|apply debug_collision_capacity].
  eapply capacity_kept_trans; [|apply debug_attractors_capacity].
  eapply capacity_kept_trans; [|apply debug_turbulence_capacity].
  eapply capacity_kept_trans; [|apply debug_colour_capacity].
  eapply capacity_kept_trans; [|apply debug_rotation_capacity].
  apply debug_curves_capacity.
Qed.

Lemma debug_remount_invalidates nv c :
  React.changed nv "maxParticles" (React.activeMaxParticles (React.hooks c)) = true →
  React.system (React.debug_remount nv c) = sys_invalidate (React.system c)
  ∧ React.activeMaxParticles (React.hooks (React.debug_remount nv c))
    = prop nv "maxParticles".
Proof.
  intros Ch. unfold React.debug_remount. cbv zeta. rewrite Ch.
  split; by_cases.
Qed.

Lemma debug_geometry_system nv c :
  React.system (React.debug_geometry nv c) = React.system c
  ∧ capacity_kept c (React.debug_geometry nv c).
Proof. unfold capacity_kept, React.debug_geometry. cbv zeta. split; by_cases. Qed.

Lemma useFrame_uninitialised delta c :
  sys_initialized (React.system c) = false → React.useFrame delta c = c.
Proof. intros I. unfold React.useFrame. by rewrite I. Qed.

Lemma handleDebugUpdate_unfold nv c :
  let merged := nv ∪ React.debugValuesRef (React.hooks c) in
  let nv' := React.debug_colour_fallback merged nv in
  React.handleDebugUpdate nv c =
    React.debug_geometry nv'
      (React.debug_remount nv'
         (React.debug_blending nv'
            (React.debug_autoStart nv'
               (React.debug_refs nv'
                  (React.debug_position nv'
                     (React.debug_collision nv'
                        (React.debug_attractors nv'
                           (React.debug_turbulence nv'
                              (React.debug_colour merged nv'
                                 (React.debug_rotation merged nv'
                                    (React.debug_curves nv'
                                       (React.call (updateUniformsPartial nv')
                                          (λ s, EUniforms s nv')
                                          (React.upd
                                             (λ h, React.set_debugValuesRef
                                                     (nv ∪ React.debugValuesRef h) h)
                                             c))))))))))))).
Proof. reflexivity. Qed.

(** X15.  A new [maxParticles] from the debug panel suspends the frames:
    [handleDebugUpdate] records the new capacity in the state that the
    memoised system depends on and marks the running system as not
    initialised, so that every frame callback returns at once, without a
    simulation step or a spawn, until a render has built the new system. *)
Theorem capacity_change_suspends_frames nv c :
  React.changed nv "maxParticles" (React.activeMaxParticles (React.hooks c)) = true →
  (∀ s, sys_initialized (sys_invalidate s) = false) →
  let c' := React.handleDebugUpdate nv c in
  React.activeMaxParticles (React.hooks c') = prop nv "maxParticles"
  ∧ sys_initialized (React.system c') = false
  ∧ ∀ deltas, fold_left (λ c delta, React.useFrame delta c) deltas c' = c'.
Proof.
  intros Ch Inv. cbv zeta.
  pose proof (handleDebugUpdate_unfold nv c) as U. cbv zeta in U.
  remember (React.handleDebugUpdate nv c) as c' eqn:Ec. clear Ec.
  remember (React.debug_colour_fallback (nv ∪ React.debugValuesRef (React.hooks c)) nv)
    as nv' eqn:En.
  assert (P : prop nv' "maxParticles" = prop nv "maxParticles")
    by (subst nv'; by apply prop_debug_colour_fallback).
  clear En.
  remember (React.call (updateUniformsPartial nv') (λ s, EUniforms s nv')
              (React.upd (λ h, React.set_debugValuesRef
                                 (nv ∪ React.debugValuesRef h) h) c)) as c2 eqn:E2.
  assert (A2 : React.activeMaxParticles (React.hooks c2)
               = React.activeMaxParticles (React.hooks c)) by (by subst c2).
  clear E2.
  pose proof (before_remount_capacity (nv ∪ React.debugValuesRef (React.hooks c)) nv' c2)
    as K.
  match type of K with capacity_kept _ ?x => remember x as c3 eqn:E3 end. clear E3.
  unfold capacity_kept in K.
  assert (Ch' : React.changed nv' "maxParticles"
                  (React.activeMaxParticles (React.hooks c3)) = true).
  { rewrite K, A2. unfold React.changed in *. by rewrite P. }
  destruct (debug_remount_invalidates nv' c3 Ch') as (S4 & A4).
  destruct (debug_geometry_system nv' (React.debug_remount nv' c3)) as (S5 & A5).
  unfold capacity_kept in A5. rewrite <- U in S5, A5.
  assert (I : sys_initialized (React.system c') = false) by (rewrite S5, S4; apply Inv).
  split; [by rewrite A5, A4|]. split; [done|].
  induction deltas as [|delta deltas IH]; [done|].
  simpl. by rewrite useFrame_uninitialised.
Qed.
End Capacity.

Section Panel.
Context `{!Imports}.

Lemma geometry_args_complete params defaults :
  complete_args (React.geometry_args params defaults).
Proof.
  exists (map (λ kd, (fst kd, coalesce (member params (fst kd)) (JNum (Num (snd kd)))))
            defaults).
  split; [done|]. apply Forall_forall. intros [k v] Hin.
  apply list_elem_of_fmap in Hin as ([k' d] & [= -> ->] & _). simpl.
  by apply nullish_coalesce.
Qed.

Lemma strict_eq_string v n : strict_eq v (JStr n) = true → v = JStr n.
Proof.
  destruct v as [| | |[|]|m| | |]; try done. simpl.
  by intros ->%String.eqb_eq.
Qed.

Lemma lookup_geometry_known table n type defaults params :
  NoDup table.*1 → (n, (type, defaults)) ∈ table →
  React.lookup_geometry (JStr n) params table
  = (JStr type, React.geometry_args params defaults).
Proof.
  induction table as [|[n' [type' defaults']] table IH]; intros ND Hin.
  - by apply elem_of_nil in Hin.
  - apply NoDup_cons in ND as [Hn ND]. simpl.
    apply elem_of_cons in Hin as [[= <- <- <-] | Hin].
    + by rewrite String.eqb_refl.
    + destruct (String.eqb n n') eqn:Q; [|by apply IH].
      apply String.eqb_eq in Q. subst n'. exfalso. apply Hn.
      apply list_elem_of_fmap. by exists (n, (type, defaults)).
Qed.

Lemma lookup_geometry_unknown table name params :
  (∀ n, n ∈ table.*1 → name ≠ JStr n) →
  React.lookup_geometry name params table = (JStr "none", JNull).
Proof.
  induction table as [|[n' [type' defaults']] table IH]; intros Hn; [done|].
  simpl. destruct (strict_eq name (JStr n')) eqn:Q.
  - apply strict_eq_string in Q. exfalso. apply (Hn n'); [by left|done].
  - apply IH. intros n Hin. apply Hn. by right.
Qed.

Lemma geometry_args_member params defaults k d :
  NoDup defaults.*1 → (k, d) ∈ defaults →
  member (React.geometry_args params defaults) k
  = coalesce (member params k) (JNum (Num d)).
Proof.
  unfold React.geometry_args. simpl.
  induction defaults as [|[k' d'] defaults IH]; intros ND Hin.
  - by apply elem_of_nil in Hin.
  - apply NoDup_cons in ND as [Hn ND]. simpl.
    apply elem_of_cons in Hin as [[= <- <-] | Hin].
    + by rewrite String.eqb_refl.
    + destruct (String.eqb k k') eqn:Q; [|by apply IH].
      apply String.eqb_eq in Q. subst k'. exfalso. apply Hn.
      apply list_elem_of_fmap. by exists (k, d).
Qed.

Lemma geometries_distinct :
  NoDup React.GEOMETRIES.*1
  ∧ Forall (λ e, NoDup (snd (snd e)).*1 ∧ fst (snd e) ≠ "none") React.GEOMETRIES.
Proof.
  split.
  - refine (bool_decide_unpack (NoDup _) _). vm_compute. exact I.
  - unfold React.GEOMETRIES.
    repeat (apply Forall_cons; split;
            [split; [refine (bool_decide_unpack (NoDup _) _); vm_compute; exact I
                    |done]|]).
    apply Forall_nil_2.
Qed.

(** X16.  What the debug panel is told about the geometry.
    [detectGeometryTypeAndArgs] knows thirteen geometries by the name of
    their constructor.  For a geometry of one of them it answers the type
    that stands for it, which is never ["none"], and an object that has
    exactly the parameters of that geometry, each with the value the
    geometry has for it or, when that is [null] or [undefined], with its
    default.  For a falsy geometry, and for one whose constructor it does
    not know, it answers ["none"] and [null]. *)
Theorem detected_geometry_is_complete geo :
  map (λ e, (fst e, fst (snd e))) React.GEOMETRIES = KNOWN_GEOMETRIES
  ∧ (truthy geo = false → React.detectGeometryTypeAndArgs geo = (JStr "none", JNull))
  ∧ (∀ n type defaults,
       truthy geo = true →
       (n, (type, defaults)) ∈ React.GEOMETRIES →
       geometry_name geo = JStr n →
       fst (React.detectGeometryTypeAndArgs geo) = JStr type
       ∧ type ≠ "none"
       ∧ (∃ fields, snd (React.detectGeometryTypeAndArgs geo) = JObj fields
                    ∧ fields.*1 = defaults.*1)
       ∧ complete_args (snd (React.detectGeometryTypeAndArgs geo))
       ∧ ∀ k d, (k, d) ∈ defaults →
           member (snd (React.detectGeometryTypeAndArgs geo)) k
           = coalesce (member (geometry_parameters geo) k) (JNum (Num d)))
  ∧ (truthy geo = true →
     (∀ n, n ∈ KNOWN_GEOMETRIES.*1 → geometry_name geo ≠ JStr n) →
     React.detectGeometryTypeAndArgs geo = (JStr "none", JNull)).
Proof.
  destruct geometries_distinct as [ND De].
  split; [reflexivity|]. split; [|split].
  - intros T. unfold React.detectGeometryTypeAndArgs. by rewrite T.
  - intros n type defaults T Hin Hn.
    unfold React.detectGeometryTypeAndArgs. rewrite T. cbn [negb].
    fold (geometry_name geo). fold (geometry_parameters geo). rewrite Hn.
    rewrite (lookup_geometry_known _ n type defaults _ ND Hin). simpl.
    rewrite Forall_forall in De. destruct (De _ Hin) as [NDk Nn]. simpl in NDk, Nn.
    split; [done|]. split; [done|]. split; [|split].
    + eexists. split; [reflexivity|]. rewrite <- list_fmap_compose. done.
    + apply geometry_args_complete.
    + intros k d Hk. by apply geometry_args_member.
  - intros T Hn. unfold React.detectGeometryTypeAndArgs. rewrite T. cbn [negb].
    fold (geometry_name geo). apply lookup_geometry_unknown. exact Hn.
Qed.

Lemma lookup_insert_twice (o : Options) k1 k2 v1 v2 k :
  k ≠ k2 → (<[k1 := v1]> (<[k2 := v2]> o)) !! k = (<[k1 := v1]> o) !! k.
Proof.
  intros K. destruct (decide (k = k1)) as [->|K1].
  - by rewrite !lookup_insert_eq.
  - by rewrite !lookup_insert_ne.
Qed.

(** X17.  The colour fallback of the React component and the one of the
    imperative wrapper hand the same values to [updateUniformsPartial],
    except that the component also normalises a falsy [colorEnd] to
    [null]: the two results agree on every key other than [colorEnd],
    have [colorEnd] at the same time, and agree on whether it is truthy. *)
Theorem colour_fallbacks_agree current nv :
  let react := React.debug_colour_fallback current nv in
  let vanilla := colour_fallback current nv in
  (∀ k, k ≠ "colorEnd" → react !! k = vanilla !! k)
  ∧ has_key react "colorEnd" = has_key vanilla "colorEnd"
  ∧ truthy (prop react "colorEnd") = truthy (prop vanilla "colorEnd")
  ∧ (has_key vanilla "colorEnd" = true → truthy (prop vanilla "colorEnd") = false →
       prop react "colorEnd" = JNull).
Proof.
  cbv zeta. unfold React.debug_colour_fallback, colour_fallback.
  set (nv1 := if has_key nv "colorStart" && truthy (prop nv "colorStart")
                 && negb (truthy (prop current "colorEnd"))
              then <["colorEnd" := JNull]> nv else nv).
  destruct (has_key nv1 "colorEnd" && negb (truthy (prop nv1 "colorEnd"))) eqn:B.
  - apply andb_prop in B as [K F]. apply negb_true_iff in F.
    set (v := coalesce (prop nv1 "colorStart")
                (coalesce (prop current "colorStart") (JArr [JStr "#ffffff"]))).
    split; [intros k Hk; by apply lookup_insert_twice|].
    rewrite !(has_key_insert_ne _ "colorStart" "colorEnd") by done.
    rewrite !(prop_insert_ne _ "colorStart" "colorEnd") by done.
    rewrite has_key_insert, prop_insert, K, F. done.
  - split; [done|]. split; [done|]. split; [done|].
    intros K F. by rewrite K, F in B.
Qed.
End Panel.

Section Flags.
Context `{!Imports} {Sys : Type} `{!VFXParticleSystem Sys} `{!React.CurveTextures}.
Implicit Types (nv : Options) (c : React.Component Sys).

Ltac by_cases :=
  repeat match goal with
         | |- context [if ?b then _ else _] => destruct b
         end;
  try reflexivity.

Lemma xorb_set (needs active : bool) : (if xorb needs active then needs else active) = needs.
Proof. by destruct needs, active. Qed.

Lemma debug_curves_flags nv c : feature_flags (React.debug_curves nv c) = feature_flags c.
Proof. unfold feature_flags, React.debug_curves. by_cases. Qed.

Lemma debug_colour_flags current nv c :
  feature_flags (React.debug_colour current nv c) = feature_flags c.
Proof. unfold feature_flags, React.debug_colour. by_cases. Qed.

Lemma debug_position_flags nv c : feature_flags (React.debug_position nv c) = feature_flags c.
Proof. unfold feature_flags, React.debug_position. by_cases. Qed.

Lemma debug_refs_flags nv c : feature_flags (React.debug_refs nv c) = feature_flags c.
Proof. unfold feature_flags, React.debug_refs. by_cases. Qed.

Lemma debug_autoStart_flags nv c : feature_flags (React.debug_autoStart nv c) = feature_flags c.
Proof. unfold feature_flags, React.debug_autoStart. by_cases. Qed.

Lemma debug_blending_flags nv c : feature_flags (React.debug_blending nv c) = feature_flags c.
Proof. unfold feature_flags, React.debug_blending. by_cases. Qed.

Lemma debug_remount_flags nv c : feature_flags (React.debug_remount nv c) = feature_flags c.
Proof. unfold feature_flags, React.debug_remount. by_cases. Qed.

Lemma debug_geometry_flags nv c : feature_flags (React.debug_geometry nv c) = feature_flags c.
Proof. unfold feature_flags, React.debug_geometry. cbv zeta. by_cases. Qed.

Lemma debug_rotation_flags current nv c :
  feature_flags (React.debug_rotation current nv c)
  = (React.activeTurbulence (React.hooks c), React.activeAttractors (React.hooks c),
     React.activeCollision (React.hooks c),
     if has_key nv "rotation" || has_key nv "rotationSpeed"
     then isNonDefaultRotation
            (coalesce (prop nv "rotation")
               (coalesce (prop current "rotation") (JArr [JNum (Num 0); JNum (Num 0)])))
          || isNonDefaultRotation
               (coalesce (prop nv "rotationSpeed")
                  (coalesce (prop current "rotationSpeed")
                     (JArr [JNum (Num 0); JNum (Num 0)])))
     else React.activeNeedsRotation (React.hooks c)).
Proof.
  unfold feature_flags, React.debug_rotation. cbv zeta.
  destruct (has_key nv "rotation" || has_key nv "rotationSpeed"); [|done].
  match goal with
  | |- context [xorb ?n ?a] => destruct n; destruct a eqn:Ea; simpl in *; by rewrite ?Ea
  end.
Qed.

Lemma debug_turbulence_flags nv c :
  feature_flags (React.debug_turbulence nv c)
  = (if has_key nv "turbulence" then hasTurbulence nv
     else React.activeTurbulence (React.hooks c),
     React.activeAttractors (React.hooks c), React.activeCollision (React.hooks c),
     React.activeNeedsRotation (React.hooks c)).
Proof.
  unfold feature_flags, React.debug_turbulence, hasTurbulence. cbv zeta.
  destruct (has_key nv "turbulence"); [|done].
  match goal with
  | |- context [xorb ?n ?a] => destruct n; destruct a eqn:Ea; simpl in *; by rewrite ?Ea
  end.
Qed.

Lemma debug_attractors_flags nv c :
  feature_flags (React.debug_attractors nv c)
  = (React.activeTurbulence (React.hooks c),
     (if has_key nv "attractors" then hasAttractors nv
      else React.activeAttractors (React.hooks c)),
     React.activeCollision (React.hooks c), React.activeNeedsRotation (React.hooks c)).
Proof.
  unfold feature_flags, React.debug_attractors, hasAttractors. cbv zeta.
  destruct (has_key nv "attractors"); [|done].
  match goal with
  | |- context [xorb ?n ?a] => destruct n; destruct a eqn:Ea; simpl in *; by rewrite ?Ea
  end.
Qed.

Lemma debug_collision_flags nv c :
  feature_flags (React.debug_collision nv c)
  = (React.activeTurbulence (React.hooks c), React.activeAttractors (React.hooks c),
     (if has_key nv "collision" then hasCollision nv
      else React.activeCollision (React.hooks c)),
     React.activeNeedsRotation (React.hooks c)).
Proof.
  unfold feature_flags, React.debug_collision, hasCollision. cbv zeta.
  destruct (has_key nv "collision"); [|done].
  match goal with
  | |- context [xorb ?n ?a] => destruct n; destruct a eqn:Ea; simpl in *; by rewrite ?Ea
  end.
Qed.

Lemma coalesce_merged nv (old : Options) k d :
  coalesce (prop nv k) (coalesce (prop (nv ∪ old) k) d) = coalesce (prop (nv ∪ old) k) d.
Proof.
  unfold prop. destruct (nv !! k) as [v|] eqn:E.
  - rewrite (lookup_union_Some_l nv old k v E). simpl.
    unfold coalesce. by destruct (nullish v).
  - done.
Qed.

Lemma has_key_debug_colour_fallback current nv k :
  k ≠ "colorStart" → k ≠ "colorEnd" →
  has_key (React.debug_colour_fallback current nv) k = has_key nv k.
Proof.
  intros K1 K2. unfold React.debug_colour_fallback.
  by_cases; by rewrite ?has_key_insert_ne.
Qed.

(** X18.  The component derives its feature flags from a debug update by
    the rules of [setProps] of the wrapper, and keeps them: after
    [handleDebugUpdate(newValues)] the turbulence, attractors and collision
    flags are the wrapper's [hasTurbulence], [hasAttractors] and
    [hasCollision] of [newValues] when it names the key, the rotation flag
    is the wrapper's derivation from the merged values when [newValues]
    names [rotation] or [rotationSpeed], and a flag whose keys are not
    named is as it was. *)
Theorem debug_update_tracks_flags nv c :
  let c' := React.handleDebugUpdate nv c in
  let merged := nv ∪ React.debugValuesRef (React.hooks c) in
  React.activeTurbulence (React.hooks c')
  = (if has_key nv "turbulence" then hasTurbulence nv
     else React.activeTurbulence (React.hooks c))
  ∧ React.activeAttractors (React.hooks c')
    = (if has_key nv "attractors" then hasAttractors nv
       else React.activeAttractors (React.hooks c))
  ∧ React.activeCollision (React.hooks c')
    = (if has_key nv "collision" then hasCollision nv
       else React.activeCollision (React.hooks c))
  ∧ React.activeNeedsRotation (React.hooks c')
    = (if has_key nv "rotation" || has_key nv "rotationSpeed" then needsRotationOf merged
       else React.activeNeedsRotation (React.hooks c)).
Proof.
  cbv zeta.
  pose proof (handleDebugUpdate_unfold nv c) as U. cbv zeta in U.
  remember (React.handleDebugUpdate nv c) as c' eqn:Ec. clear Ec.
  set (merged := nv ∪ React.debugValuesRef (React.hooks c)) in *.
  remember (React.debug_colour_fallback merged nv) as nv' eqn:En.
  assert (P : ∀ k, k ≠ "colorStart" → k ≠ "colorEnd" →
                   prop nv' k = prop nv k ∧ has_key nv' k = has_key nv k).
  { intros k K1 K2. subst nv'.
    split; [by apply prop_debug_colour_fallback|by apply has_key_debug_colour_fallback]. }
  clear En.
  remember (React.call (updateUniformsPartial nv') (λ s, EUniforms s nv')
              (React.upd (λ h, React.set_debugValuesRef
                                 (nv ∪ React.debugValuesRef h) h) c)) as c2 eqn:E2.
  assert (F2 : feature_flags c2 = feature_flags c) by (by subst c2).
  clear E2.
  assert (F : feature_flags c'
              = ((if has_key nv' "turbulence" then hasTurbulence nv'
                  else React.activeTurbulence (React.hooks c)),
                 (if has_key nv' "attractors" then hasAttractors nv'
                  else React.activeAttractors (React.hooks c)),
                 (if has_key nv' "collision" then hasCollision nv'
                  else React.activeCollision (React.hooks c)),
                 (if has_key nv' "rotation" || has_key nv' "rotationSpeed"
                  then isNonDefaultRotation
                         (coalesce (prop nv' "rotation")
                            (coalesce (prop merged "rotation")
                               (JArr [JNum (Num 0); JNum (Num 0)])))
                       || isNonDefaultRotation
                            (coalesce (prop nv' "rotationSpeed")
                               (coalesce (prop merged "rotationSpeed")
                                  (JArr [JNum (Num 0); JNum (Num 0)])))
                  else React.activeNeedsRotation (React.hooks c)))).
  { rewrite U.
    rewrite debug_geometry_flags, debug_remount_flags, debug_blending_flags,
      debug_autoStart_flags, debug_refs_flags, debug_position_flags.
    rewrite debug_collision_flags.
    pose proof (debug_attractors_flags nv'
                  (React.debug_turbulence nv'
                     (React.debug_colour merged nv'
                        (React.debug_rotation merged nv' (React.debug_curves nv' c2)))))
      as Fa.
    pose proof (debug_turbulence_flags nv'
                  (React.debug_colour merged nv'
                     (React.debug_rotation merged nv' (React.debug_curves nv' c2))))
      as Ft.
    pose proof (debug_colour_flags merged nv'
                  (React.debug_rotation merged nv' (React.debug_curves nv' c2))) as Fc.
    pose proof (debug_rotation_flags merged nv' (React.debug_curves nv' c2)) as Fr.
    pose proof (debug_curves_flags nv' c2) as Fu.
    unfold feature_flags in *.
    injection F2 as T5 A5 C5 R5. injection Fu as T0 A0 C0 R0.
    injection Fr as T1 A1 C1 R1. injection Fc as T6 A6 C6 R6.
    injection Ft as T2 A2 C2 R2. injection Fa as T3 A3 C3 R3.
    rewrite T3, A3, C3, R3, T2, A2, C2, R2, T6, A6, C6, R6, T1, A1, C1, R1,
      T0, A0, C0, R0, T5, A5, C5, R5. reflexivity. }
  unfold feature_flags in F. injection F as -> -> -> ->.
  destruct (P "turbulence") as [Pt Kt]; [done..|].
  destruct (P "attractors") as [Pa Ka]; [done..|].
  destruct (P "collision") as [Pc Kc]; [done..|].
  destruct (P "rotation") as [Pr Kr]; [done..|].
  destruct (P "rotationSpeed") as [Ps Ks]; [done..|].
  unfold hasTurbulence, hasAttractors, hasCollision, needsRotationOf.
  rewrite Pt, Kt, Pa, Ka, Pc, Kc, Pr, Kr, Ps, Ks.
  subst merged. by rewrite !coalesce_merged.
Qed.
End Flags.

Section Applied.
Context `{!Imports} {Sys : Type} `{!VFXParticleSystem Sys}.
Implicit Types (st : VFXParticles Sys) (s : Sys) (nv : Options).

(** A statement of [_applyUniformUpdates] run on an instance that holds
    the system [s]: the calls [l] it makes and the system [s'] it leaves. *)
Lemma apply_position_calls nv st s :
  _system st = Some s →
  ∃ l s', trace (apply_position nv st) = trace st ++ l
          ∧ _system (apply_position nv st) = Some s'
          ∧ rtc uniform_call s s'
          ∧ (truthy (prop nv "position") = true →
               l = [ESetPosition s (prop nv "position")]).
Proof.
  intros E. unfold apply_position, on_system. rewrite E.
  destruct (truthy (prop nv "position")).
  - eexists _, _. repeat split. apply rtc_once. constructor.
  - exists [], s. by rewrite app_nil_r.
Qed.

Lemma apply_delay_calls nv st s :
  _system st = Some s →
  ∃ l s', trace (apply_delay nv st) = trace st ++ l
          ∧ _system (apply_delay nv st) = Some s'
          ∧ rtc uniform_call s s'
          ∧ (has_key nv "delay" = true →
               l = [ESetDelay s (coalesce (prop nv "delay") (JNum (Num 0)))]).
Proof.
  intros E. unfold apply_delay, on_system. rewrite E.
  destruct (has_key nv "delay").
  - eexists _, _. repeat split. apply rtc_once. constructor.
  - exists [], s. by rewrite app_nil_r.
Qed.

Lemma apply_emitCount_calls nv st s :
  _system st = Some s →
  ∃ l s', trace (apply_emitCount nv st) = trace st ++ l
          ∧ _system (apply_emitCount nv st) = Some s'
          ∧ rtc uniform_call s s'
          ∧ (has_key nv "emitCount" = true →
               l = [ESetEmitCount s (coalesce (prop nv "emitCount") (JNum (Num 1)))]).
Proof.
  intros E. unfold apply_emitCount, on_system. rewrite E.
  destruct (has_key nv "emitCount").
  - eexists _, _. repeat split. apply rtc_once. constructor.
  - exists [], s. by rewrite app_nil_r.
Qed.

Lemma apply_autoStart_calls nv st s :
  _system st = Some s →
  ∃ l s', trace (apply_autoStart nv st) = trace st ++ l
          ∧ _system (apply_autoStart nv st) = Some s'
          ∧ rtc uniform_call s s'
          ∧ (is_undefined (prop nv "autoStart") = false →
               _emitting (apply_autoStart nv st) = prop nv "autoStart"
               ∧ l = [if truthy (prop nv "autoStart") then EStart s else EStop s]).
Proof.
  intros E. unfold apply_autoStart, on_system.
  destruct (is_undefined (prop nv "autoStart")); simpl.
  - exists [], s. by rewrite app_nil_r.
  - rewrite E. destruct (truthy (prop nv "autoStart"));
      (eexists _, _; repeat split; apply rtc_once; constructor).
Qed.

Lemma apply_blending_calls nv st s :
  _system st = Some s →
  ∃ l s', trace (apply_blending nv st) = trace st ++ l
          ∧ _system (apply_blending nv st) = Some s'
          ∧ _emitting (apply_blending nv st) = _emitting st
          ∧ (is_undefined (prop nv "blending") = false →
               l = if sys_material s then [ESetBlending s (prop nv "blending")] else []).
Proof.
  intros E. unfold apply_blending, on_system. rewrite E. simpl.
  destruct (sys_material s), (is_undefined (prop nv "blending")); simpl;
    first [ by eexists _, _ | exists [], s; by rewrite app_nil_r ].
Qed.

(** The calls of the statements that follow [updateUniformsPartial]. *)
Lemma non_uniform_updates_calls nv st s :
  _system st = Some s →
  ∃ rest,
    trace (apply_blending nv
             (apply_autoStart nv
                (apply_emitCount nv (apply_delay nv (apply_position nv st)))))
    = trace st ++ rest
    ∧ (truthy (prop nv "position") = true →
         ∃ s1, ESetPosition s1 (prop nv "position") ∈ rest)
    ∧ (has_key nv "delay" = true →
         ∃ s1, ESetDelay s1 (coalesce (prop nv "delay") (JNum (Num 0))) ∈ rest)
    ∧ (has_key nv "emitCount" = true →
         ∃ s1, ESetEmitCount s1 (coalesce (prop nv "emitCount") (JNum (Num 1))) ∈ rest)
    ∧ (is_undefined (prop nv "autoStart") = false →
         _emitting (apply_blending nv
                      (apply_autoStart nv
                         (apply_emitCount nv (apply_delay nv (apply_position nv st)))))
         = prop nv "autoStart"
         ∧ ∃ s1, (if truthy (prop nv "autoStart") then EStart s1 else EStop s1) ∈ rest)
    ∧ (is_undefined (prop nv "blending") = false →
         ∃ s1, rtc uniform_call s s1
               ∧ (sys_material s1 = true →
                    ESetBlending s1 (prop nv "blending") ∈ rest)).
Proof.
  intros E.
  destruct (apply_position_calls nv st s E) as (l1 & s1 & T1 & E1 & R1 & P1).
  destruct (apply_delay_calls nv _ s1 E1) as (l2 & s2 & T2 & E2 & R2 & P2).
  destruct (apply_emitCount_calls nv _ s2 E2) as (l3 & s3 & T3 & E3 & R3 & P3).
  destruct (apply_autoStart_calls nv _ s3 E3) as (l4 & s4 & T4 & E4 & R4 & P4).
  destruct (apply_blending_calls nv _ s4 E4) as (l5 & s5 & T5 & E5 & Em5 & P5).
  exists (l1 ++ l2 ++ l3 ++ l4 ++ l5).
  split; [by rewrite T5, T4, T3, T2, T1, <- !app_assoc|].
  split; [|split; [|split; [|split]]].
  - intros C. exists s. rewrite (P1 C). apply elem_of_app. left. by left.
  - intros C. exists s1. rewrite (P2 C).
    apply elem_of_app. right. apply elem_of_app. left. by left.
  - intros C. exists s2. rewrite (P3 C).
    do 2 (apply elem_of_app; right). apply elem_of_app. left. by left.
  - intros C. destruct (P4 C) as [Em4 L4]. split; [by rewrite Em5|].
    exists s3. rewrite L4.
    do 3 (apply elem_of_app; right). apply elem_of_app. left. by left.
  - intros C. exists s4. split; [by do 3 (etrans; [eassumption|])|].
    rewrite (P5 C). intros ->. do 4 (apply elem_of_app; right). by left.
Qed.

Lemma lookup_colour_fallback config nv k :
  k ≠ "colorStart" → k ≠ "colorEnd" → colour_fallback config nv !! k = nv !! k.
Proof.
  intros K1 K2. unfold colour_fallback.
  repeat match goal with
         | |- context [if ?b then _ else _] => destruct b
         end; by rewrite ?lookup_insert_ne.
Qed.

Lemma truthy_has_key nv k : truthy (prop nv k) = true → has_key nv k = true.
Proof.
  unfold prop, has_key. destruct (nv !! k) as [v|]; [|done].
  intros _. apply bool_decide_eq_true. by eexists.
Qed.

Lemma colour_fallback_end_given config nv :
  truthy (prop nv "colorEnd") = true →
  colour_fallback (nv ∪ config) nv = nv.
Proof.
  intros T. pose proof (truthy_has_key _ _ T) as K.
  unfold colour_fallback. rewrite (prop_merge_l nv config "colorEnd" K), T.
  rewrite andb_false_r. by rewrite K, T.
Qed.

End Applied.

Section InPlace.
Context `{!Imports} {Sys : Type} `{!VFXParticleSystem Sys} `{!React.CurveTextures}.
Implicit Types (st : VFXParticles Sys) (s : Sys) (nv : Options) (c : React.Component Sys).

Ltac by_cases :=
  repeat match goal with
         | |- context [if ?b then _ else _] => destruct b
         end;
  try reflexivity.

(** The statements of [handleDebugUpdate] that do not call the system. *)
Lemma debug_curves_system nv c : React.system (React.debug_curves nv c) = React.system c.
Proof. unfold React.debug_curves. by_cases. Qed.

Lemma debug_rotation_system current nv c :
  React.system (React.debug_rotation current nv c) = React.system c.
Proof. unfold React.debug_rotation. by_cases. Qed.

Lemma debug_colour_system current nv c :
  React.system (React.debug_colour current nv c) = React.system c.
Proof. unfold React.debug_colour. by_cases. Qed.

Lemma debug_turbulence_system nv c :
  React.system (React.debug_turbulence nv c) = React.system c.
Proof. unfold React.debug_turbulence. by_cases. Qed.

Lemma debug_attractors_system nv c :
  React.system (React.debug_attractors nv c) = React.system c.
Proof. unfold React.debug_attractors. by_cases. Qed.

Lemma debug_collision_system nv c :
  React.system (React.debug_collision nv c) = React.system c.
Proof. unfold React.debug_collision. by_cases. Qed.

Lemma debug_refs_system nv c : React.system (React.debug_refs nv c) = React.system c.
Proof. unfold React.debug_refs. by_cases. Qed.

Lemma debug_autoStart_system nv c :
  React.system (React.debug_autoStart nv c) = React.system c.
Proof. unfold React.debug_autoStart. by_cases. Qed.

(** The statements that call it make uniform-level calls. *)
Lemma debug_position_system nv c :
  rtc uniform_call (React.system c) (React.system (React.debug_position nv c)).
Proof.
  unfold React.debug_position. destruct (truthy _); [|done].
  apply rtc_once. constructor.
Qed.

Lemma debug_blending_system nv c :
  rtc uniform_call (React.system c) (React.system (React.debug_blending nv c)).
Proof.
  unfold React.debug_blending. destruct (_ && _); [|done].
  apply rtc_once. constructor.
Qed.

Lemma debug_remount_system nv c :
  React.changed nv "maxParticles" (React.activeMaxParticles (React.hooks c)) = false →
  React.system (React.debug_remount nv c) = React.system c.
Proof. intros Ch. unfold React.debug_remount. cbv zeta. rewrite Ch. by_cases. Qed.

(** Unless it sets a new [maxParticles], [handleDebugUpdate] patches the
    system by uniform-level calls. *)
Lemma handleDebugUpdate_system nv c :
  React.changed nv "maxParticles" (React.activeMaxParticles (React.hooks c)) = false →
  rtc uniform_call (React.system c) (React.system (React.handleDebugUpdate nv c)).
Proof.
  intros Ch.
  pose proof (handleDebugUpdate_unfold nv c) as U. cbv zeta in U.
  remember (React.handleDebugUpdate nv c) as c' eqn:Ec. clear Ec.
  remember (React.debug_colour_fallback (nv ∪ React.debugValuesRef (React.hooks c)) nv)
    as nv' eqn:En.
  assert (P : prop nv' "maxParticles" = prop nv "maxParticles")
    by (subst nv'; by apply prop_debug_colour_fallback).
  clear En.
  remember (React.call (updateUniformsPartial nv') (λ s, EUniforms s nv')
              (React.upd (λ h, React.set_debugValuesRef
                                 (nv ∪ React.debugValuesRef h) h) c)) as c2 eqn:E2.
  assert (A2 : React.activeMaxParticles (React.hooks c2)
               = React.activeMaxParticles (React.hooks c)) by (by subst c2).
  assert (S2 : rtc uniform_call (React.system c) (React.system c2))
    by (subst c2; apply rtc_once; constructor).
  clear E2.
  pose proof (before_remount_capacity (nv ∪ React.debugValuesRef (React.hooks c)) nv' c2)
    as K.
  unfold capacity_kept in K.
  assert (Ch' : ∀ c3, React.activeMaxParticles (React.hooks c3)
                      = React.activeMaxParticles (React.hooks c) →
                      React.changed nv' "maxParticles"
                        (React.activeMaxParticles (React.hooks c3)) = false).
  { intros c3 ->. unfold React.changed in *. by rewrite P. }
  rewrite U.
  destruct (debug_geometry_system nv'
              (React.debug_remount nv'
                 (React.debug_blending nv'
                    (React.debug_autoStart nv'
                       (React.debug_refs nv'
                          (React.debug_position nv'
                             (React.debug_collision nv'
                                (React.debug_attractors nv'
                                   (React.debug_turbulence nv'
                                      (React.debug_colour
                                         (nv ∪ React.debugValuesRef (React.hooks c)) nv'
                                         (React.debug_rotation
                                            (nv ∪ React.debugValuesRef (React.hooks c))
                                            nv' (React.debug_curves nv' c2))))))))))))
    as [-> _].
  rewrite debug_remount_system by (apply Ch'; by rewrite K, A2).
  etrans; [|apply debug_blending_system].
  rewrite debug_autoStart_system, debug_refs_system.
  etrans; [|apply debug_position_system].
  by rewrite debug_collision_system, debug_attractors_system, debug_turbulence_system,
    debug_colour_system, debug_rotation_system, debug_curves_system.
Qed.

(** The statements that leave the remount-required state alone. *)
Lemma debug_rotation_rebuild current nv c :
  rebuild_state (React.debug_rotation current nv c) = rebuild_state c.
Proof. unfold rebuild_state, React.debug_rotation. by_cases. Qed.

Lemma debug_colour_rebuild current nv c :
  rebuild_state (React.debug_colour current nv c) = rebuild_state c.
Proof. unfold rebuild_state, React.debug_colour. by_cases. Qed.

Lemma debug_turbulence_rebuild nv c :
  rebuild_state (React.debug_turbulence nv c) = rebuild_state c.
Proof. unfold rebuild_state, React.debug_turbulence. by_cases. Qed.

Lemma debug_attractors_rebuild nv c :
  rebuild_state (React.debug_attractors nv c) = rebuild_state c.
Proof. unfold rebuild_state, React.debug_attractors. by_cases. Qed.

Lemma debug_collision_rebuild nv c :
  rebuild_state (React.debug_collision nv c) = rebuild_state c.
Proof. unfold rebuild_state, React.debug_collision. by_cases. Qed.

Lemma debug_position_rebuild nv c :
  rebuild_state (React.debug_position nv c) = rebuild_state c.
Proof. unfold rebuild_state, React.debug_position. by_cases. Qed.

Lemma debug_refs_rebuild nv c : rebuild_state (React.debug_refs nv c) = rebuild_state c.
Proof. unfold rebuild_state, React.debug_refs. by_cases. Qed.

Lemma debug_autoStart_rebuild nv c :
  rebuild_state (React.debug_autoStart nv c) = rebuild_state c.
Proof. unfold rebuild_state, React.debug_autoStart. by_cases. Qed.

Lemma debug_blending_rebuild nv c :
  rebuild_state (React.debug_blending nv c) = rebuild_state c.
Proof. unfold rebuild_state, React.debug_blending. by_cases. Qed.

(** The three statements that write it do nothing when [newValues] names
    none of their keys. *)
Section Unnamed.
Variable nv : Options.
Hypothesis T : touches nv REBUILD_KEYS = false.

Ltac named := unfold REBUILD_KEYS; repeat first [by left | right].

Lemma rebuild_key_unnamed k : k ∈ REBUILD_KEYS → has_key nv k = false.
Proof. by apply touches_false. Qed.

Lemma debug_curves_unnamed c : React.debug_curves nv c = c.
Proof.
  unfold React.debug_curves.
  by rewrite (rebuild_key_unnamed "fadeSizeCurve"),
    (rebuild_key_unnamed "fadeOpacityCurve"), (rebuild_key_unnamed "velocityCurve"),
    (rebuild_key_unnamed "rotationSpeedCurve") by named.
Qed.

Lemma debug_remount_unnamed c : React.debug_remount nv c = c.
Proof.
  unfold React.debug_remount, React.changed.
  by rewrite (prop_absent nv "maxParticles"), (prop_absent nv "lighting"),
    (prop_absent nv "appearance"), (prop_absent nv "orientToDirection"),
    (prop_absent nv "shadow") by (apply rebuild_key_unnamed; named).
Qed.

Lemma debug_geometry_unnamed c : React.debug_geometry nv c = c.
Proof.
  unfold React.debug_geometry.
  by rewrite (rebuild_key_unnamed "geometryType"), (rebuild_key_unnamed "geometryArgs")
    by named.
Qed.
End Unnamed.

Lemma touches_debug_colour_fallback current nv :
  touches nv REBUILD_KEYS = false →
  touches (React.debug_colour_fallback current nv) REBUILD_KEYS = false.
Proof.
  intros T. rewrite <- T. unfold touches, REBUILD_KEYS. cbn [existsb].
  by rewrite !has_key_debug_colour_fallback.
Qed.

Lemma handleDebugUpdate_rebuild nv c :
  touches nv REBUILD_KEYS = false →
  rebuild_state (React.handleDebugUpdate nv c) = rebuild_state c.
Proof.
  intros T. rewrite handleDebugUpdate_unfold. cbv zeta.
  set (merged := nv ∪ React.debugValuesRef (React.hooks c)).
  pose proof (touches_debug_colour_fallback merged nv T) as T'.
  remember (React.debug_colour_fallback merged nv) as nv' eqn:En. clear En.
  rewrite (debug_geometry_unnamed nv' T'), (debug_remount_unnamed nv' T').
  rewrite debug_blending_rebuild, debug_autoStart_rebuild, debug_refs_rebuild,
    debug_position_rebuild, debug_collision_rebuild, debug_attractors_rebuild,
    debug_turbulence_rebuild, debug_colour_rebuild, debug_rotation_rebuild.
  by rewrite (debug_curves_unnamed nv' T').
Qed.

(** The dependencies of the memoised system are read off the
    remount-required state and the feature flags. *)
Lemma dependencies_determined c c' :
  rebuild_state c' = rebuild_state c → flag_state c' = flag_state c →
  React.dependencies (React.hooks c') = React.dependencies (React.hooks c).
Proof.
  unfold rebuild_state, flag_state, React.dependencies, React.curveTexture.
  intros [= -> -> -> -> -> -> -> -> -> -> -> ->] [= -> -> -> -> ->]. reflexivity.
Qed.

Lemma debug_level_counts (l : list (Event Sys)) :
  forallb debug_level l = true →
  count is_new l = 0 ∧ count is_spawn l = 0 ∧ count is_dispose l = 0.
Proof.
  induction l as [|e l IH]; [done|]. simpl. intros [Ue U]%andb_prop.
  destruct (IH U) as (-> & -> & ->). by destruct e.
Qed.

End InPlace.

Section MoreRuns.
#[local] Existing Instance Model.imports.
#[local] Existing Instance Model.system.
#[local] Existing Instance Model.curves.

Lemma model_render_object_stable : render_object_stable.
Proof.
  split.
  - intros s s' M. destruct M as [s s' U| | | |]; [by destruct U|..]; simpl.
    + unfold Model.spawn. destruct (_ && _); [|done]. by destruct (Model.overwrite _ _ _ _).
    + unfold Model.update. by destruct (_ && _).
    + done.
    + done.
  - intros s s'. simpl. unfold Model.initialise. destruct (_ <=? _)%Z; [|done].
    by intros [= <-].
Qed.

Lemma model_invalidate_uninitialised (s : Model.System) :
  sys_initialized (sys_invalidate s) = false.
Proof. reflexivity. Qed.

Lemma idle_without_system_witness : since constructed (run idle_calls constructed) = [].
Proof.
  refine (proj1 (proj2 (idle_without_system idle_calls constructed _ _)));
    vm_compute; reflexivity.
Defined.

Lemma initialized_holds_system_witness : is_Some (_system (run eventful constructed)).
Proof.
  refine (initialized_holds_system 1 (Some demo_options) eventful _).
  vm_compute. reflexivity.
Defined.

Lemma init_fulfilled_witness : count is_new (since constructed demo) = 1.
Proof.
  destruct (init_fulfilled constructed demo) as (s0 & s & _ & _ & _ & _ & _ & _ & N).
  - vm_compute. reflexivity.
  - vm_compute. reflexivity.
  - exact N.
Defined.

Lemma init_rejected_witness : _initialized (fst (init oversized)) = false.
Proof.
  refine (proj1 (init_rejected oversized (fst (init oversized)) _)).
  vm_compute. reflexivity.
Defined.

Lemma init_completes_configuration_witness :
  _config (fst (init debugged)) = _config debugged ∪ DEFAULT_VALUES.
Proof.
  refine (proj1 (proj1 (init_completes_configuration debugged _) _));
    vm_compute; reflexivity.
Defined.

Lemma setProps_records_values_witness :
  _config (setProps gravity demo) !! "gravity" = (gravity ∪ _config demo) !! "gravity".
Proof.
  refine (proj1 (setProps_records_values gravity demo "gravity" _)).
  vm_compute. discriminate.
Defined.

Lemma group_holds_only_current_witness :
  length (group (run eventful constructed)) ≤ 1
  ∧ length (group (fst (resume (AwaitInit (awaited second_begun))
                          (fst (resume (AwaitInit (awaited first_begun))
                                  (fst second_begun)))))) = 2.
Proof.
  destruct (@group_holds_only_current _ Model.System _) as (_ & Seq & Over).
  split.
  - exact (proj2 (Seq model_render_object_stable 1 (Some demo_options) eventful)).
  - destruct (Over same_capacity same_capacity demo demo_system
                (fst first_begun) (fst second_begun)
                (awaited first_begun) (awaited second_begun)
                (default blank (sys_init (awaited first_begun)))
                (default blank (sys_init (awaited second_begun))))
      as (_ & G & _).
    + vm_compute. reflexivity.
    + vm_compute. reflexivity.
    + vm_compute. reflexivity.
    + vm_compute. reflexivity.
    + vm_compute. reflexivity.
    + vm_compute. reflexivity.
    + vm_compute. discriminate.
    + by rewrite G.
Defined.

Lemma detected_geometry_is_complete_witness :
  fst (React.detectGeometryTypeAndArgs sphere) = JStr "sphere"
  ∧ member (snd (React.detectGeometryTypeAndArgs sphere)) "radius" = JNum (Num 2)
  ∧ member (snd (React.detectGeometryTypeAndArgs sphere)) "widthSegments"
    = JNum (Num 16).
Proof.
  destruct (detected_geometry_is_complete sphere) as (_ & _ & K & _).
  destruct (K "SphereGeometry" "sphere"
              [("radius", (1 # 2)%Q); ("widthSegments", 16%Q); ("heightSegments", 12%Q)])
    as (Ty & _ & _ & _ & Ar).
  - vm_compute. reflexivity.
  - unfold React.GEOMETRIES. apply elem_of_cons. right. apply elem_of_cons. by left.
  - vm_compute. reflexivity.
  - split; [exact Ty|]. split.
    + rewrite (Ar "radius" (1 # 2)%Q); [reflexivity|]. apply elem_of_cons. by left.
    + rewrite (Ar "widthSegments" 16%Q); [reflexivity|].
      apply elem_of_cons. right. apply elem_of_cons. by left.
Defined.

Lemma nan_blocks_emission_witness : count is_spawn (since demo (update NaN demo)) = 0.
Proof.
  refine (proj1 (nan_blocks_emission demo demo_system NaN _ _ _)).
  - vm_compute. reflexivity.
  - vm_compute. reflexivity.
  - right. reflexivity.
Defined.

Lemma uniform_update_carries_start_colour_witness :
  ∃ rest, since demo (setProps red demo)
          = EUniforms demo_system (colour_fallback (red ∪ _config demo) red) :: rest.
Proof.
  refine (proj1 (uniform_update_carries_start_colour red demo demo_system _ _));
    vm_compute; reflexivity.
Defined.

Lemma setProps_without_system_witness :
  setProps gravity constructed = set_config (gravity ∪ _config constructed) constructed.
Proof.
  refine (proj1 (setProps_without_system gravity constructed _ _) _);
    vm_compute; reflexivity.
Defined.

Lemma successful_recreation_installs_new_witness :
  ∃ s', _system (setProps same_capacity demo) = Some s'
        ∧ _emitAccumulator (setProps same_capacity demo) = Num 0.
Proof.
  destruct (successful_recreation_installs_new same_capacity demo demo_system)
    as (s0 & s' & _ & _ & E & _ & A & _).
  - vm_compute. reflexivity.
  - vm_compute. reflexivity.
  - vm_compute. reflexivity.
  - exists s'. split; [exact E|exact A].
Defined.

Lemma frame_pacing_agrees_witness :
  count is_spawn (frame_calls paced_component
                    (React.useFrame (Num (3 # 4)) paced_component))
  = count is_spawn (since demo (update (Num (3 # 4)) demo)).
Proof.
  refine (proj1 (frame_pacing_agrees demo demo_system paced_component (Num (3 # 4))
                   _ _ _ _ _ _)); vm_compute; reflexivity.
Defined.

Lemma capacity_change_suspends_frames_witness :
  sys_initialized (React.system (React.handleDebugUpdate too_many paced_component))
  = false.
Proof.
  refine (proj1 (proj2 (capacity_change_suspends_frames too_many paced_component _
                          model_invalidate_uninitialised))).
  vm_compute. reflexivity.
Defined.
End MoreRuns.

Section ClaimRuns.
#[local] Existing Instance Model.imports.
#[local] Existing Instance Model.system.
#[local] Existing Instance Model.curves.



(** C4.  The code recreates the system when a structural key is reapplied
    with the value in effect.  On an initialised instance constructed with
    [maxParticles: 4], [setProps({maxParticles: 4})] names a value that is
    in the configuration already, yet it disposes the running system and
    constructs a new one, and the particles alive before the call are
    gone.  The debug-update path of the React component, given the same
    value, compares it with the active one, makes one uniform-level
    call and leaves the dependencies of the memoised
    system as they are. *)
Theorem reapplied_capacity_recreates :
  same_capacity ⊆ _config demo
  ∧ ¬ reapplying_recreates_nothing same_capacity demo
  ∧ count is_new (since demo (setProps same_capacity demo)) = 1
  ∧ count is_dispose (since demo (setProps same_capacity demo)) = 1
  ∧ (Model.particles <$> _system (setProps same_capacity (update (Num 1) demo)))
    ≠ (Model.particles <$> _system (update (Num 1) demo))
  ∧ length (frame_calls paced_component
              (React.handleDebugUpdate same_capacity paced_component)) = 1
  ∧ forallb uniform_level
      (frame_calls paced_component
         (React.handleDebugUpdate same_capacity paced_component)) = true
  ∧ same_values (React.memo paced_component)
      (React.dependencies
         (React.hooks (React.handleDebugUpdate same_capacity paced_component))) = true.
Proof.
  assert (S : same_capacity ⊆ _config demo)
    by (apply singleton_subseteq; vm_compute; reflexivity).
  split; [exact S|]. split; [|split; [|split; [|split; [|split; [|split]]]]].
  - intros H. specialize (H S). vm_compute in H. discriminate H.
  - vm_compute. reflexivity.
  - vm_compute. reflexivity.
  - vm_compute. discriminate.
  - vm_compute. reflexivity.
  - vm_compute. reflexivity.
  - vm_compute. reflexivity.
Qed.
End ClaimRuns.
